(** * gta-data-jobs-scan: the scrape pipeline of [job_scan.py] and its
    [job_scan copy.py] iterations, embedded in Rocq.

    Python [str] values are modelled as [string]: sequences of 8-bit
    characters.  The character tables ([isspace], [isdigit], [lower]) are
    Python's, restricted to code points below 128, so the embedding is exact
    on ASCII text; the en and em dash of the salary patterns are written as
    their UTF-8 encodings. *)

From Stdlib Require Import Ascii String List Bool Arith Lia.
From stdpp Require Import base list strings gmap.

(** ** Python string primitives *)

Module Py.

Definition code (c : ascii) : nat := nat_of_ascii c.

(** [str.isspace] on one character; also the class [\s] of [re] and the
    characters removed by [str.strip] and [str.split]. *)
Definition isspace (c : ascii) : bool :=
  let n := code c in
  ((9 <=? n) && (n <=? 13)) || ((28 <=? n) && (n <=? 32)).

(** The class [\d]. *)
Definition isdigit (c : ascii) : bool :=
  let n := code c in (48 <=? n) && (n <=? 57).

Definition lower_char (c : ascii) : ascii :=
  let n := code c in
  if (65 <=? n) && (n <=? 90) then ascii_of_nat (n + 32) else c.

(** [s.lower()] *)
Fixpoint lower (s : string) : string :=
  match s with
  | EmptyString => EmptyString
  | String c s' => String (lower_char c) (lower s')
  end.

(** [len(s)] *)
Definition len (s : string) : nat := String.length s.

(** [s.startswith(p)] *)
Fixpoint startswith (p s : string) : bool :=
  match p, s with
  | EmptyString, _ => true
  | String a p', String b s' => Ascii.eqb a b && startswith p' s'
  | String _ _, EmptyString => false
  end.

(** [needle in hay] *)
Fixpoint contains (needle hay : string) : bool :=
  startswith needle hay ||
  match hay with
  | EmptyString => false
  | String _ hay' => contains needle hay'
  end.

(** [s[:n]] *)
Fixpoint slice_to (n : nat) (s : string) : string :=
  match n, s with
  | S n', String c s' => String c (slice_to n' s')
  | _, _ => EmptyString
  end.

(** [s[n:]] *)
Fixpoint slice_from (n : nat) (s : string) : string :=
  match n, s with
  | S n', String _ s' => slice_from n' s'
  | _, _ => s
  end.

(** [s.lstrip()], [s.rstrip()], [s.strip()] *)
Fixpoint lstrip (s : string) : string :=
  match s with
  | EmptyString => EmptyString
  | String c s' => if isspace c then lstrip s' else s
  end.

Fixpoint rstrip (s : string) : string :=
  match s with
  | EmptyString => EmptyString
  | String c s' =>
      match rstrip s' with
      | EmptyString => if isspace c then EmptyString else String c EmptyString
      | r => String c r
      end
  end.

Definition strip (s : string) : string := rstrip (lstrip s).

(** [s.split()]: the maximal runs of non-whitespace characters.  [cur] is
    the word being read. *)
Fixpoint split_from (cur s : string) : list string :=
  match s with
  | EmptyString => match cur with EmptyString => [] | _ => [cur] end
  | String c s' =>
      if isspace c then
        match cur with
        | EmptyString => split_from EmptyString s'
        | _ => cur :: split_from EmptyString s'
        end
      else split_from (cur +:+ String c EmptyString) s'
  end.

Definition split (s : string) : list string := split_from EmptyString s.

(** [sep.join(l)] *)
Fixpoint join (sep : string) (l : list string) : string :=
  match l with
  | [] => EmptyString
  | [x] => x
  | x :: l' => x +:+ sep +:+ join sep l'
  end.

(** [" ".join(s.split())] *)
Definition normalize_spaces (s : string) : string := join " " (split s).

(** Truthiness of a string: [not s] is [true] exactly for the empty one. *)
Definition falsy (s : string) : bool :=
  match s with EmptyString => true | _ => false end.

(** Case-insensitive containment, as the spec words it: the lower-cased
    needle occurs in the lower-cased haystack. *)
Definition contains_ci (needle hay : string) : bool :=
  contains (lower needle) (lower hay).

(** A word: non-empty, no whitespace character. *)
Fixpoint nospace (s : string) : bool :=
  match s with
  | EmptyString => true
  | String c s' => negb (isspace c) && nospace s'
  end.

Definition is_word (w : string) : Prop := w <> EmptyString /\ nospace w = true.

(** Only whitespace. *)
Fixpoint blank (s : string) : bool :=
  match s with
  | EmptyString => true
  | String c s' => isspace c && blank s'
  end.

(** The first, the last character is not whitespace (if there is one). *)
Definition starts_clean (s : string) : bool :=
  match s with
  | EmptyString => true
  | String c _ => negb (isspace c)
  end.

Fixpoint clean_end (s : string) : bool :=
  match s with
  | EmptyString => true
  | String c EmptyString => negb (isspace c)
  | String _ s' => clean_end s'
  end.

(** The text without its whitespace. *)
Fixpoint squeeze (s : string) : string :=
  match s with
  | EmptyString => EmptyString
  | String c s' => if isspace c then squeeze s' else String c (squeeze s')
  end.

(** The only whitespace is single blanks between other characters, or one
    at either end: what a piece of a text joined from words looks like. *)
Fixpoint tidy (s : string) : bool :=
  match s with
  | EmptyString => true
  | String c s' =>
      (if isspace c then Ascii.eqb c " " && starts_clean s' else true)
      && tidy s'
  end.

End Py.

(** ** [fix_doubled_title] ([job_scan copy.py]) *)

Definition fix_doubled_title (text : string) : string :=
  if Py.falsy text then ""
  else
    let text := Py.normalize_spaces text in
    let parts := Py.split text in
    let half := length parts / 2 in
    if (2 <=? length parts) && (length parts mod 2 =? 0)
       && bool_decide (take half parts = drop half parts)
    then Py.join " " (take half parts)
    else
      let mid := Py.len text / 2 in
      if (4 <? Py.len text) && (Py.len text mod 2 =? 0)
         && bool_decide (Py.slice_to mid text = Py.slice_from mid text)
      then Py.slice_to mid text
      else text.

(** ** Regular expressions, with the backtracking order of Python's [re]

    [ends r s] lists, in the order in which the backtracking matcher tries
    them, the remainders of [s] after every way of matching [r] at the start
    of [s].  The first element is what [re] reports.  Quantifiers are greedy,
    alternatives are tried left to right; the patterns of this program use
    nothing else (no anchors, no look-around, no back-references). *)

Module Re.

Inductive regex : Type :=
| Eps                          (* the empty pattern *)
| Cls (p : ascii -> bool)      (* one character of a class *)
| Seq (a b : regex)            (* ab *)
| Alt (a b : regex)            (* a|b *)
| Opt (a : regex)              (* a? *)
| Star (a : regex).            (* a* *)

(** Iterations of a starred group that consume nothing are cut, as [re]
    does; the starred groups of this program always consume. *)
Fixpoint star_ends (f : string -> list string) (fuel : nat) (s : string)
  : list string :=
  match fuel with
  | 0 => [s]
  | S n =>
      flat_map (fun t => if Py.len t <? Py.len s then star_ends f n t else [])
               (f s) ++ [s]
  end.

Fixpoint ends (r : regex) (s : string) : list string :=
  match r with
  | Eps => [s]
  | Cls p =>
      match s with
      | String c s' => if p c then [s'] else []
      | EmptyString => []
      end
  | Seq a b => flat_map (ends b) (ends a s)
  | Alt a b => ends a s ++ ends b s
  | Opt a => ends a s ++ [s]
  | Star a => star_ends (ends a) (Py.len s) s
  end.

(** [pattern.match(s)]: the remainder after the match at the start of [s]. *)
Definition match_rest (r : regex) (s : string) : option string :=
  head (ends r s).

(** [pattern.search(s).group(0)]: the match at the leftmost position that has
    one, [None] when no position has. *)
Fixpoint search (r : regex) (s : string) : option string :=
  match match_rest r s with
  | Some rest => Some (Py.slice_to (Py.len s - Py.len rest) s)
  | None =>
      match s with
      | EmptyString => None
      | String _ s' => search r s'
      end
  end.

(** Derived forms. *)
Fixpoint cat (l : list regex) : regex :=
  match l with
  | [] => Eps
  | [r] => r
  | r :: l' => Seq r (cat l')
  end.

Definition plus (a : regex) : regex := Seq a (Star a).            (* a+ *)

Fixpoint times (n : nat) (a : regex) : regex :=                    (* a{n} *)
  match n with
  | 0 => Eps
  | 1 => a
  | S n' => Seq a (times n' a)
  end.

Fixpoint upto (n : nat) (a : regex) : regex :=                     (* a{0,n} *)
  match n with
  | 0 => Eps
  | S n' => Opt (Seq a (upto n' a))
  end.

Definition rep (lo hi : nat) (a : regex) : regex :=                (* a{lo,hi} *)
  Seq (times lo a) (upto (hi - lo) a).

(** A literal character; [chr_i] is the same under [re.IGNORECASE]. *)
Definition chr (c : ascii) : regex := Cls (fun x => Ascii.eqb x c).
Definition chr_i (c : ascii) : regex :=
  Cls (fun x => Ascii.eqb (Py.lower_char x) (Py.lower_char c)).

Fixpoint lit (s : string) : regex :=
  match s with
  | EmptyString => Eps
  | String c EmptyString => chr c
  | String c s' => Seq (chr c) (lit s')
  end.

Fixpoint lit_i (s : string) : regex :=
  match s with
  | EmptyString => Eps
  | String c EmptyString => chr_i c
  | String c s' => Seq (chr_i c) (lit_i s')
  end.

Fixpoint alts (l : list regex) : regex :=
  match l with
  | [] => Cls (fun _ => false)
  | [r] => r
  | r :: l' => Alt r (alts l')
  end.

Definition ws : regex := Cls Py.isspace.                            (* \s *)
Definition digit : regex := Cls Py.isdigit.                         (* \d *)

(** U+2013 and U+2014 in UTF-8. *)
Definition en_dash : string :=
  String "226" (String "128" (String "147" EmptyString)).
Definition em_dash : string :=
  String "226" (String "128" (String "148" EmptyString)).

(** Syntactic facts about a pattern, used by the proofs: [nullable r] when
    [r] can match the empty string; [tail_clean r] when no non-empty match of
    [r] ends in a whitespace character; [head_clean r] when every match of
    [r] starts with a character that is not whitespace. *)
Fixpoint nullable (r : regex) : bool :=
  match r with
  | Eps => true
  | Cls _ => false
  | Seq a b => nullable a && nullable b
  | Alt a b => nullable a || nullable b
  | Opt _ => true
  | Star _ => true
  end.

Definition space_chars : list ascii :=
  map ascii_of_nat [9; 10; 11; 12; 13; 28; 29; 30; 31; 32].

Definition no_space_in (p : ascii -> bool) : bool :=
  forallb (fun c => negb (p c)) space_chars.

Fixpoint tail_clean (r : regex) : bool :=
  match r with
  | Eps => true
  | Cls p => no_space_in p
  | Seq a b => tail_clean b && (tail_clean a || negb (nullable b))
  | Alt a b => tail_clean a && tail_clean b
  | Opt a => tail_clean a
  | Star a => tail_clean a
  end.

Fixpoint head_clean (r : regex) : bool :=
  match r with
  | Eps => false
  | Cls p => no_space_in p
  | Seq a _ => head_clean a
  | Alt a b => head_clean a && head_clean b
  | Opt _ => false
  | Star _ => false
  end.

(** [stable r]: whitespace added after the text does not change what the
    first match of [r] takes, unless the match took the whole text and
    goes on to take the added whitespace as well.  [trail_stable r] is a
    syntactic test for it. *)
Definition stable (r : regex) : Prop :=
  forall y w : string, Py.blank w = true ->
    match match_rest r (y +:+ w), match_rest r y with
    | Some z1, Some z2 =>
        z1 = z2 +:+ w \/ (z1 = EmptyString /\ z2 = EmptyString)
    | None, None => True
    | _, _ => False
    end.

Fixpoint trail_stable (r : regex) : bool :=
  tail_clean r ||
  match r with
  | Seq a b => trail_stable a && trail_stable b && nullable b
  | Opt a => trail_stable a
  | Star (Cls p) => forallb p space_chars
  | _ => false
  end.

(** [chop k t] is [t] without its last [k] characters; [cut k l] keeps the
    strings of [l] that have [k] characters to lose. *)
Definition chop (k : nat) (t : string) : option string :=
  if k <=? Py.len t then Some (Py.slice_to (Py.len t - k) t) else None.

Definition cut (k : nat) (l : list string) : list string :=
  omap (chop k) l.

End Re.

(** ** [clean_salary_text]

    The function is the same in every script; only the pattern differs.
    [text] is [None] for Python's [None]. *)

Definition NA : string := "N/A".

(** [job_scan.py]: the pattern is searched in the text as it is. *)
Definition clean_salary_text_with (salary_pattern : Re.regex)
    (text : option string) : string :=
  match text with
  | None => NA
  | Some text =>
      if Py.falsy text then NA
      else
        match Re.search salary_pattern text with
        | Some m => Py.strip m
        | None => NA
        end
  end.

(** [job_scan copy.py]: whitespace is collapsed first. *)
Definition clean_salary_text_norm_with (SALARY_RE : Re.regex)
    (text : option string) : string :=
  match text with
  | None => NA
  | Some text =>
      if Py.falsy text then NA
      else
        let t := Py.normalize_spaces text in
        match Re.search SALARY_RE t with
        | Some m => Py.strip m
        | None => NA
        end
  end.

(** The pieces of the two patterns. *)
Module Pat.
Import Re.

Definition digit_or_comma : regex :=                                (* [\d,] *)
  Cls (fun c => Py.isdigit c || Ascii.eqb c ",").
Definition comma_or_space : regex :=                                (* [,\s] *)
  Cls (fun c => Ascii.eqb c "," || Py.isspace c).
Definition dash : regex :=                                          (* [-–—] *)
  alts [chr "-"; lit en_dash; lit em_dash].

(** [job_scan.py]:
    [\$\s*[\d,]+(?:\.\d{2})?\s*(?:[-–—]\s*\$?\s*[\d,]+(?:\.\d{2})?)?(?:\s*(?:a|per|/)\s*(?:year|yr|annum|hour|hr|month|mo))?]
    under [re.IGNORECASE]. *)
Definition cents : regex := Opt (Seq (chr ".") (times 2 digit)).
Definition first_amount : regex :=
  cat [chr "$"; Star ws; plus digit_or_comma; cents].
Definition second_amount : regex :=
  cat [dash; Star ws; Opt (chr "$"); Star ws; plus digit_or_comma; cents].
Definition period : regex :=
  cat [Star ws; alts [chr_i "a"; lit_i "per"; chr "/"]; Star ws;
       alts [lit_i "year"; lit_i "yr"; lit_i "annum"; lit_i "hour";
             lit_i "hr"; lit_i "month"; lit_i "mo"]].
Definition salary_pattern : regex :=
  cat [first_amount; Star ws; Opt second_amount; Opt period].

(** [job_scan copy.py], [SALARY_RE] under [re.IGNORECASE | re.VERBOSE]:
    [(?:CA?\$|C\$|\$)\s*[\d]{1,3}(?:[,\s]\d{3})*(?:\.\d+)?\s*[kK]?]
    [(?:\s*(?:-|–|—|to)\s*(?:CA?\$|C\$|\$)?\s*[\d]{1,3}(?:[,\s]\d{3})*(?:\.\d+)?\s*[kK]?)?]
    [(?:\s*(?:/|per\s* )?(?:hour|hr|year|yr|month|mo|week|wk|day|annum))?]
    (written here with one blank more than the source, which this flag
    ignores). *)
Definition currency : regex :=
  alts [cat [chr_i "C"; Opt (chr_i "A"); chr "$"];
        cat [chr_i "C"; chr "$"];
        chr "$"].
Definition number : regex :=
  cat [rep 1 3 digit;
       Star (Seq comma_or_space (times 3 digit));
       Opt (Seq (chr ".") (plus digit))].
Definition kilo : regex := Opt (chr_i "k").                         (* [kK]? *)
Definition amount : regex := cat [currency; Star ws; number].
Definition range_to : regex :=
  cat [Star ws; alts [chr "-"; lit en_dash; lit em_dash; lit_i "to"]; Star ws;
       Opt currency; Star ws; number].
Definition range_part : regex := cat [range_to; Star ws; kilo].
Definition unit_part : regex :=
  cat [Star ws; Opt (alts [chr "/"; Seq (lit_i "per") (Star ws)]);
       alts [lit_i "hour"; lit_i "hr"; lit_i "year"; lit_i "yr";
             lit_i "month"; lit_i "mo"; lit_i "week"; lit_i "wk";
             lit_i "day"; lit_i "annum"]].
Definition SALARY_RE : regex :=
  cat [amount; Star ws; kilo; Opt range_part; Opt unit_part].

End Pat.

(** A currency-prefixed amount: a dollar sign followed, whitespace aside,
    by a character of class [p]; [priced] asks for a digit, [loosely_priced]
    for what [job_scan.py]'s class [[\d,]] takes. *)
Fixpoint dollar_then (p : ascii -> bool) (s : string) : bool :=
  match s with
  | EmptyString => false
  | String c s' =>
      (Ascii.eqb c "$"
       && match s' with String d _ => p d | EmptyString => false end)
      || dollar_then p s'
  end.

Definition priced_by (p : ascii -> bool) (text : string) : bool :=
  dollar_then p (Py.squeeze text).

Definition priced (text : string) : bool := priced_by Py.isdigit text.

Definition loosely_priced (text : string) : bool :=
  priced_by (fun c => Py.isdigit c || Ascii.eqb c ",") text.
(** ** What the scripts share *)

(** The configuration block at the top of each script. *)
Record Config := {
  KEYWORDS : list string;
  MAX_JOBS_TO_SCRAPE : nat;
  MAX_PAGES_PER_KEYWORD : nat;
  BAD_KEYWORDS : list string;
  STRONG_KEYWORDS : list string;
  AMBIGUOUS_KEYWORDS : list string;
  TECH_KEYWORDS : list string
}.

(** The values of [relevance] / [relevance_type]; [job_scan.py] spells the
    last two ["KEEP"] and ["CHECK"]. *)
Inductive Relevance : Type :=
| SKIP
| KEEP_IMMEDIATE
| CHECK_DESCRIPTION.

(** [any(kw in text for kw in kws)] *)
Definition any_in (kws : list string) (text : string) : bool :=
  existsb (fun kw => Py.contains kw text) kws.

(** The title filter, as every driver loop writes it inline: the exclusion
    test comes first and leaves the iteration ([continue]); then strong,
    then ambiguous keywords set [relevance], which starts as ["SKIP"]. *)
Definition classify_title (cfg : Config) (title : string) : Relevance :=
  let title_lower := Py.lower title in
  if any_in (BAD_KEYWORDS cfg) title_lower then SKIP
  else if any_in (STRONG_KEYWORDS cfg) title_lower then KEEP_IMMEDIATE
  else if any_in (AMBIGUOUS_KEYWORDS cfg) title_lower then CHECK_DESCRIPTION
  else SKIP.

(** The value of [should_save] once the record is extracted. *)
Definition should_save (cfg : Config) (relevance : Relevance)
    (description : string) : bool :=
  match relevance with
  | KEEP_IMMEDIATE => true
  | CHECK_DESCRIPTION =>
      negb (String.eqb description NA)
      && any_in (TECH_KEYWORDS cfg) (Py.lower description)
  | SKIP => false
  end.

(** [s.split("\n")[0]] and [s.split("?")[0]] *)
Fixpoint before_char (sep : ascii) (s : string) : string :=
  match s with
  | EmptyString => EmptyString
  | String c s' => if Ascii.eqb c sep then EmptyString else String c (before_char sep s')
  end.

Definition first_line (s : string) : string := before_char "010" s.
Definition before_query (s : string) : string := before_char "?" s.

(** [s.replace(old, "")]; [skip] counts the characters of an occurrence
    still to be dropped. *)
Fixpoint remove_from (old : string) (skip : nat) (s : string) : string :=
  match s with
  | EmptyString => EmptyString
  | String c s' =>
      match skip with
      | S k => remove_from old k s'
      | 0 =>
          if negb (Py.falsy old) && Py.startswith old s
          then remove_from old (Py.len old - 1) s'
          else String c (remove_from old 0 s')
      end
  end.

Definition remove_all (old s : string) : string := remove_from old 0 s.

(** What the card's [outerHTML] holds, as BeautifulSoup finds it: the title
    link with its text ([get_text(strip=True)]) and its [href] (the empty
    string when the attribute is missing), and the texts of the spans looked
    up by [data-testid]. *)
Record CardHtml := {
  title_tag : option (string * string);
  companyName : option string;
  searchSerpJobLocation : option string;
  searchSerpJobSalary : option string
}.

Definition SITE : string := "https://www.simplyhired.ca".

(** A call that returns or raises. *)
Inductive result (A : Type) : Type :=
| Returned (a : A)
| Raised.
Arguments Returned {A} a.
Arguments Raised {A}.
(** ** [job_scan.py] *)

Module JobScan.

Definition config : Config := {|
  KEYWORDS := ["data scientist"; "data analyst"];
  MAX_JOBS_TO_SCRAPE := 500;
  MAX_PAGES_PER_KEYWORD := 15;
  BAD_KEYWORDS :=
    ["intern"; "co-op"; "coop"; "student"; "summer"; "placement";
     "manager"; "director"; "head of"; "vp"; "president"; "chief";
     "principal"; "lead";
     "sales"; "customer service"; "technician"; "support"; "clerk"; "admin";
     "engineer";
     "marketing"; "account executive"; "driver"; "warehouse"; "nurse";
     "bilingual";
     "business analyst"; "business systems analyst";
     "business system analyst"];
  STRONG_KEYWORDS :=
    ["data scientist"; "data engineer"; "machine learning"; "ai engineer";
     "computer vision"; "nlp"; "business intelligence"; "deep learning";
     "data analyst"; "quantitative researcher"];
  AMBIGUOUS_KEYWORDS :=
    ["analyst"; "insights"; "consultant"; "scientist"; "researcher";
     "strategist"; "specialist"; "associate"];
  TECH_KEYWORDS :=
    ["sql"; "python"; " r "; "r-programming"; "tableau"; "power bi";
     "powerbi";
     "aws"; "azure"; "gcp"; "snowflake"; "etl"; "pipeline"; "modeling";
     "machine learning"; "statistical"; "looker"; "bigquery"; "spark";
     "hadoop"]
|}.

Definition clean_salary_text (text : option string) : string :=
  clean_salary_text_with Pat.salary_pattern text.

(** The record under construction is a Python [dict]: a field that was never
    assigned is absent, and reading it raises [KeyError]. *)
Abbreviation JobData := (gmap string string).

(** One read of the text of [viewJobBodyContainer] during the wait. *)
Inductive PaneRead : Type :=
| Text (s : string)
| NoSuchElement
| OtherError.

(** [WebDriverWait(driver, 7).until(cond)]: [polls] are the reads that fall
    within the timeout.  The wait returns at the first read whose text
    satisfies [cond]; [NoSuchElementException] is ignored and polling goes
    on; any other exception leaves the wait; when the reads are used up the
    wait raises [TimeoutException].  [true]: returned; [false]: raised. *)
Fixpoint wait_until (cond : string -> bool) (polls : list PaneRead) : bool :=
  match polls with
  | [] => false
  | Text t :: rest => if cond t then true else wait_until cond rest
  | NoSuchElement :: rest => wait_until cond rest
  | OtherError :: _ => false
  end.

(** The condition of the wait: [raw_title[:10] in pane_text]. *)
Definition pane_shows (raw_title pane_text : string) : bool :=
  Py.contains (Py.slice_to 10 raw_title) pane_text.

(** One [viewJobQualificationItem]: the text of its [detailText] child
    ([None]: not found) and its own text ([None]: reading it raises). *)
Record QualItem := {
  detailText : option string;
  item_text : option string
}.

(** The detail pane as read after the wait; [None]: the lookup raises. *)
Record Pane := {
  description_content : option string;
  compensation_detailText : option string;
  compensation : option string;
  qualification_items : option (list QualItem);
  posting_timestamp : option string
}.

Record Card := {
  text : option string;               (* [card.text]; [None]: raises *)
  outerHTML : option CardHtml;        (* [None]: step 1 raises *)
  click_ok : bool;                    (* scrolling and clicking do not raise *)
  pane_polls : list PaneRead;
  pane : Pane;
  now : string                        (* [time.strftime(...)] *)
}.

(** The loop over [quals_elems]; [None] when an exception leaves it. *)
Fixpoint qual_list (items : list QualItem) : option (list string) :=
  match items with
  | [] => Some []
  | q :: rest =>
      let t :=
        match detailText q with
        | Some t => Some t
        | None => option_map Py.strip (item_text q)
        end in
      match t, qual_list rest with
      | Some t, Some l => Some (t :: l)
      | _, _ => None
      end
  end.

Definition qualifications_of (p : Pane) : string :=
  match qualification_items p with
  | None => NA
  | Some items =>
      match qual_list items with
      | Some (q :: l) => Py.join "; " (q :: l)
      | _ => NA
      end
  end.

Definition parse_job_data (card : Card) : result (option JobData) :=
  match outerHTML card with
  | None => Returned None
  | Some soup =>
      (* 1. pre-click scrape *)
      let raw_title :=
        match title_tag soup with Some (t, _) => t | None => NA end in
      let href :=
        match title_tag soup with Some (_, h) => h | None => "" end in
      let href :=
        if negb (Py.falsy href) && negb (Py.startswith "http" href)
        then SITE +:+ href else href in
      let card_salary := default NA (searchSerpJobSalary soup) in
      let data : JobData :=
        <["location" := default NA (searchSerpJobLocation soup)]>
        (<["company" := default NA (companyName soup)]>
        (<["url" := before_query href]>
        (<["title" := raw_title]> ∅))) in
      (* 2. click and sync *)
      if negb (click_ok card) then Raised
      else if negb (wait_until (pane_shows raw_title) (pane_polls card)) then
        Returned (Some
          (<["scraped_at" := now card]>
          (<["date_posted" := NA]>
          (<["qualifications" := NA]>
          (<["salary" := clean_salary_text (Some card_salary)]>
          (<["description" := NA]> data))))))
      else
        (* 3. scrape the details pane *)
        let p := pane card in
        match description_content p with
        | None =>
            Returned (Some
              (<["scraped_at" := now card]> (<["description" := NA]> data)))
        | Some description =>
            let detail_sal :=
              match compensation_detailText p with
              | Some t => t
              | None => default card_salary (compensation p)
              end in
            let date_posted :=
              match posting_timestamp p with
              | Some t => Py.strip (remove_all "Posted" t)
              | None => NA
              end in
            Returned (Some
              (<["scraped_at" := now card]>
              (<["date_posted" := date_posted]>
              (<["qualifications" := qualifications_of p]>
              (<["salary" := clean_salary_text (Some detail_sal)]>
              (<["description" := description]> data))))))
        end
  end.

(** The output file, as the rows appended to it, and the counter. *)
Record RunState := {
  saved : list JobData;
  total_saved : nat
}.

(** [save_job] followed by [total_saved += 1]. *)
Definition save_job (job_data : JobData) (st : RunState) : RunState :=
  {| saved := saved st ++ [job_data]; total_saved := S (total_saved st) |}.

(** Step 3 of the loop body, [VERIFY & SAVE].  The [print] of the KEEP and
    VERIFIED branches reads [title] and [salary]: when one is absent the
    [KeyError] is caught by the loop and nothing is saved. *)
Definition verify_and_save (cfg : Config) (relevance : Relevance)
    (job_data : JobData) (st : RunState) : RunState :=
  match relevance with
  | KEEP_IMMEDIATE =>
      match job_data !! "title", job_data !! "salary" with
      | Some _, Some _ => save_job job_data st
      | _, _ => st
      end
  | CHECK_DESCRIPTION =>
      match job_data !! "description" with
      | Some description =>
          if should_save cfg CHECK_DESCRIPTION description then
            match job_data !! "title", job_data !! "salary" with
            | Some _, Some _ => save_job job_data st
            | _, _ => st
            end
          else st
      | None => st
      end
  | SKIP => st
  end.

(** The body of the loop over the cards, from the title filter on. *)
Definition process_card (cfg : Config) (st : RunState) (card : Card)
  : RunState :=
  match text card with
  | None => st
  | Some t =>
      match classify_title cfg (first_line t) with
      | SKIP => st
      | relevance =>
          match parse_job_data card with
          | Returned (Some job_data) => verify_and_save cfg relevance job_data st
          | _ => st
          end
      end
  end.

(** One page of results: whether [job-list] shows up within the wait, the
    cards found first, the cards found when the list is read again before
    card [i] ([None]: the read raises), and whether the next-page link is
    there and can be clicked. *)
Record PageView := {
  job_list_present : bool;
  cards_first : list Card;
  cards_at : nat -> option (list Card);
  next_page : bool
}.

(** [for i in range(len(cards))] *)
Fixpoint card_loop (cfg : Config) (page : PageView) (indices : list nat)
    (st : RunState) : RunState :=
  match indices with
  | [] => st
  | i :: rest =>
      if MAX_JOBS_TO_SCRAPE cfg <=? total_saved st then st
      else
        match cards_at page i with
        | None => card_loop cfg page rest st
        | Some cards =>
            match cards !! i with
            | None => st
            | Some card => card_loop cfg page rest (process_card cfg st card)
            end
        end
  end.

Definition scan_page (cfg : Config) (page : PageView) (st : RunState)
  : RunState :=
  card_loop cfg page (seq 0 (length (cards_first page))) st.

(** [while True] over the pages of one keyword, [page_num] counting from 1:
    the loop is left on a page error, at the record cap, when there is no
    next page, and when [page_num] exceeds the page cap after the click.
    [more_pages] is [MAX_PAGES_PER_KEYWORD - page_num]. *)
Fixpoint page_loop (cfg : Config) (session : nat -> PageView)
    (more_pages page_num : nat) (st : RunState) : RunState :=
  let page := session page_num in
  if negb (job_list_present page) then st
  else
    let st' := scan_page cfg page st in
    if MAX_JOBS_TO_SCRAPE cfg <=? total_saved st' then st'
    else if next_page page then
      match more_pages with
      | 0 => st'
      | S more_pages' => page_loop cfg session more_pages' (S page_num) st'
      end
    else st'.

(** [run]: [site kw] is what the site shows for keyword [kw], page by page. *)
Definition run (cfg : Config) (site : string -> nat -> PageView) : RunState :=
  fold_left
    (fun st kw =>
       page_loop cfg (site kw) (MAX_PAGES_PER_KEYWORD cfg - 1) 1 st)
    (KEYWORDS cfg)
    {| saved := []; total_saved := 0 |}.

End JobScan.
(** ** [job_scan copy.py], the iteration with the salary retries

    Only its qualification reader is needed here. *)

Module SalaryRetries.

(** [extract_qualifications]: [items] are the [textContent] attributes of the
    [viewJobQualificationItem] spans ([None] for an attribute that is not
    there, read as the empty string); the outer [None]: the lookup raises. *)
Fixpoint dedupe (seen : gset string) (quals : list string) : list string :=
  match quals with
  | [] => []
  | q :: rest =>
      if bool_decide (q ∈ seen) then dedupe seen rest
      else q :: dedupe ({[ q ]} ∪ seen) rest
  end.

Definition stripped_items (items : list (option string)) : list string :=
  filter (fun t => Py.falsy t = false)
         (map (fun el => Py.strip (default "" el)) items).

Definition extract_qualifications (items : option (list (option string)))
  : list string :=
  match items with
  | None => []
  | Some items => dedupe ∅ (stripped_items items)
  end.

(** [data["qualifications"] = "; ".join(quals) if quals else "N/A"] *)
Definition qualifications_field (items : option (list (option string)))
  : string :=
  match extract_qualifications items with
  | [] => NA
  | quals => Py.join "; " quals
  end.

End SalaryRetries.

(** ** [job_scan copy.py], the iteration with [run_scraper] *)

Module Scraper.

Definition config : Config := {|
  KEYWORDS := ["data analytics, statistical modeling"];
  MAX_JOBS_TO_SCRAPE := 60;
  MAX_PAGES_PER_KEYWORD := 3;
  BAD_KEYWORDS :=
    ["intern"; "co-op"; "coop"; "student"; "summer"; "placement";
     "manager"; "director"; "head of"; "vp"; "president"; "chief";
     "principal"; "lead";
     "sales"; "customer service"; "technician"; "support"; "clerk"; "admin";
     "marketing"; "account executive"; "driver"; "warehouse"; "nurse";
     "bilingual";
     "business analyst"; "business systems analyst";
     "business system analyst"; "financial analyst"];
  STRONG_KEYWORDS :=
    ["data scientist"; "data engineer"; "machine learning"; "ai engineer";
     "analytics";
     "computer vision"; "nlp"; "business intelligence"; "deep learning";
     "data analyst"; "quantitative researcher"; "statistical modeling";
     "statistician"];
  AMBIGUOUS_KEYWORDS :=
    ["analyst"; "insights"; "consultant"; "scientist"; "researcher";
     "strategist"; "specialist"; "associate"];
  TECH_KEYWORDS :=
    ["sql"; "python"; " r "; "r-programming"; "tableau"; "power bi";
     "powerbi";
     "aws"; "azure"; "gcp"; "snowflake"; "etl"; "pipeline"; "modeling";
     "models";
     "machine learning"; "statistical"; "looker"; "bigquery"; "spark";
     "hadoop"]
|}.

Definition REQUIRE_COMPANY : bool := true.
Definition REQUIRE_SALARY : bool := false.

Definition clean_salary_text (text : option string) : string :=
  clean_salary_text_norm_with Pat.SALARY_RE text.

(** [norm] and [is_missing], on strings. *)
Definition norm (s : string) : string := Py.strip s.

Definition is_missing (s : string) : bool :=
  let s := norm s in
  String.eqb s ""
  || bool_decide (Py.lower s ∈ ["n/a"; "na"; "none"; "null"]).

Record JobData := {
  title : string;
  company : string;
  url : string;
  description : string;
  salary : string;
  qualifications : string;
  scraped_at : string
}.

(** What one round of the synchronisation loop finds in the right pane, per
    selector of [pane_checks]; [None]: the lookup raises. *)
Record SyncView := {
  span_viewJobCompanyName : option string;
  any_viewJobCompanyName : option string;
  h2_viewJobBodyJobTitle : option string
}.

Inductive CheckType : Type :=
| check_company
| check_title.

Definition pane_checks (v : SyncView) : list (option string * CheckType) :=
  [(span_viewJobCompanyName v, check_company);
   (any_viewJobCompanyName v, check_company);
   (h2_viewJobBodyJobTitle v, check_title)].

(** The comparison of the card's value with the pane's text. *)
Definition company_matches (card_company txt : string) : bool :=
  Py.contains (Py.lower card_company) (Py.lower txt)
  || Py.contains (Py.lower txt) (Py.lower card_company).

Definition title_matches (card_title txt : string) : bool :=
  Py.contains (Py.lower (Py.slice_to 10 card_title)) (Py.lower txt).

(** One pass of the inner loop over [pane_checks]. *)
Definition check_matches (card_company card_title : string)
    (check : option string * CheckType) : bool :=
  match check with
  | (None, _) => false
  | (Some el_text, type_) =>
      let txt := Py.strip el_text in
      if Py.falsy txt then false
      else
        match type_ with
        | check_company => company_matches card_company txt
        | check_title => title_matches card_title txt
        end
  end.

Definition round_matches (card_company card_title : string) (v : SyncView)
  : bool :=
  existsb (check_matches card_company card_title) (pane_checks v).

Definition SYNC_ROUNDS : nat := 15.

(** [pane_matched] after [for _ in range(15)]; [views k] is the pane in
    round [k]. *)
Definition pane_matched (card_company card_title : string)
    (views : nat -> SyncView) : bool :=
  existsb (fun k => round_matches card_company card_title (views k))
          (seq 0 SYNC_ROUNDS).

(** The six-second poll of the description: [polls] are the reads that fall
    within it ([None]: the lookup raises). *)
Fixpoint poll_description (prev_desc : string) (polls : list (option string))
  : string :=
  match polls with
  | [] => NA
  | None :: rest => poll_description prev_desc rest
  | Some el_text :: rest =>
      let txt := Py.strip el_text in
      if negb (Py.falsy txt)
         && (negb (String.eqb txt prev_desc) || String.eqb prev_desc "")
      then txt
      else poll_description prev_desc rest
  end.

(** [q.text.strip() for q in quals if q.text and q.text.strip()]; [None] when
    reading a text raises. *)
Fixpoint qual_texts (quals : list (option string)) : option (list string) :=
  match quals with
  | [] => Some []
  | None :: _ => None
  | Some t :: rest =>
      match qual_texts rest with
      | None => None
      | Some l =>
          if negb (Py.falsy t) && negb (Py.falsy (Py.strip t))
          then Some (Py.strip t :: l) else Some l
      end
  end.

(** [data["qualifications"]] *)
Definition qualifications_field (quals : option (list (option string)))
  : string :=
  match quals with
  | None => NA
  | Some quals =>
      match qual_texts quals with
      | None => NA
      | Some l => if Py.falsy (Py.join "; " l) then NA else Py.join "; " l
      end
  end.

Record Card := {
  outerHTML : option CardHtml;          (* [None]: reading or parsing raises *)
  title_elem : option string;           (* text of [a[class*='jobTitle']] *)
  text : option string;                 (* [card.text] *)
  click_ok : bool;
  sync_views : nat -> SyncView;
  description_polls : list (option string);
  compensation : option string;         (* text of the compensation box *)
  body_container : option string;
  qualification_items : option (list (option string));
  now : string
}.

(** The card's URL, as both the driver loop and [parse_job_data] compute it. *)
Definition card_url (href : string) : string :=
  if negb (Py.falsy href) && negb (Py.startswith "http" href)
  then SITE +:+ before_query href else href.

Definition href_of (soup : CardHtml) : string :=
  match title_tag soup with Some (_, h) => h | None => "" end.

Definition parse_job_data (card : Card) (prev_desc : string)
  : option JobData :=
  match outerHTML card with
  | None => None
  | Some soup =>
      let title :=
        match title_tag soup with
        | Some (t, _) => fix_doubled_title t
        | None => ""
        end in
      let url := card_url (href_of soup) in
      let company := default "" (companyName soup) in
      if is_missing title || is_missing url then None
      else if REQUIRE_COMPANY && is_missing company then None
      else if negb (click_ok card) then None
      else if negb (pane_matched company title (sync_views card)) then None
      else
        let desc_text := poll_description prev_desc (description_polls card) in
        let salary :=
          match compensation card with
          | Some t => clean_salary_text (Some t)
          | None =>
              match body_container card with
              | Some t => clean_salary_text (Some t)
              | None => NA
              end
          end in
        if REQUIRE_SALARY && is_missing salary then None
        else
          Some {| title := title; company := company; url := url;
                  description := desc_text; salary := salary;
                  qualifications :=
                    qualifications_field (qualification_items card);
                  scraped_at := now card |}
  end.

(** The state of a run. *)
Record State := {
  seen_urls : gset string;
  seen_signatures : gset (string * string);
  new_jobs_buffer : list JobData;
  total_saved_this_run : nat
}.

Definition signature (title company : string) : string * string :=
  (Py.strip (Py.lower title), Py.strip (Py.lower company)).

(** [if should_save:] at the end of the loop body. *)
Definition buffer_job (job_data : JobData) (st : State) : State :=
  {| seen_urls := {[ url job_data ]} ∪ seen_urls st;
     seen_signatures :=
       {[ signature (title job_data) (company job_data) ]}
       ∪ seen_signatures st;
     new_jobs_buffer := new_jobs_buffer st ++ [job_data];
     total_saved_this_run := S (total_saved_this_run st) |}.

(** The loop body from [prev_description = job_data["description"]] on: it
    is reached by the records that passed both duplicate tests. *)
Definition verify_and_buffer (cfg : Config) (relevance : Relevance)
    (job_data : JobData) (st : State) : State :=
  if should_save cfg relevance (description job_data)
  then buffer_job job_data st else st.

(** The body of the loop over the SimplyHired cards; the second component
    is [prev_description]. *)
Definition process_card (cfg : Config) (st : State) (prev_description : string)
    (card : Card) : State * string :=
  (* duplicate URL test at card level *)
  let dup_on_card :=
    match outerHTML card with
    | Some soup =>
        let check_url := card_url (href_of soup) in
        negb (Py.falsy check_url) && bool_decide (check_url ∈ seen_urls st)
    | None => false
    end in
  if dup_on_card then (st, prev_description)
  else
    (* title for the relevance tests *)
    let raw_title :=
      match title_elem card with
      | Some t => Some (fix_doubled_title (Py.strip t))
      | None => option_map (fun t => fix_doubled_title (norm (first_line t)))
                           (text card)
      end in
    match raw_title with
    | None => (st, prev_description)
    | Some raw_title =>
        if is_missing raw_title then (st, prev_description)
        else
          match classify_title cfg raw_title with
          | SKIP => (st, prev_description)
          | relevance_type =>
              match parse_job_data card prev_description with
              | None => (st, prev_description)
              | Some job_data =>
                  if bool_decide (url job_data ∈ seen_urls st)
                  then (st, prev_description)
                  else if bool_decide
                            (signature (title job_data) (company job_data)
                             ∈ seen_signatures st)
                  then (st, prev_description)
                  else (verify_and_buffer cfg relevance_type job_data st,
                        description job_data)
              end
          end
    end.

(** One page of SimplyHired results. *)
Record PageView := {
  job_list_present : bool;
  cards_first : list Card;
  cards_at : nat -> option (list Card);
  next_page : bool
}.

(** [for i in range(len(cards))]: an index past the end of the list read
    again raises [IndexError], which the loop body catches. *)
Fixpoint card_loop (cfg : Config) (page : PageView) (indices : list nat)
    (st : State) (prev_description : string) : State :=
  match indices with
  | [] => st
  | i :: rest =>
      if MAX_JOBS_TO_SCRAPE cfg <=? total_saved_this_run st then st
      else
        match cards_at page i ≫= (fun cards => cards !! i) with
        | None => card_loop cfg page rest st prev_description
        | Some card =>
            let '(st', prev') := process_card cfg st prev_description card in
            card_loop cfg page rest st' prev'
        end
  end.

Definition scan_page (cfg : Config) (page : PageView) (st : State) : State :=
  card_loop cfg page (seq 0 (length (cards_first page))) st "".

(** [while page_num <= MAX_PAGES_PER_KEYWORD]; [pages_left] is
    [MAX_PAGES_PER_KEYWORD + 1 - page_num].  The wait for [job-list] is not
    guarded: when it times out the exception leaves [run_scraper]'s [try].
    The state is a set of shared objects, so what was done before an
    exception stays done; the flag is [false] when an exception is under
    way. *)
Fixpoint page_loop (cfg : Config) (session : nat -> PageView)
    (pages_left page_num : nat) (st : State) : State * bool :=
  match pages_left with
  | 0 => (st, true)
  | S pages_left' =>
      let page := session page_num in
      if negb (job_list_present page) then (st, false)
      else
        let st' := scan_page cfg page st in
        if MAX_JOBS_TO_SCRAPE cfg <=? total_saved_this_run st' then (st', true)
        else if next_page page
             then page_loop cfg session pages_left' (S page_num) st'
             else (st', true)
  end.

(** The SimplyHired part of [run_scraper]: [for kw in KEYWORDS]. *)
Fixpoint simplyhired (cfg : Config) (site : string -> nat -> PageView)
    (keywords : list string) (st : State) : State * bool :=
  match keywords with
  | [] => (st, true)
  | kw :: rest =>
      match page_loop cfg (site kw) (MAX_PAGES_PER_KEYWORD cfg) 1 st with
      | (st', true) => simplyhired cfg site rest st'
      | (st', false) => (st', false)
      end
  end.

(** *** The LinkedIn part *)

(** A LinkedIn card and what the pane shows once it is clicked. *)
Record LiCard := {
  (* the texts of the three title selectors in the card's HTML
     ([None]: no such node); the outer [None]: scrolling to the card or
     reading its HTML raises *)
  li_outerHTML : option (list (option string));
  (* text of [.job-card-list__title]; [None]: the lookup raises *)
  li_title_elem : option string;
  (* [href] of [a.job-card-list__title] and of [a.job-card-container__link]:
     [None] when the lookup raises, the empty string for no attribute *)
  li_href_title : option string;
  li_href_link : option string;
  li_click_ok : bool;
  (* per round, the texts under the four [pane_title_selectors] *)
  li_pane_titles : nat -> list (option string);
  (* the texts under the six selectors of [linkedin_company_from_pane] *)
  li_company_reads : list (option string);
  li_description_polls : list (option string);
  li_now : string
}.

Fixpoint linkedin_title_from_card_html (nodes : list (option string))
  : string :=
  match nodes with
  | [] => ""
  | Some txt :: rest =>
      if Py.falsy txt then linkedin_title_from_card_html rest
      else fix_doubled_title txt
  | None :: rest => linkedin_title_from_card_html rest
  end.

Definition linkedin_url_from_card (card : LiCard) : string :=
  match li_href_title card with
  | Some href => if Py.falsy href then "" else before_query href
  | None =>
      match li_href_link card with
      | Some href => if Py.falsy href then "" else before_query href
      | None => ""
      end
  end.

Fixpoint linkedin_company_from_pane (reads : list (option string)) : string :=
  match reads with
  | [] => ""
  | Some t :: rest =>
      if Py.falsy (Py.strip t) then linkedin_company_from_pane rest
      else Py.strip t
  | None :: rest => linkedin_company_from_pane rest
  end.

(** The comparison of the card title with a pane title. *)
Definition li_title_matches (raw_title : string) (el_text : option string)
  : bool :=
  match el_text with
  | None => false
  | Some el_text =>
      let txt := fix_doubled_title (Py.strip el_text) in
      if Py.falsy txt then false
      else Py.contains (Py.lower raw_title) (Py.lower txt)
           || Py.contains (Py.lower txt) (Py.lower raw_title)
  end.

Definition li_pane_matched (raw_title : string)
    (views : nat -> list (option string)) : bool :=
  existsb (fun k => existsb (li_title_matches raw_title) (views k))
          (seq 0 SYNC_ROUNDS).

(** [if should_save:] at the end of the LinkedIn loop body: the record goes
    to the buffer, its URL to the seen set unless it is empty, its
    signature to the seen signatures. *)
Definition li_buffer_job (job_url : string) (sig : string * string)
    (data : JobData) (st : State) : State :=
  {| seen_urls :=
       if Py.falsy job_url then seen_urls st
       else {[ job_url ]} ∪ seen_urls st;
     seen_signatures := {[ sig ]} ∪ seen_signatures st;
     new_jobs_buffer := new_jobs_buffer st ++ [data];
     total_saved_this_run := total_saved_this_run st |}.

(** The body of [for card in cards]; the second component is
    [prev_description]. *)
Definition li_process_card (cfg : Config) (st : State)
    (prev_description : string) (card : LiCard) : State * string :=
  match li_outerHTML card with
  | None => (st, prev_description)
  | Some card_html =>
      let raw_title :=
        match li_title_elem card with
        | Some t => fix_doubled_title (Py.strip t)
        | None => linkedin_title_from_card_html card_html
        end in
      let job_url := linkedin_url_from_card card in
      if is_missing raw_title then (st, prev_description)
      else if negb (Py.falsy job_url) && bool_decide (job_url ∈ seen_urls st)
      then (st, prev_description)
      else if negb (li_click_ok card) then (st, prev_description)
      else if negb (li_pane_matched raw_title (li_pane_titles card))
      then (st, prev_description)
      else
        let raw_company := linkedin_company_from_pane (li_company_reads card) in
        if REQUIRE_COMPANY && is_missing raw_company
        then (st, prev_description)
        else
          let sig := signature raw_title raw_company in
          if bool_decide (sig ∈ seen_signatures st) then (st, prev_description)
          else
            match classify_title cfg raw_title with
            | SKIP => (st, prev_description)
            | relevance_type =>
                let description :=
                  poll_description prev_description
                                   (li_description_polls card) in
                let prev' :=
                  if negb (String.eqb description NA) then description
                  else prev_description in
                if should_save cfg relevance_type description then
                  let data :=
                    {| title := raw_title;
                       url := if Py.falsy job_url then NA else job_url;
                       company := raw_company;
                       description := description;
                       salary := NA;
                       qualifications := NA;
                       scraped_at := li_now card |} in
                  (li_buffer_job job_url sig data st, prev')
                else (st, prev')
            end
  end.

(** One page of LinkedIn results. *)
Record LiPageView := {
  li_cards_present : bool;          (* the wait for [.job-card-container] *)
  li_cards : list LiCard;
  li_next_page : bool
}.

(** How a loop is left: by running out, or by the [return] at the cap. *)
Inductive Exit : Type :=
| Goes_on
| Return.

(** [for card in cards] *)
Fixpoint li_card_loop (cfg : Config) (cards : list LiCard) (st : State)
    (prev_description : string) : State * string * Exit :=
  match cards with
  | [] => (st, prev_description, Goes_on)
  | card :: rest =>
      if MAX_JOBS_TO_SCRAPE cfg <=? length (new_jobs_buffer st)
      then (st, prev_description, Return)
      else
        let '(st', prev') := li_process_card cfg st prev_description card in
        li_card_loop cfg rest st' prev'
  end.

(** [while True] over the pages of one keyword; [rounds] bounds the
    iterations, which the page cap limits to one more than
    [MAX_PAGES_PER_KEYWORD]. *)
Fixpoint li_page_loop (cfg : Config) (session : nat -> LiPageView)
    (rounds current_page_num : nat) (st : State) (prev_description : string)
  : State * string * Exit :=
  match rounds with
  | 0 => (st, prev_description, Goes_on)
  | S rounds' =>
      if MAX_JOBS_TO_SCRAPE cfg <=? length (new_jobs_buffer st)
      then (st, prev_description, Return)
      else if MAX_PAGES_PER_KEYWORD cfg <? current_page_num
      then (st, prev_description, Goes_on)
      else
        let page := session current_page_num in
        if negb (li_cards_present page) then (st, prev_description, Goes_on)
        else
          match li_card_loop cfg (li_cards page) st prev_description with
          | (st', prev', Return) => (st', prev', Return)
          | (st', prev', Goes_on) =>
              if li_next_page page
              then li_page_loop cfg session rounds' (S current_page_num)
                                st' prev'
              else (st', prev', Goes_on)
          end
  end.

Fixpoint li_keywords (cfg : Config) (site : string -> nat -> LiPageView)
    (keywords : list string) (st : State) (prev_description : string)
  : State :=
  match keywords with
  | [] => st
  | kw :: rest =>
      match li_page_loop cfg (site kw) (S (MAX_PAGES_PER_KEYWORD cfg)) 1
                         st prev_description with
      | (st', _, Return) => st'
      | (st', prev', Goes_on) => li_keywords cfg site rest st' prev'
      end
  end.

Definition scrape_linkedin_authenticated (cfg : Config)
    (site : string -> nat -> LiPageView) (st : State) : State :=
  li_keywords cfg site (KEYWORDS cfg) st "".

(** [run_scraper]: [old_urls] and [old_signatures] are what the existing
    output file holds; the result is the state when [finally] is entered,
    whose buffer is what gets appended to the file. *)
Definition run_scraper (cfg : Config)
    (old_urls : gset string) (old_signatures : gset (string * string))
    (simplyhired_site : string -> nat -> PageView)
    (linkedin_site : string -> nat -> LiPageView) : State :=
  let st0 := {| seen_urls := old_urls;
                seen_signatures := old_signatures;
                new_jobs_buffer := [];
                total_saved_this_run := 0 |} in
  match simplyhired cfg simplyhired_site (KEYWORDS cfg) st0 with
  | (st1, true) => scrape_linkedin_authenticated cfg linkedin_site st1
  | (st1, false) => st1
  end.

End Scraper.
(** ** Sample cards and sites, for the examples below *)

Module Samples.

Definition NL : string := String "010" "".

Definition soup (job_title href company_name : string) : CardHtml := {|
  title_tag := Some (job_title, href);
  companyName := Some company_name;
  searchSerpJobLocation := Some "Toronto, ON";
  searchSerpJobSalary := Some "$50 an hour"
|}.

(** [job_scan.py]: a card for a data scientist job; while the wait lasts the
    pane keeps showing the job that was selected before. *)
Definition stale_pane : JobScan.Pane := {|
  JobScan.description_content := Some "We need a financial analyst.";
  JobScan.compensation_detailText := None;
  JobScan.compensation := Some "$90,000 a year";
  JobScan.qualification_items := Some [];
  JobScan.posting_timestamp := Some "Posted 3 days ago"
|}.

Definition stale_card : JobScan.Card := {|
  JobScan.text := Some ("Data Scientist" +:+ NL +:+ "Acme");
  JobScan.outerHTML := Some (soup "Data Scientist" "/job/abc?src=serp" "Acme");
  JobScan.click_ok := true;
  JobScan.pane_polls :=
    [JobScan.Text "Financial Analyst Other Corp"; JobScan.NoSuchElement;
     JobScan.Text "Financial Analyst Other Corp"];
  JobScan.pane := stale_pane;
  JobScan.now := "2026-01-05 10:00:00"
|}.

(** The same card when the pane follows the click. *)
Definition synced_card (job_title description : string) : JobScan.Card := {|
  JobScan.text := Some (job_title +:+ NL +:+ "Acme");
  JobScan.outerHTML := Some (soup job_title "/job/abc?src=serp" "Acme");
  JobScan.click_ok := true;
  JobScan.pane_polls :=
    [JobScan.Text "Financial Analyst Other Corp";
     JobScan.Text (job_title +:+ " Acme Toronto")];
  JobScan.pane := {|
    JobScan.description_content := Some description;
    JobScan.compensation_detailText := Some "$60 - $70 an hour";
    JobScan.compensation := None;
    JobScan.qualification_items :=
      Some [ {| JobScan.detailText := Some "SQL"; JobScan.item_text := None |};
             {| JobScan.detailText := Some "SQL"; JobScan.item_text := None |};
             {| JobScan.detailText := None;
                JobScan.item_text := Some " Python " |} ];
    JobScan.posting_timestamp := Some "Posted 3 days ago" |};
  JobScan.now := "2026-01-05 10:00:00"
|}.

Definition no_page : JobScan.PageView := {|
  JobScan.job_list_present := false;
  JobScan.cards_first := [];
  JobScan.cards_at := fun _ => None;
  JobScan.next_page := false
|}.

Definition page_of (cards : list JobScan.Card) : JobScan.PageView := {|
  JobScan.job_list_present := true;
  JobScan.cards_first := cards;
  JobScan.cards_at := fun _ => Some cards;
  JobScan.next_page := false
|}.

(** A site that shows [cards] on the first page of the first keyword and
    nothing else. *)
Definition site_of (cards : list JobScan.Card)
  : string -> nat -> JobScan.PageView :=
  fun kw page_num =>
    if String.eqb kw "data scientist" && (page_num =? 1)
    then page_of cards else no_page.

(** What [job_scan.py]'s parser makes of a card ([∅] when it returns
    nothing). *)
Definition parsed (card : JobScan.Card) : JobScan.JobData :=
  match JobScan.parse_job_data card with
  | Returned (Some job_data) => job_data
  | _ => ∅
  end.

(** [run_scraper]: a card for an analyst job at Acme, with the pane as it is
    in every round of the synchronisation loop. *)
Definition view (company_name job_title : option string) : Scraper.SyncView := {|
  Scraper.span_viewJobCompanyName := company_name;
  Scraper.any_viewJobCompanyName := company_name;
  Scraper.h2_viewJobBodyJobTitle := job_title
|}.

Definition sh_card (job_title href : string) (v : Scraper.SyncView)
    (description : string) (quals : list (option string)) : Scraper.Card := {|
  Scraper.outerHTML := Some (soup job_title href "Acme");
  Scraper.title_elem := Some job_title;
  Scraper.text := Some (job_title +:+ NL +:+ "Acme");
  Scraper.click_ok := true;
  Scraper.sync_views := fun _ => v;
  Scraper.description_polls := [None; Some description];
  Scraper.compensation := Some "CA$ 80 000 - 90 000 per year";
  Scraper.body_container := None;
  Scraper.qualification_items := Some quals;
  Scraper.now := "2026-01-05 10:00:00"
|}.

Definition sh_no_page : Scraper.PageView := {|
  Scraper.job_list_present := false;
  Scraper.cards_first := [];
  Scraper.cards_at := fun _ => None;
  Scraper.next_page := false
|}.

Definition sh_page_of (cards : list Scraper.Card) : Scraper.PageView := {|
  Scraper.job_list_present := true;
  Scraper.cards_first := cards;
  Scraper.cards_at := fun _ => Some cards;
  Scraper.next_page := false
|}.

Definition li_no_page : Scraper.LiPageView := {|
  Scraper.li_cards_present := false;
  Scraper.li_cards := [];
  Scraper.li_next_page := false
|}.

(** A configuration with a small cap, to watch the cap at work. *)
Definition small_config (cap : nat) : Config := {|
  KEYWORDS := ["data scientist"];
  MAX_JOBS_TO_SCRAPE := cap;
  MAX_PAGES_PER_KEYWORD := 2;
  BAD_KEYWORDS := BAD_KEYWORDS Scraper.config;
  STRONG_KEYWORDS := STRONG_KEYWORDS Scraper.config;
  AMBIGUOUS_KEYWORDS := AMBIGUOUS_KEYWORDS Scraper.config;
  TECH_KEYWORDS := TECH_KEYWORDS Scraper.config
|}.

End Samples.

(** ** The words of the specification *)

(** One string occurs in the other when letter case is ignored. *)
Definition ci_substring (a b : string) : Prop :=
  exists before after, Py.lower b = before +:+ Py.lower a +:+ after.

(** The spec's comparison: containment in either direction. *)
Definition loose_match (card_value pane_value : string) : Prop :=
  ci_substring card_value pane_value \/ ci_substring pane_value card_value.

(** Every keyword of a list is in lower case. *)
Definition all_lower (kws : list string) : bool :=
  forallb (fun kw => String.eqb (Py.lower kw) kw) kws.

(** The description confirms an ambiguous title: it is not the sentinel and
    contains a technical term, whatever the case of its letters. *)
Definition confirmed_by_description (cfg : Config) (description : string)
  : Prop :=
  description <> NA
  /\ exists t, t ∈ TECH_KEYWORDS cfg /\ Py.contains_ci t description = true.







(** The title that [run_scraper]'s loop classifies: the text of the title
    link when it is found, the first line of the card's text otherwise
    ([None]: both reads raise). *)
Definition scraper_loop_title (card : Scraper.Card) : option string :=
  match Scraper.title_elem card with
  | Some t => Some (fix_doubled_title (Py.strip t))
  | None => option_map (fun t => fix_doubled_title (Scraper.norm (first_line t)))
                       (Scraper.text card)
  end.

(** A record of [run_scraper] is new when neither its URL nor its signature
    has been seen. *)
Definition is_new (st : Scraper.State) (job_data : Scraper.JobData) : Prop :=
  (Scraper.url job_data ∉ Scraper.seen_urls st)
  /\ (Scraper.signature (Scraper.title job_data) (Scraper.company job_data)
      ∉ Scraper.seen_signatures st).

(** A [run_scraper] card for an analyst job at Acme whose pane follows the
    click and whose description names a technical term. *)
Definition analyst_card : Scraper.Card :=
  Samples.sh_card "Analyst" "/job/1?src=serp"
    (Samples.view (Some "Acme Inc.") None)
    "We use SQL daily." [Some "SQL"].

(** A [run_scraper] card for a data scientist job at Acme whose pane follows
    the click, and a SimplyHired site that shows the given cards on its
    first page, whatever the keyword. *)
Definition synced_sh_card (href : string) : Scraper.Card :=
  Samples.sh_card "Data Scientist" href
    (Samples.view (Some "Acme Inc.") None)
    "Build models." [Some "SQL"; Some "SQL"; Some "Python"].

Definition sh_site_of (cards : list Scraper.Card)
  : string -> nat -> Scraper.PageView :=
  fun _ page_num =>
    if page_num =? 1 then Samples.sh_page_of cards else Samples.sh_no_page.

Definition no_linkedin : string -> nat -> Scraper.LiPageView :=
  fun _ _ => Samples.li_no_page.

(** The state of [run_scraper] before the first card. *)
Definition initial_state (old_urls : gset string)
    (old_signatures : gset (string * string)) : Scraper.State :=
  {| Scraper.seen_urls := old_urls;
     Scraper.seen_signatures := old_signatures;
     Scraper.new_jobs_buffer := [];
     Scraper.total_saved_this_run := 0 |}.

(** Three cards: one whose URL is already in the output file, and two for
    the same new posting. *)
Definition known_url : string := "https://www.simplyhired.ca/job/1".

Definition three_cards : list Scraper.Card :=
  [synced_sh_card "/job/1?src=serp"; synced_sh_card "/job/2?src=serp";
   synced_sh_card "/job/2?src=mail"].

(** Three [job_scan.py] cards with a strong title, and the state with one
    row saved. *)
Definition three_strong_cards : list JobScan.Card :=
  [Samples.synced_card "Data Scientist" "About the role";
   Samples.synced_card "Data Analyst" "About the role";
   Samples.synced_card "Data Engineer I" "About the role"].

Definition one_saved : JobScan.RunState :=
  {| JobScan.saved := [Samples.parsed Samples.stale_card];
     JobScan.total_saved := 1 |}.

(** ** What a run can do to its state

    The loops differ in how they get to a card; what they do to the state
    is one of these steps, any number of times. *)

(** [job_scan.py]: a record is saved while the counter is below the cap. *)
Inductive jobscan_step (cfg : Config) : JobScan.RunState -> JobScan.RunState -> Prop :=
| jobscan_saves (st : JobScan.RunState) (job_data : JobScan.JobData) :
    JobScan.total_saved st < MAX_JOBS_TO_SCRAPE cfg ->
    jobscan_step cfg st (JobScan.save_job job_data st).

(** [run_scraper], SimplyHired part: a record is buffered while the counter
    is below the cap, when its URL is not in the seen set. *)
Inductive simplyhired_step (cfg : Config) : Scraper.State -> Scraper.State -> Prop :=
| simplyhired_buffers (st : Scraper.State) (job_data : Scraper.JobData) :
    Scraper.total_saved_this_run st < MAX_JOBS_TO_SCRAPE cfg ->
    Scraper.url job_data ∉ Scraper.seen_urls st ->
    simplyhired_step cfg st (Scraper.buffer_job job_data st).

(** [run_scraper], LinkedIn part: a record is buffered while the buffer is
    shorter than the cap, when the card's URL is empty or not in the seen
    set; the record carries the card's URL, or the sentinel for an empty
    one. *)
Inductive linkedin_step (cfg : Config) : Scraper.State -> Scraper.State -> Prop :=
| linkedin_buffers (st : Scraper.State) (job_url : string)
    (sig : string * string) (data : Scraper.JobData) :
    length (Scraper.new_jobs_buffer st) < MAX_JOBS_TO_SCRAPE cfg ->
    (job_url <> "" -> job_url ∉ Scraper.seen_urls st) ->
    Scraper.url data = (if Py.falsy job_url then NA else job_url) ->
    linkedin_step cfg st (Scraper.li_buffer_job job_url sig data st).

(** The URLs of the buffered records, the sentinel of records without a URL
    left out. *)
Definition buffered_urls (st : Scraper.State) : list string :=
  filter (fun u => u <> NA) (map Scraper.url (Scraper.new_jobs_buffer st)).

(** A step of either part of [run_scraper]. *)
Definition scraper_step (cfg : Config) (st st' : Scraper.State) : Prop :=
  simplyhired_step cfg st st' \/ linkedin_step cfg st st'.

(** ** [job_scan copy.py]: the search URL and the cleaning of the CSV *)

(** [s.replace(old, new)] for one-character [old] and [new]. *)
Fixpoint replace_char (old new : ascii) (s : string) : string :=
  match s with
  | EmptyString => EmptyString
  | String c s' =>
      String (if Ascii.eqb c old then new else c) (replace_char old new s')
  end.

Definition LOCATION : string := "Toronto, ON".

(** [f"{RADIUS}"] with [RADIUS = 50]. *)
Definition RADIUS : string := "50".

(** The address that [run] and [run_scraper] open for keyword [kw]. *)
Definition search_url (kw : string) : string :=
  SITE +:+ "/search?q=" +:+ replace_char " " "+" kw
       +:+ "&l=" +:+ replace_char " " "+" LOCATION
       +:+ "&w=" +:+ RADIUS +:+ "&so=d".

(** The keywords of a list that are written in lower case. *)
Definition lower_case_only (kws : list string) : list string :=
  filter (fun kw => String.eqb (Py.lower kw) kw = true) kws.

Definition with_lower_case_keywords (cfg : Config) : Config :=
  {| KEYWORDS := KEYWORDS cfg;
     MAX_JOBS_TO_SCRAPE := MAX_JOBS_TO_SCRAPE cfg;
     MAX_PAGES_PER_KEYWORD := MAX_PAGES_PER_KEYWORD cfg;
     BAD_KEYWORDS := lower_case_only (BAD_KEYWORDS cfg);
     STRONG_KEYWORDS := lower_case_only (STRONG_KEYWORDS cfg);
     AMBIGUOUS_KEYWORDS := lower_case_only (AMBIGUOUS_KEYWORDS cfg);
     TECH_KEYWORDS := lower_case_only (TECH_KEYWORDS cfg) |}.

Module Verify.

(** What [requests.get] returns. *)
Record Response := {
  status_code : nat;
  text : string
}.

(** A cell of the data frame: a [str], a [bool], or anything else (a
    missing value, a number). *)
Inductive Cell : Type :=
| Str (s : string)
| Flag (b : bool)
| Other.

(** [cell == True] *)
Definition is_True (cell : Cell) : bool :=
  match cell with
  | Flag true => true
  | _ => false
  end.

(** [check_single_url]: [get url] is the answer to the request, [None] when
    it raises a [RequestException]. *)
Definition check_single_url (get : string -> option Response) (url : Cell)
  : bool :=
  match url with
  | Str url =>
      if negb (Py.startswith "http" url) then false
      else
        match get url with
        | None => false
        | Some r =>
            if bool_decide (status_code r ∈ [404; 410]) then false
            else
              let content_lower := Py.lower (text r) in
              if Py.contains "simplyhired" url
                 && Py.contains "job no longer available" content_lower
              then false
              else if Py.contains "simplyhired" url
                      && Py.contains "this job has expired" content_lower
              then false
              else if Py.contains "linkedin" url
                      && Py.contains "no longer accepting applications"
                                     content_lower
              then false
              else if Py.contains "linkedin" url
                      && Py.contains "job is no longer available"
                                     content_lower
              then false
              else true
        end
  | _ => false
  end.

(** A [pandas.DataFrame]: the column labels in order and the rows, each a
    map from label to cell. *)
Record DataFrame := {
  columns : list string;
  rows : list (gmap string Cell)
}.

(** [df[name].tolist()] *)
Definition column (name : string) (df : DataFrame) : list Cell :=
  map (fun row => default Other (row !! name)) (rows df).

(** [df[name] = values]: the column is replaced where it stands, or added
    as the last one. *)
Definition set_column (name : string) (values : list Cell) (df : DataFrame)
  : DataFrame :=
  {| columns := if bool_decide (name ∈ columns df) then columns df
                else columns df ++ [name];
     rows := zip_with (fun row v => <[name := v]> row) (rows df) values |}.

(** [df[df[name] == True]] *)
Definition where_true (name : string) (df : DataFrame) : DataFrame :=
  {| columns := columns df;
     rows := filter (fun row => is_True (default Other (row !! name)) = true)
                    (rows df) |}.

(** [df.drop(columns=[name])] *)
Definition drop_column (name : string) (df : DataFrame) : DataFrame :=
  {| columns := filter (fun c => c <> name) (columns df);
     rows := map (delete name) (rows df) |}.

(** The two files the function touches, by the frames they hold ([None]:
    no such file): [OUTPUT_FILE] and the backup beside it, whose name
    differs from [OUTPUT_FILE] since that ends in [.csv]. *)
Record Files := {
  output_file : option DataFrame;
  backup_file : option DataFrame
}.

(** [verify_and_clean_data]; the pool maps [check_single_url] over the
    URLs, each request answered by [get]. *)
Definition verify_and_clean_data (get : string -> option Response)
    (files : Files) : Files :=
  match output_file files with
  | None => files
  | Some df =>
      if negb (bool_decide ("url" ∈ columns df)) then files
      else
        let original_count := length (rows df) in
        let urls := column "url" df in
        let results := map (check_single_url get) urls in
        let df := set_column "is_valid" (map Flag results) df in
        let df_clean := drop_column "is_valid" (where_true "is_valid" df) in
        let removed_count := original_count - length (rows df_clean) in
        if 0 <? removed_count then
          {| output_file := Some df_clean; backup_file := Some df |}
        else files
  end.

(** The check of a row, the frame once [is_valid] is set, and the frame
    that is written back. *)
Definition row_is_valid (get : string -> option Response)
    (row : gmap string Cell) : bool :=
  check_single_url get (default Other (row !! "url")).

Definition with_flags (get : string -> option Response) (df : DataFrame)
  : DataFrame :=
  set_column "is_valid" (map Flag (map (check_single_url get) (column "url" df)))
             df.

Definition valid_rows (get : string -> option Response) (df : DataFrame)
  : DataFrame :=
  drop_column "is_valid" (where_true "is_valid" (with_flags get df)).

(** A file of three rows and the answers of the two sites. *)
Definition sample_row (title : string) (url : Cell) : gmap string Cell :=
  <["url" := url]> (<["title" := Str title]> ∅).

Definition sample_frame : DataFrame := {|
  columns := ["title"; "url"];
  rows := [sample_row "Data Scientist" (Str "https://www.simplyhired.ca/job/1");
           sample_row "Data Analyst" (Str "https://www.simplyhired.ca/job/2");
           sample_row "Statistician" Other]
|}.

Definition sample_files : Files :=
  {| output_file := Some sample_frame; backup_file := None |}.

Definition sample_get (url : string) : option Response :=
  if String.eqb url "https://www.simplyhired.ca/job/1"
  then Some {| status_code := 200; text := "Data Scientist at Acme" |}
  else if String.eqb url "https://www.simplyhired.ca/job/2"
  then Some {| status_code := 200; text := "Job No Longer Available" |}
  else None.

End Verify.

(** A site that shows [site] up to page [cap] and [other] from there on. *)
Definition changed_after {A : Type} (cap : nat)
    (site other : string -> nat -> A) : string -> nat -> A :=
  fun kw page_num => if page_num <=? cap then site kw page_num
                     else other kw page_num.
(** * Properties *)

(** ** Strings *)

Module PyFacts.
Import Py.

Lemma app_nil_l (s : string) : "" +:+ s = s.
Proof. reflexivity. Qed.

Lemma app_cons (c : ascii) (s t : string) :
  String c s +:+ t = String c (s +:+ t).
Proof. reflexivity. Qed.

Lemma app_nil_r (s : string) : s +:+ "" = s.
Proof. induction s as [|c s IH]; [reflexivity|]. rewrite app_cons, IH. reflexivity. Qed.

Lemma app_assoc (a b c : string) : (a +:+ b) +:+ c = a +:+ (b +:+ c).
Proof.
  induction a as [|x a IH]; [reflexivity|].
  rewrite !app_cons, IH. reflexivity.
Qed.

Lemma len_app (a b : string) : len (a +:+ b) = len a + len b.
Proof.
  unfold len. induction a as [|x a IH]; [reflexivity|].
  rewrite app_cons. simpl. rewrite IH. reflexivity.
Qed.

Lemma app_eq_nil (a b : string) : a +:+ b = "" -> a = "" /\ b = "".
Proof. destruct a; [rewrite app_nil_l; auto | rewrite app_cons; discriminate]. Qed.

Lemma app_inv_head (a b c : string) : a +:+ b = a +:+ c -> b = c.
Proof.
  induction a as [|x a IH]; [rewrite !app_nil_l; auto|].
  rewrite !app_cons. intros H. injection H. auto.
Qed.

Lemma app_inv_len (a b c d : string) :
  a +:+ b = c +:+ d -> len a = len c -> a = c /\ b = d.
Proof.
  revert c. induction a as [|x a IH]; intros [|y c]; unfold len; simpl;
    rewrite ?app_nil_l, ?app_cons; try discriminate; auto.
  intros H Hl. injection H as -> H. injection Hl as Hl.
  destruct (IH c H Hl) as [-> ->]. auto.
Qed.

(** *** Slices *)

Lemma slice_to_app (a b : string) : slice_to (len a) (a +:+ b) = a.
Proof.
  unfold len. induction a as [|x a IH]; simpl.
  - destruct b; reflexivity.
  - rewrite ?app_cons. simpl. rewrite IH. reflexivity.
Qed.

Lemma slice_from_app (a b : string) : slice_from (len a) (a +:+ b) = b.
Proof.
  unfold len. induction a as [|x a IH]; simpl.
  - rewrite ?app_nil_l. destruct b; reflexivity.
  - rewrite ?app_cons. exact IH.
Qed.

Lemma slice_split (n : nat) (s : string) : slice_to n s +:+ slice_from n s = s.
Proof.
  revert s. induction n as [|n IH]; intros [|c s]; simpl; try reflexivity.
  rewrite app_cons, IH. reflexivity.
Qed.

Lemma len_slice_to (n : nat) (s : string) : n <= len s -> len (slice_to n s) = n.
Proof.
  unfold len. revert s. induction n as [|n IH]; intros [|c s]; simpl; try lia.
  intros H. rewrite IH; lia.
Qed.

(** *** Containment *)

Lemma startswith_spec (p s : string) :
  startswith p s = true <-> exists t, s = p +:+ t.
Proof.
  revert s. induction p as [|a p IH]; intros s; simpl.
  - split; [intros _; exists s; reflexivity | reflexivity].
  - destruct s as [|b s].
    + split; [discriminate | intros [t H]; rewrite app_cons in H; discriminate].
    + rewrite andb_true_iff, Ascii.eqb_eq, IH. split.
      * intros [-> [t ->]]. exists t. reflexivity.
      * intros [t H]. rewrite app_cons in H. injection H as -> ->. eauto.
Qed.

Lemma contains_spec (needle hay : string) :
  contains needle hay = true <-> exists a b, hay = a +:+ needle +:+ b.
Proof.
  induction hay as [|c hay IH]; simpl.
  - rewrite orb_false_r, startswith_spec. split.
    + intros [t H]. exists "", t. exact H.
    + intros [a [b H]]. symmetry in H.
      apply app_eq_nil in H as [-> H]. exists b. symmetry. exact H.
  - rewrite orb_true_iff, startswith_spec, IH. split.
    + intros [[t H] | [a [b H]]].
      * exists "", t. exact H.
      * exists (String c a), b. rewrite app_cons, H. reflexivity.
    + intros [[|x a] [b H]].
      * left. exists b. exact H.
      * right. rewrite app_cons in H. injection H as -> ->. eauto.
Qed.

Lemma contains_refl (s : string) : contains s s = true.
Proof. apply contains_spec. exists "", "". rewrite app_nil_r. reflexivity. Qed.

(** *** Lower case *)

Lemma lower_app (a b : string) : lower (a +:+ b) = lower a +:+ lower b.
Proof.
  induction a as [|x a IH]; [reflexivity|].
  rewrite app_cons. simpl. rewrite IH. reflexivity.
Qed.

Lemma lower_char_idem (c : ascii) : lower_char (lower_char c) = lower_char c.
Proof. destruct c as [[] [] [] [] [] [] [] []]; reflexivity. Qed.

Lemma lower_idem (s : string) : lower (lower s) = lower s.
Proof.
  induction s as [|c s IH]; [reflexivity|].
  simpl. rewrite lower_char_idem, IH. reflexivity.
Qed.

(** *** Words *)

Lemma nospace_app (a b : string) :
  nospace (a +:+ b) = nospace a && nospace b.
Proof.
  induction a as [|x a IH]; [reflexivity|].
  rewrite app_cons. simpl. rewrite IH, andb_assoc. reflexivity.
Qed.

Lemma split_from_word (w cur s : string) :
  nospace w = true -> split_from cur (w +:+ s) = split_from (cur +:+ w) s.
Proof.
  revert cur. induction w as [|c w IH]; intros cur Hw.
  - rewrite app_nil_l, app_nil_r. reflexivity.
  - simpl in Hw. apply andb_true_iff in Hw as [Hc Hw].
    rewrite app_cons. simpl. destruct (isspace c); [discriminate|].
    rewrite IH by exact Hw. rewrite app_assoc. reflexivity.
Qed.

Lemma split_from_space (cur : string) (c : ascii) (s : string) :
  cur <> "" -> isspace c = true ->
  split_from cur (String c s) = cur :: split_from "" s.
Proof. intros Hcur Hc. simpl. rewrite Hc. destruct cur; [congruence|reflexivity]. Qed.

Lemma split_word_space (w : string) (c : ascii) (s : string) :
  is_word w -> isspace c = true ->
  split (w +:+ String c s) = w :: split s.
Proof.
  intros [Hne Hw] Hc. unfold split.
  rewrite split_from_word by exact Hw. rewrite app_nil_l.
  apply split_from_space; assumption.
Qed.

Lemma split_word (w : string) : is_word w -> split w = [w].
Proof.
  intros [Hne Hw]. unfold split.
  rewrite <- (app_nil_r w) at 1. rewrite split_from_word by exact Hw.
  rewrite app_nil_l. simpl. destruct w; [congruence|reflexivity].
Qed.

Lemma isspace_space : isspace " " = true.
Proof. reflexivity. Qed.

(** Splitting undoes joining with a blank. *)
Lemma split_join (ws : list string) :
  Forall is_word ws -> split (join " " ws) = ws.
Proof.
  induction ws as [|w ws IH]; intros H; [reflexivity|].
  inversion H as [|? ? Hw Hws]; subst.
  destruct ws as [|w' ws].
  - simpl. apply split_word. exact Hw.
  - change (join " " (w :: w' :: ws)) with (w +:+ " " +:+ join " " (w' :: ws)).
    change (" " +:+ join " " (w' :: ws)) with (String " " (join " " (w' :: ws))).
    rewrite split_word_space by (assumption || reflexivity).
    rewrite IH by exact Hws. reflexivity.
Qed.

Lemma split_from_words (cur s : string) :
  nospace cur = true -> Forall is_word (split_from cur s).
Proof.
  revert cur. induction s as [|c s IH]; intros cur Hcur; simpl.
  - destruct cur; constructor; [|constructor]. split; [discriminate|exact Hcur].
  - destruct (isspace c) eqn:Hc.
    + destruct cur.
      * apply IH. reflexivity.
      * constructor; [split; [discriminate|exact Hcur]|]. apply IH. reflexivity.
    + apply IH. rewrite nospace_app, Hcur. simpl. rewrite Hc. reflexivity.
Qed.

Lemma split_words (s : string) : Forall is_word (split s).
Proof. apply split_from_words. reflexivity. Qed.

(** The words of the normalised text are the words of the text. *)
Lemma split_normalize (s : string) : split (normalize_spaces s) = split s.
Proof. apply split_join, split_words. Qed.

Lemma normalize_idem (s : string) :
  normalize_spaces (normalize_spaces s) = normalize_spaces s.
Proof. unfold normalize_spaces at 1. rewrite split_normalize. reflexivity. Qed.


Lemma join_words_nonempty (sep : string) (ws : list string) :
  ws <> [] -> Forall is_word ws -> join sep ws <> "".
Proof.
  destruct ws as [|w ws]; [congruence|]. intros _ H.
  inversion H as [|? ? [Hne _] _]; subst.
  destruct ws; simpl; [exact Hne|].
  destruct w; [congruence|]. rewrite app_cons. discriminate.
Qed.

End PyFacts.

(** ** [fix_doubled_title] *)

Example fix_doubled_title_words :
  fix_doubled_title "Data Scientist Data Scientist" = "Data Scientist".
Proof. vm_compute. reflexivity. Qed.

Example fix_doubled_title_chars :
  fix_doubled_title "Data ScientistData Scientist" = "Data Scientist".
Proof. vm_compute. reflexivity. Qed.

Example fix_doubled_title_plain :
  fix_doubled_title "  Senior   Data Analyst " = "Senior Data Analyst".
Proof. vm_compute. reflexivity. Qed.




(** ** The relevance filter *)

Lemma all_lower_elem (kws : list string) (kw : string) :
  all_lower kws = true -> kw ∈ kws -> Py.lower kw = kw.
Proof.
  unfold all_lower. rewrite forallb_forall. intros H Hin.
  apply String.eqb_eq, H, list_elem_of_In, Hin.
Qed.

Lemma any_in_spec (kws : list string) (text : string) :
  any_in kws text = true <-> exists kw, kw ∈ kws /\ Py.contains kw text = true.
Proof.
  unfold any_in. rewrite existsb_exists.
  split; intros [kw [H1 H2]]; exists kw; split; auto;
    apply list_elem_of_In; exact H1.
Qed.

(** With lower-case keywords, the test the loops write is case-insensitive
    containment. *)
Lemma any_in_lower_ci (kws : list string) (text : string) :
  all_lower kws = true ->
  (any_in kws (Py.lower text) = true
   <-> exists kw, kw ∈ kws /\ Py.contains_ci kw text = true).
Proof.
  intros Hl. rewrite any_in_spec. unfold Py.contains_ci.
  split; intros [kw [Hin Hc]]; exists kw; split; auto.
  - rewrite (all_lower_elem kws kw Hl Hin). exact Hc.
  - rewrite (all_lower_elem kws kw Hl Hin) in Hc. exact Hc.
Qed.

Lemma classify_title_excluded (cfg : Config) (title kw : string) :
  all_lower (BAD_KEYWORDS cfg) = true ->
  kw ∈ BAD_KEYWORDS cfg ->
  Py.contains_ci kw title = true ->
  classify_title cfg title = SKIP.
Proof.
  intros Hl Hin Hc. unfold classify_title.
  assert (any_in (BAD_KEYWORDS cfg) (Py.lower title) = true) as ->; [|reflexivity].
  apply any_in_lower_ci; eauto.
Qed.

Example senior_data_scientist_intern :
  classify_title JobScan.config "Senior Data Scientist Intern" = SKIP
  /\ classify_title Scraper.config "Senior Data Scientist Intern" = SKIP.
Proof. split; vm_compute; reflexivity. Qed.

Example data_scientist_kept :
  classify_title JobScan.config "Data Scientist" = KEEP_IMMEDIATE
  /\ classify_title Scraper.config "Analyst" = CHECK_DESCRIPTION.
Proof. split; vm_compute; reflexivity. Qed.

(** C2: a title that contains an exclusion keyword, whatever the case of its
    letters, is classified SKIP under the keyword lists of either script,
    whatever else the title contains. *)
Theorem exclusion_keyword_gives_skip :
  forall title kw : string,
    Py.contains_ci kw title = true ->
    (kw ∈ BAD_KEYWORDS JobScan.config ->
     classify_title JobScan.config title = SKIP)
    /\ (kw ∈ BAD_KEYWORDS Scraper.config ->
        classify_title Scraper.config title = SKIP).
Proof.
  intros title kw Hc. split; intros Hin.
  - apply (classify_title_excluded JobScan.config title kw); auto.
  - apply (classify_title_excluded Scraper.config title kw); auto.
Qed.

Lemma exclusion_keyword_gives_skip_witness :
  classify_title JobScan.config "Lead DATA Scientist" = SKIP
  /\ classify_title Scraper.config "Lead DATA Scientist" = SKIP.
Proof.
  assert (Hc : Py.contains_ci "lead" "Lead DATA Scientist" = true)
    by (vm_compute; reflexivity).
  destruct (exclusion_keyword_gives_skip "Lead DATA Scientist" "lead" Hc)
    as [H1 H2].
  split; [apply H1 | apply H2]; apply list_elem_of_In; simpl; tauto.
Defined.

(** *** Confirmation by the description *)

Lemma should_save_check (cfg : Config) (description : string) :
  all_lower (TECH_KEYWORDS cfg) = true ->
  (should_save cfg CHECK_DESCRIPTION description = true
   <-> confirmed_by_description cfg description).
Proof.
  intros Hl. unfold should_save, confirmed_by_description.
  rewrite andb_true_iff, negb_true_iff, String.eqb_neq.
  rewrite (any_in_lower_ci _ _ Hl). reflexivity.
Qed.

Lemma should_save_check_false (cfg : Config) (description : string) :
  all_lower (TECH_KEYWORDS cfg) = true ->
  ~ confirmed_by_description cfg description ->
  should_save cfg CHECK_DESCRIPTION description = false.
Proof.
  intros Hl Hn. apply not_true_is_false. intros H. apply Hn.
  apply should_save_check; assumption.
Qed.

(** What [job_scan.py]'s parser returns always has a title and a
    description, and a salary unless the description is the sentinel. *)
Lemma jobscan_parsed_fields (card : JobScan.Card) (job_data : JobScan.JobData) :
  JobScan.parse_job_data card = Returned (Some job_data) ->
  is_Some (job_data !! "title")
  /\ exists description,
       job_data !! "description" = Some description
       /\ (description <> NA -> is_Some (job_data !! "salary")).
Proof.
  unfold JobScan.parse_job_data.
  destruct (JobScan.outerHTML card) as [soup|]; [|discriminate].
  destruct (negb (JobScan.click_ok card)); [discriminate|].
  destruct (negb (JobScan.wait_until _ _)).
  - intros [= <-]. split; [eexists; reflexivity|].
    exists NA. split; [reflexivity|]. congruence.
  - destruct (JobScan.description_content (JobScan.pane card)) as [d|].
    + intros [= <-]. split; [eexists; reflexivity|].
      exists d. split; [reflexivity|]. intros _. eexists; reflexivity.
    + intros [= <-]. split; [eexists; reflexivity|].
      exists NA. split; [reflexivity|]. congruence.
Qed.

(** The confirmation step on its own: step 3 of [job_scan.py]'s loop body,
    for the records its parser returns, and the end of [run_scraper]'s loop
    body. *)
Lemma check_description_step :
  (forall (card : JobScan.Card) (job_data : JobScan.JobData)
          (st : JobScan.RunState),
      JobScan.parse_job_data card = Returned (Some job_data) ->
      exists description,
        job_data !! "description" = Some description
        /\ (confirmed_by_description JobScan.config description ->
            JobScan.verify_and_save JobScan.config CHECK_DESCRIPTION
                                    job_data st
            = JobScan.save_job job_data st)
        /\ (~ confirmed_by_description JobScan.config description ->
            JobScan.verify_and_save JobScan.config CHECK_DESCRIPTION
                                    job_data st
            = st))
  /\
  (forall (job_data : Scraper.JobData) (st : Scraper.State),
      (confirmed_by_description Scraper.config (Scraper.description job_data) ->
       Scraper.verify_and_buffer Scraper.config CHECK_DESCRIPTION job_data st
       = Scraper.buffer_job job_data st)
      /\ (~ confirmed_by_description Scraper.config
                                     (Scraper.description job_data) ->
          Scraper.verify_and_buffer Scraper.config CHECK_DESCRIPTION
                                    job_data st
          = st)).
Proof.
  split.
  - intros card job_data st Hp.
    destruct (jobscan_parsed_fields card job_data Hp)
      as [[t Ht] [description [Hd Hs]]].
    exists description. split; [exact Hd|]. split.
    + intros Hc. unfold JobScan.verify_and_save. rewrite Hd.
      assert (should_save JobScan.config CHECK_DESCRIPTION description = true)
        as -> by (apply should_save_check; [reflexivity | exact Hc]).
      destruct (Hs (proj1 Hc)) as [s ->]. rewrite Ht. reflexivity.
    + intros Hn. unfold JobScan.verify_and_save. rewrite Hd.
      rewrite should_save_check_false; [reflexivity | reflexivity | exact Hn].
  - intros job_data st. unfold Scraper.verify_and_buffer. split.
    + intros Hc.
      assert (should_save Scraper.config CHECK_DESCRIPTION
                          (Scraper.description job_data) = true)
        as -> by (apply should_save_check; [reflexivity | exact Hc]).
      reflexivity.
    + intros Hn.
      rewrite should_save_check_false; [reflexivity | reflexivity | exact Hn].
Qed.

(** The URL of a record of [run_scraper]'s parser is the one the loop tests
    at card level, and it is not empty. *)
Lemma scraper_parsed_url (card : Scraper.Card) (prev : string)
    (job_data : Scraper.JobData) :
  Scraper.parse_job_data card prev = Some job_data ->
  exists soup,
    Scraper.outerHTML card = Some soup
    /\ Scraper.url job_data = Scraper.card_url (Scraper.href_of soup)
    /\ Py.falsy (Scraper.url job_data) = false.
Proof.
  unfold Scraper.parse_job_data.
  destruct (Scraper.outerHTML card) as [soup|]; [|discriminate]. cbv zeta.
  destruct (Scraper.is_missing _ || Scraper.is_missing _) eqn:G;
    [discriminate|].
  apply orb_false_iff in G as [_ Gu].
  destruct (Scraper.REQUIRE_COMPANY && _); [discriminate|].
  destruct (negb (Scraper.click_ok card)); [discriminate|].
  destruct (negb (Scraper.pane_matched _ _ _)); [discriminate|].
  destruct (Scraper.REQUIRE_SALARY && _); [discriminate|].
  intros [= <-]. exists soup. cbn [Scraper.url].
  split; [reflexivity|]. split; [reflexivity|].
  destruct (Scraper.card_url (Scraper.href_of soup)); [discriminate Gu|].
  reflexivity.
Qed.

(** C3, as the code has it.  In [job_scan.py], the record that the parser
    returns for a card whose title was classified CHECK_DESCRIPTION is saved
    by the loop body when its description confirms it, and only then.  In
    the SimplyHired loop of [run_scraper], such a record is buffered when
    its description confirms it and, besides, neither its URL nor its
    signature has been seen: a duplicate leaves the loop body before the
    description is looked at. *)
Theorem ambiguous_title_saved_iff_description_confirms :
  (forall (st : JobScan.RunState) (card : JobScan.Card) (t : string)
          (job_data : JobScan.JobData),
      JobScan.text card = Some t ->
      classify_title JobScan.config (first_line t) = CHECK_DESCRIPTION ->
      JobScan.parse_job_data card = Returned (Some job_data) ->
      exists description,
        job_data !! "description" = Some description
        /\ (confirmed_by_description JobScan.config description ->
            JobScan.process_card JobScan.config st card
            = JobScan.save_job job_data st)
        /\ (~ confirmed_by_description JobScan.config description ->
            JobScan.process_card JobScan.config st card = st))
  /\
  (forall (st : Scraper.State) (prev_description : string)
          (card : Scraper.Card) (raw_title : string)
          (job_data : Scraper.JobData),
      scraper_loop_title card = Some raw_title ->
      Scraper.is_missing raw_title = false ->
      classify_title Scraper.config raw_title = CHECK_DESCRIPTION ->
      Scraper.parse_job_data card prev_description = Some job_data ->
      (is_new st job_data
       /\ confirmed_by_description Scraper.config
                                   (Scraper.description job_data) ->
       Scraper.process_card Scraper.config st prev_description card
       = (Scraper.buffer_job job_data st, Scraper.description job_data))
      /\ (~ (is_new st job_data
             /\ confirmed_by_description Scraper.config
                                         (Scraper.description job_data)) ->
          (Scraper.process_card Scraper.config st prev_description card).1
          = st)).
Proof.
  split.
  - intros st card t job_data Ht Hc Hp.
    destruct (proj1 check_description_step card job_data st Hp)
      as [description [Hd [Hyes Hno]]].
    exists description. split; [exact Hd|].
    unfold JobScan.process_card. rewrite Ht, Hc, Hp. split; assumption.
  - intros st prev card raw_title job_data Ht Hm Hc Hp.
    destruct (scraper_parsed_url card prev job_data Hp)
      as [soup [Hs [Hu Hne]]].
    destruct (proj2 check_description_step job_data st) as [Hyes Hno].
    unfold scraper_loop_title in Ht.
    unfold Scraper.process_card. rewrite Hs, <- Hu, Hne. cbn [negb andb].
    split.
    + intros [[Hurl Hsig] Hconf].
      rewrite (bool_decide_false _ Hurl), Ht, Hm, Hc, Hp.
      rewrite (bool_decide_false _ Hurl), (bool_decide_false _ Hsig).
      rewrite (Hyes Hconf). reflexivity.
    + intros Hn.
      destruct (bool_decide (Scraper.url job_data ∈ Scraper.seen_urls st))
        eqn:Hurl; [reflexivity|].
      rewrite Ht, Hm, Hc, Hp, Hurl.
      destruct (bool_decide (_ ∈ Scraper.seen_signatures st)) eqn:Hsig;
        [reflexivity|].
      apply bool_decide_eq_false in Hurl, Hsig.
      rewrite Hno; [reflexivity|].
      intros Hconf. apply Hn. split; [split; assumption | exact Hconf].
Qed.

Lemma ambiguous_title_saved_iff_description_confirms_witness :
  let st := {| JobScan.saved := []; JobScan.total_saved := 0 |} in
  JobScan.process_card JobScan.config st
    (Samples.synced_card "Analyst" "We use SQL daily.")
  = JobScan.save_job
      (Samples.parsed (Samples.synced_card "Analyst" "We use SQL daily.")) st
  /\ JobScan.process_card JobScan.config st
       (Samples.synced_card "Analyst" "N/A")
     = st
  /\ (Scraper.process_card Scraper.config
        (initial_state {[ known_url ]} ∅) "" analyst_card).1
     = initial_state {[ known_url ]} ∅
  /\ exists job_data : Scraper.JobData,
       Scraper.parse_job_data analyst_card "" = Some job_data
       /\ Scraper.process_card Scraper.config (initial_state ∅ ∅) ""
                                analyst_card
          = (Scraper.buffer_job job_data (initial_state ∅ ∅),
             Scraper.description job_data).
Proof.
  intros st. split; [|split; [|split]].
  - destruct (proj1 ambiguous_title_saved_iff_description_confirms st
                (Samples.synced_card "Analyst" "We use SQL daily.")
                ("Analyst" +:+ Samples.NL +:+ "Acme")
                (Samples.parsed
                   (Samples.synced_card "Analyst" "We use SQL daily.")))
      as [description [Hd [Hsave _]]].
    + reflexivity.
    + vm_compute. reflexivity.
    + reflexivity.
    + apply Hsave. vm_compute in Hd. injection Hd as <-.
      split; [discriminate|].
      exists "sql". split; [apply list_elem_of_In; simpl; tauto | reflexivity].
  - destruct (proj1 ambiguous_title_saved_iff_description_confirms st
                (Samples.synced_card "Analyst" "N/A")
                ("Analyst" +:+ Samples.NL +:+ "Acme")
                (Samples.parsed (Samples.synced_card "Analyst" "N/A")))
      as [description [Hd [_ Hskip]]].
    + reflexivity.
    + vm_compute. reflexivity.
    + reflexivity.
    + apply Hskip. vm_compute in Hd. injection Hd as <-.
      intros [Hne _]. apply Hne. reflexivity.
  - destruct (Scraper.parse_job_data analyst_card "") as [d|] eqn:E;
      [|vm_compute in E; discriminate E].
    apply (proj2 (proj2 ambiguous_title_saved_iff_description_confirms
                    (initial_state {[ known_url ]} ∅) "" analyst_card
                    "Analyst" d eq_refl eq_refl eq_refl E)).
    intros [[Hurl _] _]. apply Hurl.
    vm_compute in E. injection E as <-. cbn [Scraper.url initial_state
                                              Scraper.seen_urls].
    apply elem_of_singleton. reflexivity.
  - destruct (Scraper.parse_job_data analyst_card "") as [d|] eqn:E;
      [|vm_compute in E; discriminate E].
    exists d. split; [reflexivity|].
    apply (proj1 (proj2 ambiguous_title_saved_iff_description_confirms
                    (initial_state ∅ ∅) "" analyst_card
                    "Analyst" d eq_refl eq_refl eq_refl E)).
    split; [split; apply not_elem_of_empty|].
    vm_compute in E. injection E as <-. split; [discriminate|].
    exists "sql". split; [apply list_elem_of_In; simpl; tauto | reflexivity].
Defined.

(** The claim fails on [run_scraper]: this card has an ambiguous title and a
    description that names a technical term, and a run that starts from an
    empty file buffers its record; a run that starts from a file holding its
    URL buffers nothing. *)
Lemma seen_analyst_card_is_not_buffered :
  classify_title Scraper.config "Analyst" = CHECK_DESCRIPTION
  /\ (exists job_data : Scraper.JobData,
         Scraper.parse_job_data analyst_card "" = Some job_data
         /\ confirmed_by_description Scraper.config
                                     (Scraper.description job_data)
         /\ Scraper.new_jobs_buffer
              (Scraper.run_scraper Scraper.config ∅ ∅
                                   (sh_site_of [analyst_card]) no_linkedin)
            = [job_data])
  /\ Scraper.new_jobs_buffer
       (Scraper.run_scraper Scraper.config {[ known_url ]} ∅
                            (sh_site_of [analyst_card]) no_linkedin)
     = [].
Proof.
  split; [vm_compute; reflexivity|]. split.
  - destruct (Scraper.parse_job_data analyst_card "") as [d|] eqn:E;
      [|vm_compute in E; discriminate E].
    exists d. split; [reflexivity|].
    vm_compute in E. injection E as <-. split.
    + split; [discriminate|].
      exists "sql". split; [apply list_elem_of_In; simpl; tauto | reflexivity].
    + vm_compute. reflexivity.
  - vm_compute. reflexivity.
Qed.

(** ** The synchronisation of the detail pane with the clicked card *)

Lemma contains_ci_spec (a b : string) :
  Py.contains (Py.lower a) (Py.lower b) = true <-> ci_substring a b.
Proof. unfold ci_substring. apply PyFacts.contains_spec. Qed.

Lemma company_matches_spec (card_company txt : string) :
  Scraper.company_matches card_company txt = true
  <-> loose_match card_company txt.
Proof.
  unfold Scraper.company_matches, loose_match.
  rewrite orb_true_iff, !contains_ci_spec. reflexivity.
Qed.

Lemma title_matches_spec (card_title txt : string) :
  Scraper.title_matches card_title txt = true
  <-> ci_substring (Py.slice_to 10 card_title) txt.
Proof. unfold Scraper.title_matches. apply contains_ci_spec. Qed.

Lemma li_title_matches_spec (raw_title el_text : string) :
  Scraper.li_title_matches raw_title (Some el_text) = true
  <-> fix_doubled_title (Py.strip el_text) <> ""
      /\ loose_match raw_title (fix_doubled_title (Py.strip el_text)).
Proof.
  unfold Scraper.li_title_matches, loose_match. cbv zeta.
  destruct (fix_doubled_title (Py.strip el_text)) as [|c t] eqn:E.
  - change (Py.falsy "") with true. cbv iota.
    split; [discriminate | intros [H _]; congruence].
  - change (Py.falsy (String c t)) with false. cbv iota.
    rewrite orb_true_iff, !contains_ci_spec.
    split; [intros H; split; [discriminate | exact H] | intros [_ H]; exact H].
Qed.

(** One round of [run_scraper]'s loop sets [pane_matched] exactly when one
    of the two company selectors yields a text that matches the card's
    company loosely, or the title selector yields a text that contains the
    first ten characters of the card's title. *)
Lemma round_matches_spec (card_company card_title : string)
    (v : Scraper.SyncView) :
  Scraper.round_matches card_company card_title v = true
  <-> (exists el_text,
          (Scraper.span_viewJobCompanyName v = Some el_text
           \/ Scraper.any_viewJobCompanyName v = Some el_text)
          /\ Py.strip el_text <> ""
          /\ loose_match card_company (Py.strip el_text))
      \/ (exists el_text,
             Scraper.h2_viewJobBodyJobTitle v = Some el_text
             /\ Py.strip el_text <> ""
             /\ ci_substring (Py.slice_to 10 card_title) (Py.strip el_text)).
Proof.
  assert (Hf : forall s, Py.falsy s = false <-> s <> "").
  { intros [|c s]; simpl; split; congruence. }
  unfold Scraper.round_matches, Scraper.pane_checks. cbn [existsb].
  rewrite orb_false_r, !orb_true_iff. unfold Scraper.check_matches. cbv zeta.
  split.
  - intros [H | [H | H]].
    + destruct (Scraper.span_viewJobCompanyName v) as [t|]; [|discriminate].
      destruct (Py.falsy (Py.strip t)) eqn:E; [discriminate|].
      left. exists t. rewrite <- company_matches_spec, <- Hf. auto.
    + destruct (Scraper.any_viewJobCompanyName v) as [t|]; [|discriminate].
      destruct (Py.falsy (Py.strip t)) eqn:E; [discriminate|].
      left. exists t. rewrite <- company_matches_spec, <- Hf. auto.
    + destruct (Scraper.h2_viewJobBodyJobTitle v) as [t|]; [|discriminate].
      destruct (Py.falsy (Py.strip t)) eqn:E; [discriminate|].
      right. exists t. rewrite <- title_matches_spec, <- Hf. auto.
  - intros [[t [[E | E] [Hne Hm]]] | [t [E [Hne Hm]]]]; rewrite E;
      apply Hf in Hne; rewrite Hne.
    + left. apply company_matches_spec, Hm.
    + right. left. apply company_matches_spec, Hm.
    + right. right. apply title_matches_spec, Hm.
Qed.

(** C9, as the code has it: the company comparison of [run_scraper] (and
    the title comparison of its LinkedIn part) succeeds exactly when one text
    contains the other, letter case ignored; its title comparison succeeds
    exactly when the pane's title contains the first ten characters of the
    card's title, letter case ignored; the comparison of [job_scan.py]
    succeeds exactly when the pane's text contains the first ten characters
    of the card's title as they are. *)
Theorem sync_comparisons :
  (forall card_company txt : string,
      Scraper.company_matches card_company txt = true
      <-> loose_match card_company txt)
  /\ (forall raw_title el_text : string,
         Scraper.li_title_matches raw_title (Some el_text) = true
         <-> fix_doubled_title (Py.strip el_text) <> ""
             /\ loose_match raw_title (fix_doubled_title (Py.strip el_text)))
  /\ (forall card_title txt : string,
         Scraper.title_matches card_title txt = true
         <-> ci_substring (Py.slice_to 10 card_title) txt)
  /\ (forall raw_title pane_text : string,
         JobScan.pane_shows raw_title pane_text = true
         <-> exists before after,
               pane_text = before +:+ Py.slice_to 10 raw_title +:+ after).
Proof.
  split; [exact company_matches_spec|].
  split; [exact li_title_matches_spec|].
  split; [exact title_matches_spec|].
  intros raw_title pane_text. apply PyFacts.contains_spec.
Qed.

Lemma not_ci_substring (a b : string) :
  Py.contains (Py.lower a) (Py.lower b) = false -> ~ ci_substring a b.
Proof. intros H Hc. apply contains_ci_spec in Hc. congruence. Qed.

(** The title comparison is not the loose match: it accepts a pane title
    that neither contains the card's title nor is contained in it, and it
    rejects a pane title that is contained in the card's title; and
    [job_scan.py]'s comparison rejects a pane text that differs from the
    card's title in letter case only. *)
Lemma title_comparison_is_not_loose :
  (Scraper.title_matches "Data Scientist" "Data Science Lead" = true
   /\ ~ loose_match "Data Scientist" "Data Science Lead")
  /\ (Scraper.title_matches "Data Scientist II" "Data Sci" = false
      /\ loose_match "Data Scientist II" "Data Sci")
  /\ (JobScan.pane_shows "Data Scientist" "DATA SCIENTIST" = false
      /\ loose_match "Data Scientist" "DATA SCIENTIST").
Proof.
  split; [|split].
  - split; [reflexivity|].
    intros [H | H]; revert H; apply not_ci_substring; reflexivity.
  - split; [reflexivity|]. right. apply contains_ci_spec. reflexivity.
  - split; [reflexivity|]. left. apply contains_ci_spec. reflexivity.
Qed.

(** ** A card whose pane does not synchronise *)






(** ** Qualifications *)

Example qualifications_deduplicated :
  SalaryRetries.qualifications_field
    (Some [Some "SQL"; Some " SQL "; None; Some "  "; Some "Python"])
  = "SQL; Python".
Proof. vm_compute. reflexivity. Qed.

Example qualifications_absent :
  SalaryRetries.qualifications_field (Some []) = NA
  /\ SalaryRetries.qualifications_field None = NA
  /\ Scraper.qualifications_field (Some []) = NA
  /\ Scraper.qualifications_field None = NA.
Proof. repeat split; vm_compute; reflexivity. Qed.

Lemma dedupe_spec (seen : gset string) (quals : list string) :
  NoDup (SalaryRetries.dedupe seen quals)
  /\ (forall q, q ∈ SalaryRetries.dedupe seen quals <-> q ∈ quals /\ q ∉ seen).
Proof.
  revert seen. induction quals as [|x quals IH]; intros seen; simpl.
  - split; [constructor | set_solver].
  - destruct (bool_decide (x ∈ seen)) eqn:E.
    + apply bool_decide_eq_true in E. destruct (IH seen) as [Hn Hm].
      split; [exact Hn|]. intros q. rewrite Hm. set_solver.
    + apply bool_decide_eq_false in E.
      destruct (IH ({[x]} ∪ seen)) as [Hn Hm].
      split.
      * constructor; [|exact Hn]. rewrite Hm. set_solver.
      * intros q. rewrite elem_of_cons, Hm. split.
        -- intros [-> | [H1 H2]]; set_solver.
        -- intros [H1 H2]. apply elem_of_cons in H1 as [-> | H1]; [auto|].
           destruct (decide (q = x)) as [-> | Hne]; [auto|]. right. set_solver.
Qed.

(** The first-seen order is kept: the result is the list of stripped,
    non-empty items with, for each item, every later copy removed. *)
Lemma dedupe_sublist (seen : gset string) (quals : list string) :
  sublist (SalaryRetries.dedupe seen quals) quals.
Proof.
  revert seen. induction quals as [|x quals IH]; intros seen; simpl.
  - constructor.
  - destruct (bool_decide (x ∈ seen)).
    + apply sublist_cons, IH.
    + apply sublist_skip, IH.
Qed.

Lemma dedupe_keeps_first (seen : gset string) (x : string)
    (quals : list string) :
  x ∉ seen ->
  SalaryRetries.dedupe seen (x :: quals)
  = x :: SalaryRetries.dedupe ({[x]} ∪ seen) quals.
Proof. intros H. simpl. rewrite bool_decide_false by exact H. reflexivity. Qed.

(** What [extract_qualifications] returns: no item twice, no empty item,
    every item stripped, and exactly the stripped non-empty items of the
    pane, in the order of their first occurrence. *)
Lemma extract_qualifications_spec (items : list (option string)) :
  let quals := SalaryRetries.extract_qualifications (Some items) in
  NoDup quals
  /\ sublist quals (SalaryRetries.stripped_items items)
  /\ (forall q, q ∈ quals
                <-> q <> "" /\ exists el, el ∈ items
                                        /\ q = Py.strip (default "" el)).
Proof.
  unfold SalaryRetries.extract_qualifications.
  destruct (dedupe_spec ∅ (SalaryRetries.stripped_items items)) as [Hn Hm].
  split; [exact Hn|]. split; [apply dedupe_sublist|].
  intros q. rewrite Hm. unfold SalaryRetries.stripped_items.
  rewrite list_elem_of_filter, list_elem_of_fmap.
  assert (Hf : Py.falsy q = false <-> q <> "")
    by (destruct q; simpl; split; congruence).
  rewrite Hf. split.
  - intros [[Hne [el [-> Hin]]] _]. split; [exact Hne|]. eauto.
  - intros [Hne [el [Hin ->]]]. split; [|set_solver]. split; [exact Hne|]. eauto.
Qed.

(** C8 fails on [run_scraper]'s parser: it strips the items and drops the
    empty ones but joins them as they come, so an item that the pane lists
    twice is stored twice. *)
Theorem scraper_qualifications_keep_duplicates :
  Scraper.qualifications_field (Some [Some "SQL"; Some "SQL"; Some "Python"])
  = "SQL; SQL; Python"
  /\ SalaryRetries.qualifications_field
       (Some [Some "SQL"; Some "SQL"; Some "Python"])
     = "SQL; Python".
Proof. split; vm_compute; reflexivity. Qed.

Example job_scan_qualifications_keep_duplicates :
  exists job_data,
    JobScan.parse_job_data (Samples.synced_card "Data Scientist" "About us")
    = Returned (Some job_data)
    /\ job_data !! "qualifications" = Some "SQL; SQL; Python".
Proof. eexists. split; reflexivity. Qed.

(** ** The driver loops *)

(** *** [job_scan.py] *)

Lemma jobscan_verify_cases (cfg : Config) (relevance : Relevance)
    (job_data : JobScan.JobData) (st : JobScan.RunState) :
  JobScan.verify_and_save cfg relevance job_data st = st
  \/ JobScan.verify_and_save cfg relevance job_data st
     = JobScan.save_job job_data st.
Proof.
  unfold JobScan.verify_and_save.
  repeat match goal with
         | |- context [match ?c with _ => _ end] => destruct c; auto
         end.
Qed.

Lemma jobscan_process_cases (cfg : Config) (st : JobScan.RunState)
    (card : JobScan.Card) :
  JobScan.process_card cfg st card = st
  \/ exists job_data,
       JobScan.process_card cfg st card = JobScan.save_job job_data st.
Proof.
  unfold JobScan.process_card.
  destruct (JobScan.text card) as [t|]; [|auto].
  destruct (classify_title cfg (first_line t)); [auto| |];
    (destruct (JobScan.parse_job_data card) as [[job_data|]|]; [|auto|auto];
     match goal with
     | |- JobScan.verify_and_save ?c ?r ?j ?s = _ \/ _ =>
         destruct (jobscan_verify_cases c r j s) as [-> | ->]; eauto
     end).
Qed.

Lemma jobscan_card_loop_steps (cfg : Config) (page : JobScan.PageView)
    (indices : list nat) (st : JobScan.RunState) :
  rtc (jobscan_step cfg) st (JobScan.card_loop cfg page indices st).
Proof.
  revert st. induction indices as [|i rest IH]; intros st; simpl.
  - apply rtc_refl.
  - destruct (MAX_JOBS_TO_SCRAPE cfg <=? JobScan.total_saved st) eqn:Hcap;
      [apply rtc_refl|].
    apply Nat.leb_gt in Hcap.
    destruct (JobScan.cards_at page i) as [cards|]; [|apply IH].
    destruct (cards !! i) as [card|]; [|apply rtc_refl].
    destruct (jobscan_process_cases cfg st card) as [-> | [job_data ->]].
    + apply IH.
    + eapply rtc_l; [|apply IH]. constructor. exact Hcap.
Qed.

Lemma jobscan_page_loop_steps (cfg : Config) (session : nat -> JobScan.PageView)
    (more_pages page_num : nat) (st : JobScan.RunState) :
  rtc (jobscan_step cfg) st
      (JobScan.page_loop cfg session more_pages page_num st).
Proof.
  revert page_num st.
  induction more_pages as [|more_pages IH]; intros page_num st; simpl;
    destruct (negb (JobScan.job_list_present (session page_num)));
    try apply rtc_refl;
    (destruct (MAX_JOBS_TO_SCRAPE cfg <=? _);
     [apply jobscan_card_loop_steps|]);
    (destruct (JobScan.next_page (session page_num));
     [|apply jobscan_card_loop_steps]).
  - apply jobscan_card_loop_steps.
  - etrans; [apply jobscan_card_loop_steps | apply IH].
Qed.

Lemma jobscan_keywords_steps (cfg : Config)
    (site : string -> nat -> JobScan.PageView) (keywords : list string)
    (st : JobScan.RunState) :
  rtc (jobscan_step cfg) st
      (fold_left
         (fun st kw =>
            JobScan.page_loop cfg (site kw) (MAX_PAGES_PER_KEYWORD cfg - 1) 1 st)
         keywords st).
Proof.
  revert st. induction keywords as [|kw rest IH]; intros st; simpl.
  - apply rtc_refl.
  - etrans; [apply jobscan_page_loop_steps | apply IH].
Qed.

(** Steps keep the counter equal to the number of rows, keep it within the
    cap, and only append rows. *)
Lemma jobscan_steps_invariant (cfg : Config) (st st' : JobScan.RunState) :
  rtc (jobscan_step cfg) st st' ->
  JobScan.total_saved st = length (JobScan.saved st) ->
  JobScan.total_saved st <= MAX_JOBS_TO_SCRAPE cfg ->
  JobScan.total_saved st' = length (JobScan.saved st')
  /\ JobScan.total_saved st' <= MAX_JOBS_TO_SCRAPE cfg
  /\ JobScan.saved st `prefix_of` JobScan.saved st'.
Proof.
  induction 1 as [st | st st1 st2 Hstep _ IH]; intros Hlen Hcap.
  - auto.
  - destruct Hstep as [st job_data Hlt].
    destruct IH as [H1 [H2 H3]].
    + simpl. rewrite length_app, Hlen. simpl. lia.
    + simpl. lia.
    + split; [exact H1|]. split; [exact H2|].
      etrans; [|exact H3]. simpl. apply prefix_app_r. reflexivity.
Qed.

(** At the cap the loops do nothing. *)
Lemma jobscan_card_loop_capped (cfg : Config) (page : JobScan.PageView)
    (indices : list nat) (st : JobScan.RunState) :
  MAX_JOBS_TO_SCRAPE cfg <= JobScan.total_saved st ->
  JobScan.card_loop cfg page indices st = st.
Proof.
  intros H. destruct indices as [|i rest]; [reflexivity|]. simpl.
  apply Nat.leb_le in H. rewrite H. reflexivity.
Qed.

Lemma jobscan_page_loop_capped (cfg : Config) (session : nat -> JobScan.PageView)
    (more_pages page_num : nat) (st : JobScan.RunState) :
  MAX_JOBS_TO_SCRAPE cfg <= JobScan.total_saved st ->
  JobScan.page_loop cfg session more_pages page_num st = st.
Proof.
  intros H.
  destruct more_pages; simpl;
    destruct (negb (JobScan.job_list_present (session page_num)));
    try reflexivity;
    unfold JobScan.scan_page;
    rewrite (jobscan_card_loop_capped cfg _ _ st H);
    apply Nat.leb_le in H; rewrite H; reflexivity.
Qed.

(** *** [run_scraper], SimplyHired part *)

Lemma scraper_process_cases (cfg : Config) (st : Scraper.State)
    (prev : string) (card : Scraper.Card) :
  (Scraper.process_card cfg st prev card).1 = st
  \/ exists job_data,
       (Scraper.process_card cfg st prev card).1
       = Scraper.buffer_job job_data st
       /\ Scraper.url job_data ∉ Scraper.seen_urls st.
Proof.
  unfold Scraper.process_card.
  destruct (match Scraper.outerHTML card with Some _ => _ | None => _ end);
    [auto|].
  destruct (match Scraper.title_elem card with Some _ => _ | None => _ end)
    as [raw_title|]; [|auto].
  destruct (Scraper.is_missing raw_title); [auto|].
  destruct (classify_title cfg raw_title) eqn:Hrel; [auto| |];
    (destruct (Scraper.parse_job_data card prev) as [job_data|]; [|auto];
     destruct (bool_decide (Scraper.url job_data ∈ Scraper.seen_urls st))
       eqn:Hurl; [auto|];
     destruct (bool_decide (_ ∈ Scraper.seen_signatures st)); [auto|];
     apply bool_decide_eq_false in Hurl;
     unfold Scraper.verify_and_buffer; simpl;
     match goal with
     | |- (if ?c then _ else _) = _ \/ _ => destruct c; eauto
     | |- _ => eauto
     end).
Qed.

Lemma scraper_card_loop_steps (cfg : Config) (page : Scraper.PageView)
    (indices : list nat) (st : Scraper.State) (prev : string) :
  rtc (simplyhired_step cfg) st (Scraper.card_loop cfg page indices st prev).
Proof.
  revert st prev. induction indices as [|i rest IH]; intros st prev; simpl.
  - apply rtc_refl.
  - destruct (MAX_JOBS_TO_SCRAPE cfg <=? Scraper.total_saved_this_run st)
      eqn:Hcap; [apply rtc_refl|].
    apply Nat.leb_gt in Hcap.
    destruct (Scraper.cards_at page i ≫= _) as [card|]; [|apply IH].
    destruct (Scraper.process_card cfg st prev card) as [st' prev'] eqn:Hp.
    destruct (scraper_process_cases cfg st prev card) as [H | [jd [H Hu]]];
      rewrite Hp in H; simpl in H; subst st'.
    + apply IH.
    + eapply rtc_l; [|apply IH]. constructor; assumption.
Qed.

Lemma scraper_page_loop_steps (cfg : Config) (session : nat -> Scraper.PageView)
    (pages_left page_num : nat) (st : Scraper.State) :
  rtc (simplyhired_step cfg) st
      (Scraper.page_loop cfg session pages_left page_num st).1.
Proof.
  revert page_num st.
  induction pages_left as [|pages_left IH]; intros page_num st; simpl.
  - apply rtc_refl.
  - destruct (negb (Scraper.job_list_present (session page_num)));
      [apply rtc_refl|].
    destruct (MAX_JOBS_TO_SCRAPE cfg <=? _);
      [apply scraper_card_loop_steps|].
    destruct (Scraper.next_page (session page_num));
      [|apply scraper_card_loop_steps].
    etrans; [apply scraper_card_loop_steps | apply IH].
Qed.

Lemma simplyhired_steps (cfg : Config)
    (site : string -> nat -> Scraper.PageView) (keywords : list string)
    (st : Scraper.State) :
  rtc (simplyhired_step cfg) st (Scraper.simplyhired cfg site keywords st).1.
Proof.
  revert st. induction keywords as [|kw rest IH]; intros st; simpl.
  - apply rtc_refl.
  - pose proof (scraper_page_loop_steps cfg (site kw)
                  (MAX_PAGES_PER_KEYWORD cfg) 1 st) as H.
    destruct (Scraper.page_loop cfg (site kw) (MAX_PAGES_PER_KEYWORD cfg) 1 st)
      as [st' [|]]; simpl in H.
    + etrans; [exact H | apply IH].
    + exact H.
Qed.

(** *** [run_scraper], LinkedIn part *)

Lemma linkedin_process_cases (cfg : Config) (st : Scraper.State)
    (prev : string) (card : Scraper.LiCard) :
  (Scraper.li_process_card cfg st prev card).1 = st
  \/ exists job_url sig data,
       (Scraper.li_process_card cfg st prev card).1
       = Scraper.li_buffer_job job_url sig data st
       /\ (job_url <> "" -> job_url ∉ Scraper.seen_urls st)
       /\ Scraper.url data = (if Py.falsy job_url then NA else job_url).
Proof.
  unfold Scraper.li_process_card.
  destruct (Scraper.li_outerHTML card) as [card_html|]; [|auto].
  cbv zeta.
  destruct (Scraper.is_missing _); [auto|].
  destruct (negb (Py.falsy (Scraper.linkedin_url_from_card card))
            && bool_decide (_ ∈ Scraper.seen_urls st)) eqn:Hurl; [auto|].
  destruct (negb (Scraper.li_click_ok card)); [auto|].
  destruct (negb (Scraper.li_pane_matched _ _)); [auto|].
  destruct (Scraper.REQUIRE_COMPANY && _); [auto|].
  destruct (bool_decide (_ ∈ Scraper.seen_signatures st)); [auto|].
  assert (Hnew : Scraper.linkedin_url_from_card card <> "" ->
                 Scraper.linkedin_url_from_card card ∉ Scraper.seen_urls st).
  { intros Hne. apply andb_false_iff in Hurl as [Hf | Hd].
    - destruct (Scraper.linkedin_url_from_card card); [congruence|discriminate].
    - apply bool_decide_eq_false in Hd. exact Hd. }
  destruct (classify_title cfg _); [auto| |];
    (match goal with
     | |- (if ?c then _ else _).1 = _ \/ _ => destruct c; simpl; [|auto]
     end;
     right; eexists _, _, _; split; [reflexivity|]; split; [exact Hnew|];
     reflexivity).
Qed.

Lemma linkedin_card_loop_steps (cfg : Config) (cards : list Scraper.LiCard)
    (st : Scraper.State) (prev : string) :
  rtc (linkedin_step cfg) st (Scraper.li_card_loop cfg cards st prev).1.1.
Proof.
  revert st prev. induction cards as [|card rest IH]; intros st prev; simpl.
  - apply rtc_refl.
  - destruct (MAX_JOBS_TO_SCRAPE cfg <=? length (Scraper.new_jobs_buffer st))
      eqn:Hcap; [apply rtc_refl|].
    apply Nat.leb_gt in Hcap.
    destruct (Scraper.li_process_card cfg st prev card) as [st' prev'] eqn:Hp.
    destruct (linkedin_process_cases cfg st prev card)
      as [H | [job_url [sig [data [H [Hu Hd]]]]]];
      rewrite Hp in H; simpl in H; subst st'.
    + apply IH.
    + eapply rtc_l; [|apply IH]. constructor; assumption.
Qed.

Lemma linkedin_page_loop_steps (cfg : Config)
    (session : nat -> Scraper.LiPageView) (rounds current_page_num : nat)
    (st : Scraper.State) (prev : string) :
  rtc (linkedin_step cfg) st
      (Scraper.li_page_loop cfg session rounds current_page_num st prev).1.1.
Proof.
  revert current_page_num st prev.
  induction rounds as [|rounds IH]; intros page_num st prev; simpl.
  - apply rtc_refl.
  - destruct (MAX_JOBS_TO_SCRAPE cfg <=? _); [apply rtc_refl|].
    destruct (MAX_PAGES_PER_KEYWORD cfg <? page_num); [apply rtc_refl|].
    destruct (negb (Scraper.li_cards_present (session page_num)));
      [apply rtc_refl|].
    pose proof (linkedin_card_loop_steps cfg
                  (Scraper.li_cards (session page_num)) st prev) as H.
    destruct (Scraper.li_card_loop cfg (Scraper.li_cards (session page_num))
                                   st prev) as [[st' prev'] [|]]; simpl in H.
    + destruct (Scraper.li_next_page (session page_num)); [|exact H].
      etrans; [exact H | apply IH].
    + exact H.
Qed.

Lemma linkedin_keywords_steps (cfg : Config)
    (site : string -> nat -> Scraper.LiPageView) (keywords : list string)
    (st : Scraper.State) (prev : string) :
  rtc (linkedin_step cfg) st (Scraper.li_keywords cfg site keywords st prev).
Proof.
  revert st prev. induction keywords as [|kw rest IH]; intros st prev.
  - apply rtc_refl.
  - pose proof (linkedin_page_loop_steps cfg (site kw)
                  (S (MAX_PAGES_PER_KEYWORD cfg)) 1 st prev) as H.
    cbn [Scraper.li_keywords].
    destruct (Scraper.li_page_loop cfg (site kw) (S (MAX_PAGES_PER_KEYWORD cfg))
                                   1 st prev) as [[st' prev'] [|]];
      cbn [fst] in H.
    + etrans; [exact H | apply IH].
    + exact H.
Qed.

(** A run is SimplyHired steps followed by LinkedIn steps. *)
Lemma run_scraper_steps (cfg : Config) (old_urls : gset string)
    (old_signatures : gset (string * string))
    (simplyhired_site : string -> nat -> Scraper.PageView)
    (linkedin_site : string -> nat -> Scraper.LiPageView) :
  let st0 := {| Scraper.seen_urls := old_urls;
                Scraper.seen_signatures := old_signatures;
                Scraper.new_jobs_buffer := [];
                Scraper.total_saved_this_run := 0 |} in
  exists st1,
    rtc (simplyhired_step cfg) st0 st1
    /\ rtc (linkedin_step cfg) st1
           (Scraper.run_scraper cfg old_urls old_signatures
                                simplyhired_site linkedin_site).
Proof.
  intros st0. unfold Scraper.run_scraper. fold st0.
  pose proof (simplyhired_steps cfg simplyhired_site (KEYWORDS cfg) st0) as H.
  destruct (Scraper.simplyhired cfg simplyhired_site (KEYWORDS cfg) st0)
    as [st1 [|]]; simpl in H; exists st1; split; try exact H.
  - apply linkedin_keywords_steps.
  - apply rtc_refl.
Qed.

(** ** The seen set *)

Lemma scraper_step_accepts (cfg : Config) (st st' : Scraper.State) :
  scraper_step cfg st st' ->
  Scraper.seen_urls st ⊆ Scraper.seen_urls st'
  /\ exists d,
       Scraper.new_jobs_buffer st' = Scraper.new_jobs_buffer st ++ [d]
       /\ (Scraper.url d = NA
           \/ ((Scraper.url d ∉ Scraper.seen_urls st)
               /\ Scraper.url d ∈ Scraper.seen_urls st')).
Proof.
  intros [H | H];
    [destruct H as [st job_data Hcap Hnew]
    | destruct H as [st job_url sig data Hcap Hnew Hurl]]; simpl.
  - split; [set_solver|]. exists job_data. split; [reflexivity|].
    right. split; [exact Hnew | set_solver].
  - destruct job_url as [|c u]; simpl in *.
    + split; [set_solver|]. exists data. split; [reflexivity|]. auto.
    + split; [set_solver|]. exists data. split; [reflexivity|].
      right. rewrite Hurl. split; [apply Hnew; discriminate | set_solver].
Qed.

(** Between two states of a run, the seen set only grows, and no record
    buffered in between carries a URL that was in the seen set at the
    start. *)
Lemma scraper_steps_accept (cfg : Config) (st st' : Scraper.State) :
  rtc (scraper_step cfg) st st' ->
  Scraper.seen_urls st ⊆ Scraper.seen_urls st'
  /\ exists added,
       Scraper.new_jobs_buffer st' = Scraper.new_jobs_buffer st ++ added
       /\ forall d, d ∈ added ->
                    Scraper.url d = NA
                    \/ Scraper.url d ∉ Scraper.seen_urls st.
Proof.
  induction 1 as [st | st st1 st2 Hstep _ IH].
  - split; [reflexivity|]. exists []. split; [symmetry; apply app_nil_r|].
    intros d Hd. inversion Hd.
  - destruct (scraper_step_accepts cfg st st1 Hstep) as [Hs [d [Hb Hd]]].
    destruct IH as [Hs' [added [Hb' Hadd]]].
    split; [etrans; eassumption|].
    exists (d :: added). split.
    + rewrite Hb', Hb, <- app_assoc. reflexivity.
    + intros d' Hin. apply elem_of_cons in Hin as [-> | Hin].
      * destruct Hd as [Hd | [Hd _]]; auto.
      * destruct (Hadd d' Hin) as [Hna | Hnew]; [auto|].
        right. intros Hc. apply Hnew, Hs, Hc.
Qed.

Lemma buffered_urls_snoc (st st' : Scraper.State) (d : Scraper.JobData) :
  Scraper.new_jobs_buffer st' = Scraper.new_jobs_buffer st ++ [d] ->
  buffered_urls st'
  = buffered_urls st ++ (if decide (Scraper.url d = NA) then []
                         else [Scraper.url d]).
Proof.
  intros H. unfold buffered_urls. rewrite H, map_app, filter_app. simpl.
  f_equal. rewrite filter_cons, filter_nil.
  destruct (decide (Scraper.url d <> NA)), (decide (Scraper.url d = NA));
    first [reflexivity | exfalso; tauto].
Qed.

(** The URLs of the buffered records are pairwise distinct, all in the seen
    set and none of those the run started with. *)
Lemma scraper_steps_distinct (cfg : Config) (old_urls : gset string)
    (st st' : Scraper.State) :
  rtc (scraper_step cfg) st st' ->
  old_urls ⊆ Scraper.seen_urls st ->
  NoDup (buffered_urls st) ->
  (forall u, u ∈ buffered_urls st -> u ∈ Scraper.seen_urls st /\ u ∉ old_urls) ->
  old_urls ⊆ Scraper.seen_urls st'
  /\ NoDup (buffered_urls st')
  /\ (forall u, u ∈ buffered_urls st' ->
                u ∈ Scraper.seen_urls st' /\ u ∉ old_urls).
Proof.
  induction 1 as [st | st st1 st2 Hstep _ IH]; intros Hold Hnd Hin; [auto|].
  destruct (scraper_step_accepts cfg st st1 Hstep) as [Hs [d [Hb Hd]]].
  apply IH.
  - etrans; eassumption.
  - rewrite (buffered_urls_snoc st st1 d Hb).
    destruct (decide (Scraper.url d = NA)) as [E | E];
      [rewrite app_nil_r; exact Hnd|].
    destruct Hd as [Hd | [Hd _]]; [congruence|].
    apply NoDup_app. split; [exact Hnd|]. split; [|apply NoDup_singleton].
    intros u Hu Hu'. apply list_elem_of_singleton in Hu'. subst u.
    apply Hd, Hin, Hu.
  - intros u. rewrite (buffered_urls_snoc st st1 d Hb), elem_of_app.
    intros [Hu | Hu].
    + destruct (Hin u Hu). split; [apply Hs|]; assumption.
    + destruct (decide (Scraper.url d = NA)) as [E | E]; [inversion Hu|].
      apply list_elem_of_singleton in Hu. subst u.
      destruct Hd as [Hd | [Hd Hd']]; [congruence|].
      split; [exact Hd'|]. intros Hc. apply Hd, Hold, Hc.
Qed.

Lemma run_scraper_is_steps (cfg : Config) (old_urls : gset string)
    (old_signatures : gset (string * string))
    (simplyhired_site : string -> nat -> Scraper.PageView)
    (linkedin_site : string -> nat -> Scraper.LiPageView) :
  rtc (scraper_step cfg) (initial_state old_urls old_signatures)
      (Scraper.run_scraper cfg old_urls old_signatures
                           simplyhired_site linkedin_site).
Proof.
  destruct (run_scraper_steps cfg old_urls old_signatures
                              simplyhired_site linkedin_site)
    as [st1 [H1 H2]].
  etrans.
  - eapply rtc_subrel; [|exact H1]. intros x y Hxy. left. exact Hxy.
  - eapply rtc_subrel; [|exact H2]. intros x y Hxy. right. exact Hxy.
Qed.

(** C4: a run of [run_scraper] is a sequence of steps from its initial
    state; between any two states of such a sequence the seen set only
    grows, and no record buffered in between carries a URL that was in the
    seen set at the earlier state (a LinkedIn record without a URL carries
    the sentinel in its place); so, at the end of the run, the URLs of the
    buffered records are pairwise distinct, all in the seen set, and none of
    them was in the set the run started with. *)
Theorem seen_url_is_never_accepted_again :
  (forall (cfg : Config) (old_urls : gset string)
          (old_signatures : gset (string * string))
          (simplyhired_site : string -> nat -> Scraper.PageView)
          (linkedin_site : string -> nat -> Scraper.LiPageView),
      rtc (scraper_step cfg) (initial_state old_urls old_signatures)
          (Scraper.run_scraper cfg old_urls old_signatures
                               simplyhired_site linkedin_site))
  /\ (forall (cfg : Config) (st st' : Scraper.State),
         rtc (scraper_step cfg) st st' ->
         Scraper.seen_urls st ⊆ Scraper.seen_urls st'
         /\ exists added,
              Scraper.new_jobs_buffer st'
              = Scraper.new_jobs_buffer st ++ added
              /\ forall d, d ∈ added ->
                           Scraper.url d = NA
                           \/ Scraper.url d ∉ Scraper.seen_urls st)
  /\ (forall (cfg : Config) (old_urls : gset string)
             (old_signatures : gset (string * string))
             (simplyhired_site : string -> nat -> Scraper.PageView)
             (linkedin_site : string -> nat -> Scraper.LiPageView),
         let st := Scraper.run_scraper cfg old_urls old_signatures
                                       simplyhired_site linkedin_site in
         old_urls ⊆ Scraper.seen_urls st
         /\ NoDup (buffered_urls st)
         /\ forall u, u ∈ buffered_urls st ->
                      u ∈ Scraper.seen_urls st /\ u ∉ old_urls).
Proof.
  split; [exact run_scraper_is_steps|].
  split; [exact scraper_steps_accept|].
  intros cfg old_urls old_signatures simplyhired_site linkedin_site st.
  apply (scraper_steps_distinct cfg old_urls
           (initial_state old_urls old_signatures)).
  - apply run_scraper_is_steps.
  - reflexivity.
  - constructor.
  - intros u Hu. inversion Hu.
Qed.

Example known_and_repeated_urls_are_skipped :
  map Scraper.url
      (Scraper.new_jobs_buffer
         (Scraper.run_scraper Scraper.config {[ known_url ]} ∅
                              (sh_site_of three_cards) no_linkedin))
  = ["https://www.simplyhired.ca/job/2"].
Proof. vm_compute. reflexivity. Qed.

Lemma seen_url_is_never_accepted_again_witness :
  let st := Scraper.run_scraper Scraper.config {[ known_url ]} ∅
                                (sh_site_of three_cards) no_linkedin in
  {[ known_url ]} ⊆ Scraper.seen_urls st
  /\ exists added,
       Scraper.new_jobs_buffer st = [] ++ added
       /\ forall d, d ∈ added ->
                    (Scraper.url d = NA)
                    \/ (Scraper.url d ∉ ({[ known_url ]} : gset string)).
Proof.
  exact (proj1 (proj2 seen_url_is_never_accepted_again)
           Scraper.config (initial_state {[ known_url ]} ∅) _
           (proj1 seen_url_is_never_accepted_again
              Scraper.config {[ known_url ]} ∅
              (sh_site_of three_cards) no_linkedin)).
Defined.

(** ** The record cap *)

Lemma simplyhired_steps_capped (cfg : Config) (st st' : Scraper.State) :
  rtc (simplyhired_step cfg) st st' ->
  Scraper.total_saved_this_run st = length (Scraper.new_jobs_buffer st) ->
  Scraper.total_saved_this_run st <= MAX_JOBS_TO_SCRAPE cfg ->
  Scraper.total_saved_this_run st' = length (Scraper.new_jobs_buffer st')
  /\ Scraper.total_saved_this_run st' <= MAX_JOBS_TO_SCRAPE cfg.
Proof.
  induction 1 as [st | st st1 st2 Hstep _ IH]; intros Hlen Hcap; [auto|].
  destruct Hstep as [st job_data Hlt Hnew]. apply IH; simpl.
  - rewrite length_app, Hlen. simpl. lia.
  - lia.
Qed.

Lemma linkedin_steps_capped (cfg : Config) (st st' : Scraper.State) :
  rtc (linkedin_step cfg) st st' ->
  length (Scraper.new_jobs_buffer st) <= MAX_JOBS_TO_SCRAPE cfg ->
  length (Scraper.new_jobs_buffer st') <= MAX_JOBS_TO_SCRAPE cfg
  /\ Scraper.total_saved_this_run st' = Scraper.total_saved_this_run st.
Proof.
  induction 1 as [st | st st1 st2 Hstep _ IH]; intros Hcap; [auto|].
  destruct Hstep as [st job_url sig data Hlt Hnew Hurl].
  destruct IH as [H1 H2].
  - simpl. rewrite length_app. simpl. lia.
  - split; [exact H1 | exact H2].
Qed.

Lemma scraper_card_loop_capped (cfg : Config) (page : Scraper.PageView)
    (indices : list nat) (st : Scraper.State) (prev : string) :
  MAX_JOBS_TO_SCRAPE cfg <= Scraper.total_saved_this_run st ->
  Scraper.card_loop cfg page indices st prev = st.
Proof.
  intros H. destruct indices as [|i rest]; [reflexivity|]. simpl.
  apply Nat.leb_le in H. rewrite H. reflexivity.
Qed.

Lemma linkedin_card_loop_capped (cfg : Config) (cards : list Scraper.LiCard)
    (st : Scraper.State) (prev : string) :
  MAX_JOBS_TO_SCRAPE cfg <= length (Scraper.new_jobs_buffer st) ->
  (Scraper.li_card_loop cfg cards st prev).1.1 = st.
Proof.
  intros H. destruct cards as [|card rest]; [reflexivity|]. simpl.
  apply Nat.leb_le in H. rewrite H. reflexivity.
Qed.

Example cap_reached_mid_page :
  length (JobScan.saved (JobScan.run (Samples.small_config 2)
                                     (Samples.site_of three_strong_cards)))
  = 2
  /\ length (Scraper.new_jobs_buffer
               (Scraper.run_scraper (Samples.small_config 1) ∅ ∅
                                    (sh_site_of three_cards) no_linkedin))
     = 1.
Proof. split; vm_compute; reflexivity. Qed.

(** C5: in [job_scan.py] the counter equals the number of rows saved and
    never exceeds the cap, and at the cap the loop over the cards and the
    loop over the pages leave the state as it is; in [run_scraper] the
    buffer never holds more records than the cap, through both of its parts,
    and at the cap the loops over the cards leave the state as it is. *)
Theorem record_cap_is_never_exceeded :
  (forall (cfg : Config) (site : string -> nat -> JobScan.PageView),
      let st := JobScan.run cfg site in
      JobScan.total_saved st = length (JobScan.saved st)
      /\ JobScan.total_saved st <= MAX_JOBS_TO_SCRAPE cfg)
  /\ (forall (cfg : Config) (page : JobScan.PageView) (indices : list nat)
             (st : JobScan.RunState),
         MAX_JOBS_TO_SCRAPE cfg <= JobScan.total_saved st ->
         JobScan.card_loop cfg page indices st = st)
  /\ (forall (cfg : Config) (session : nat -> JobScan.PageView)
             (more_pages page_num : nat) (st : JobScan.RunState),
         MAX_JOBS_TO_SCRAPE cfg <= JobScan.total_saved st ->
         JobScan.page_loop cfg session more_pages page_num st = st)
  /\ (forall (cfg : Config) (old_urls : gset string)
             (old_signatures : gset (string * string))
             (simplyhired_site : string -> nat -> Scraper.PageView)
             (linkedin_site : string -> nat -> Scraper.LiPageView),
         let st := Scraper.run_scraper cfg old_urls old_signatures
                                       simplyhired_site linkedin_site in
         length (Scraper.new_jobs_buffer st) <= MAX_JOBS_TO_SCRAPE cfg
         /\ Scraper.total_saved_this_run st <= MAX_JOBS_TO_SCRAPE cfg)
  /\ (forall (cfg : Config) (page : Scraper.PageView) (indices : list nat)
             (st : Scraper.State) (prev : string),
         MAX_JOBS_TO_SCRAPE cfg <= Scraper.total_saved_this_run st ->
         Scraper.card_loop cfg page indices st prev = st)
  /\ (forall (cfg : Config) (cards : list Scraper.LiCard)
             (st : Scraper.State) (prev : string),
         MAX_JOBS_TO_SCRAPE cfg <= length (Scraper.new_jobs_buffer st) ->
         (Scraper.li_card_loop cfg cards st prev).1.1 = st).
Proof.
  split.
  { intros cfg site st.
    destruct (jobscan_steps_invariant cfg
                {| JobScan.saved := []; JobScan.total_saved := 0 |} st)
      as [H1 [H2 _]]; [apply jobscan_keywords_steps | reflexivity | simpl; lia |].
    auto. }
  split; [exact jobscan_card_loop_capped|].
  split; [exact jobscan_page_loop_capped|].
  split.
  { intros cfg old_urls old_signatures simplyhired_site linkedin_site st.
    destruct (run_scraper_steps cfg old_urls old_signatures
                                simplyhired_site linkedin_site)
      as [st1 [H1 H2]].
    destruct (simplyhired_steps_capped cfg _ st1 H1) as [Hlen Hcap];
      [reflexivity | simpl; lia |].
    destruct (linkedin_steps_capped cfg st1 st H2) as [Hb Ht]; [lia|].
    split; [exact Hb | lia]. }
  split; [exact scraper_card_loop_capped | exact linkedin_card_loop_capped].
Qed.

Lemma record_cap_is_never_exceeded_witness :
  JobScan.card_loop (Samples.small_config 1)
                    (Samples.page_of three_strong_cards) [0; 1; 2] one_saved
  = one_saved
  /\ JobScan.page_loop (Samples.small_config 1)
                       (Samples.site_of three_strong_cards "data scientist")
                       1 1 one_saved
     = one_saved.
Proof.
  split.
  - apply (proj1 (proj2 record_cap_is_never_exceeded)). simpl. lia.
  - apply (proj1 (proj2 (proj2 record_cap_is_never_exceeded))). simpl. lia.
Defined.

(** ** The matcher *)

Module ReFacts.
Import Py Re PyFacts.

(** *** More on strings *)

Lemma len_nil (s : string) : len s = 0 -> s = "".
Proof. destruct s; [reflexivity | discriminate]. Qed.

Lemma slice_to_all (s : string) : slice_to (len s) s = s.
Proof. rewrite <- (app_nil_r s) at 2. rewrite slice_to_app. reflexivity. Qed.

(** Two ways of cutting one text: the shorter tail is a tail of the longer. *)
Lemma app_eq_app_le (a b c d : string) :
  a +:+ b = c +:+ d -> len d <= len b -> exists e, b = e +:+ d /\ c = a +:+ e.
Proof.
  revert c. induction a as [|x a IH]; intros c H Hl.
  - rewrite app_nil_l in H. exists c. rewrite app_nil_l. auto.
  - destruct c as [|y c].
    + rewrite app_nil_l in H. subst d. rewrite len_app in Hl.
      unfold len in Hl. simpl in Hl. lia.
    + rewrite !app_cons in H. injection H as -> H.
      destruct (IH c H Hl) as [e [-> ->]]. exists e. rewrite app_cons. auto.
Qed.

Lemma app_inv_tail (a b t : string) : a +:+ t = b +:+ t -> a = b.
Proof.
  intros H. apply app_inv_len in H; [tauto|].
  apply (f_equal len) in H. rewrite !len_app in H. lia.
Qed.

Lemma blank_app (a b : string) : blank (a +:+ b) = blank a && blank b.
Proof.
  induction a as [|x a IH]; [reflexivity|].
  rewrite app_cons. simpl. rewrite IH, andb_assoc. reflexivity.
Qed.

Lemma clean_end_app (a b : string) :
  b <> "" -> clean_end (a +:+ b) = clean_end b.
Proof.
  intros Hb. induction a as [|x a IH]; [reflexivity|].
  rewrite app_cons. simpl. destruct (a +:+ b) eqn:E; [|exact IH].
  apply app_eq_nil in E. tauto.
Qed.

Lemma clean_end_both (a b : string) :
  clean_end a = true -> clean_end b = true -> clean_end (a +:+ b) = true.
Proof.
  intros Ha Hb. destruct b as [|x b].
  - rewrite app_nil_r. exact Ha.
  - rewrite clean_end_app by discriminate. exact Hb.
Qed.

Lemma blank_end (w : string) :
  blank w = true -> w <> "" -> clean_end w = false.
Proof.
  induction w as [|x w IH]; [congruence|]. simpl. intros H _.
  apply andb_true_iff in H as [Hx Hw]. destruct w as [|y w].
  - rewrite Hx. reflexivity.
  - apply IH; [exact Hw | discriminate].
Qed.

Lemma isspace_chars (c : ascii) : isspace c = true -> In c space_chars.
Proof.
  destruct c as [[] [] [] [] [] [] [] []]; intros H;
    solve [discriminate H | simpl; tauto].
Qed.

Lemma no_space_in_spec (p : ascii -> bool) (c : ascii) :
  no_space_in p = true -> p c = true -> isspace c = false.
Proof.
  intros Hp Hc. destruct (isspace c) eqn:E; [|reflexivity].
  apply isspace_chars in E. unfold no_space_in in Hp.
  rewrite forallb_forall in Hp. apply Hp in E. rewrite Hc in E. discriminate.
Qed.

(** *** What is left after a match is a tail of the text *)

Lemma star_ends_suffix (f : string -> list string) :
  (forall s t, In t (f s) -> exists c, s = c +:+ t) ->
  forall n s t, In t (star_ends f n s) -> exists c, s = c +:+ t.
Proof.
  intros Hf. induction n as [|n IH]; intros s t; simpl.
  - intros [<- | []]. exists "". reflexivity.
  - rewrite in_app_iff, in_flat_map. intros [[x [Hx Ht]] | [<- | []]].
    + destruct (len x <? len s); [|destruct Ht].
      destruct (Hf _ _ Hx) as [c1 ->]. destruct (IH _ _ Ht) as [c2 ->].
      exists (c1 +:+ c2). rewrite app_assoc. reflexivity.
    + exists "". reflexivity.
Qed.

Lemma ends_suffix (r : regex) (s t : string) :
  In t (ends r s) -> exists c, s = c +:+ t.
Proof.
  revert s t. induction r as [|p|a IHa b IHb|a IHa b IHb|a IHa|a IHa];
    intros s t; simpl.
  - intros [<- | []]. exists "". reflexivity.
  - destruct s as [|c s]; [intros []|]. destruct (p c); [|intros []].
    intros [<- | []]. exists (String c ""). reflexivity.
  - rewrite in_flat_map. intros [x [Hx Ht]].
    destruct (IHa _ _ Hx) as [c1 ->]. destruct (IHb _ _ Ht) as [c2 ->].
    exists (c1 +:+ c2). rewrite app_assoc. reflexivity.
  - rewrite in_app_iff. intros [H | H]; eauto.
  - rewrite in_app_iff. intros [H | [<- | []]]; eauto.
    exists "". reflexivity.
  - apply star_ends_suffix. exact IHa.
Qed.

Lemma ends_len (r : regex) (s t : string) : In t (ends r s) -> len t <= len s.
Proof.
  intros H. apply ends_suffix in H as [c ->]. rewrite len_app. lia.
Qed.

Lemma flat_map_none {A B : Type} (g : A -> list B) (l : list A) :
  (forall x, In x l -> g x = []) -> flat_map g l = [].
Proof.
  induction l as [|x l IH]; intros H; [reflexivity|]. simpl.
  rewrite (H x) by (left; reflexivity). apply IH.
  intros y Hy. apply H. right. exact Hy.
Qed.

(** The fuel of [star_ends] is never used up. *)
Lemma star_fuel (f : string -> list string) (n m : nat) (s : string) :
  len s <= n -> len s <= m -> star_ends f n s = star_ends f m s.
Proof.
  revert m s. induction n as [|n IH]; intros m s Hn Hm.
  - destruct m as [|m]; [reflexivity|]. simpl.
    rewrite flat_map_none; [reflexivity|]. intros x _.
    destruct (len x <? len s) eqn:E; [apply Nat.ltb_lt in E; lia|reflexivity].
  - destruct m as [|m]; simpl.
    + rewrite flat_map_none; [reflexivity|]. intros x _.
      destruct (len x <? len s) eqn:E; [apply Nat.ltb_lt in E; lia|reflexivity].
    + f_equal. apply flat_map_ext. intros x.
      destruct (len x <? len s) eqn:E; [|reflexivity].
      apply Nat.ltb_lt in E. apply IH; lia.
Qed.

(** *** A match does not look beyond what it takes

    The matches of [r] at the start of [u] are the matches at the start of
    [u +:+ v] that stay within [u], in the same order. *)

Lemma chop_app (t v : string) : chop (len v) (t +:+ v) = Some t.
Proof.
  unfold chop. rewrite len_app.
  destruct (len v <=? len t + len v) eqn:E; [|apply Nat.leb_gt in E; lia].
  replace (len t + len v - len v) with (len t) by lia.
  rewrite slice_to_app. reflexivity.
Qed.

Lemma chop_short (k : nat) (t : string) : len t < k -> chop k t = None.
Proof.
  intros H. unfold chop.
  destruct (k <=? len t) eqn:E; [apply Nat.leb_le in E; lia | reflexivity].
Qed.

Lemma cut_app (k : nat) (l1 l2 : list string) :
  cut k (l1 ++ l2) = cut k l1 ++ cut k l2.
Proof. apply omap_app. Qed.

Lemma cut_short (k : nat) (l : list string) :
  (forall t, In t l -> len t < k) -> cut k l = [].
Proof.
  induction l as [|x l IH]; intros H; [reflexivity|].
  unfold cut. simpl. rewrite chop_short by (apply H; left; reflexivity).
  apply IH. intros t Ht. apply H. right. exact Ht.
Qed.

Lemma cut_flat_map (g g' : string -> list string) (v : string)
    (l : list string) :
  (forall t, In t l -> len v <= len t -> exists t', t = t' +:+ v) ->
  (forall t', cut (len v) (g (t' +:+ v)) = g' t') ->
  (forall t, len t < len v -> cut (len v) (g t) = []) ->
  cut (len v) (flat_map g l) = flat_map g' (cut (len v) l).
Proof.
  intros Hl Hlong Hshort. induction l as [|x l IH]; [reflexivity|].
  simpl. rewrite cut_app, IH by (intros t Ht; apply Hl; right; exact Ht).
  unfold cut at 3. simpl. fold (cut (len v) l).
  destruct (le_lt_dec (len v) (len x)) as [Hx | Hx].
  - destruct (Hl x (or_introl eq_refl) Hx) as [t' ->].
    rewrite chop_app, Hlong. reflexivity.
  - rewrite chop_short, Hshort by exact Hx. reflexivity.
Qed.

Lemma tails_long (u v : string) (l : list string) :
  (forall t, In t l -> exists c, u +:+ v = c +:+ t) ->
  forall t, In t l -> len v <= len t -> exists t', t = t' +:+ v.
Proof.
  intros H t Ht Hlen. destruct (H t Ht) as [c Hc]. symmetry in Hc.
  destruct (app_eq_app_le _ _ _ _ Hc Hlen) as [e [-> _]]. eauto.
Qed.

Lemma star_ends_cut (f : string -> list string) (v : string) :
  (forall s t, In t (f s) -> exists c, s = c +:+ t) ->
  (forall t, cut (len v) (f (t +:+ v)) = f t) ->
  forall n u, cut (len v) (star_ends f n (u +:+ v)) = star_ends f n u.
Proof.
  intros Hsuf Hf. induction n as [|n IH]; intros u; simpl.
  - unfold cut. simpl. rewrite chop_app. reflexivity.
  - rewrite cut_app. unfold cut at 2. simpl. rewrite chop_app. f_equal.
    rewrite <- (Hf u). apply cut_flat_map.
    + apply (tails_long u). intros t Ht. apply Hsuf. exact Ht.
    + intros t'. rewrite !len_app.
      destruct (len t' <? len u) eqn:E.
      * apply Nat.ltb_lt in E.
        destruct (len t' + len v <? len u + len v) eqn:E';
          [apply IH | apply Nat.ltb_ge in E'; lia].
      * apply Nat.ltb_ge in E.
        destruct (len t' + len v <? len u + len v) eqn:E';
          [apply Nat.ltb_lt in E'; lia | reflexivity].
    + intros t Ht. destruct (len t <? len (u +:+ v)); [|reflexivity].
      apply cut_short. intros x Hx.
      apply (star_ends_suffix f Hsuf) in Hx as [c ->].
      rewrite len_app in Ht. lia.
Qed.

Lemma ends_cut (r : regex) (u v : string) :
  cut (len v) (ends r (u +:+ v)) = ends r u.
Proof.
  revert u. induction r as [|p|a IHa b IHb|a IHa b IHb|a IHa|a IHa];
    intros u; simpl.
  - unfold cut. simpl. rewrite chop_app. reflexivity.
  - destruct u as [|c u].
    + rewrite app_nil_l. destruct v as [|c v]; [reflexivity|].
      destruct (p c); [|reflexivity]. apply cut_short.
      intros t [<- | []]. unfold len. simpl. lia.
    + rewrite app_cons. destruct (p c); [|reflexivity].
      unfold cut. simpl. rewrite chop_app. reflexivity.
  - rewrite <- (IHa u). apply cut_flat_map.
    + apply (tails_long u). intros t Ht. apply ends_suffix in Ht. exact Ht.
    + exact IHb.
    + intros t Ht. apply cut_short. intros x Hx. apply ends_len in Hx. lia.
  - rewrite cut_app, IHa, IHb. reflexivity.
  - rewrite cut_app, IHa. unfold cut. simpl. rewrite chop_app. reflexivity.
  - rewrite star_ends_cut by (exact IHa || apply ends_suffix).
    apply star_fuel; rewrite ?len_app; lia.
Qed.

Lemma match_rest_cut (r : regex) (u v z : string) :
  match_rest r (u +:+ v) = Some (z +:+ v) -> match_rest r u = Some z.
Proof.
  unfold match_rest. rewrite <- (ends_cut r u v).
  destruct (ends r (u +:+ v)) as [|x l]; [discriminate|]. simpl.
  intros [= ->]. unfold cut. simpl. rewrite chop_app. reflexivity.
Qed.

Lemma match_rest_cut_none (r : regex) (u v : string) :
  match_rest r (u +:+ v) = None -> match_rest r u = None.
Proof.
  unfold match_rest. rewrite <- (ends_cut r u v).
  destruct (ends r (u +:+ v)) as [|x l]; [reflexivity | discriminate].
Qed.

(** What [match] reports: the text is the match followed by the rest. *)
Lemma match_rest_split (r : regex) (s rest : string) :
  match_rest r s = Some rest ->
  s = slice_to (len s - len rest) s +:+ rest.
Proof.
  unfold match_rest. intros H.
  assert (Hin : In rest (ends r s)).
  { destruct (ends r s); [discriminate|]. injection H as ->. left. reflexivity. }
  apply ends_suffix in Hin as [c ->]. rewrite len_app.
  replace (len c + len rest - len rest) with (len c) by lia.
  rewrite slice_to_app. reflexivity.
Qed.

(** *** The syntactic tests *)

Lemma app_self (c t : string) : c +:+ t = t -> c = "".
Proof.
  intros H. apply (f_equal len) in H. rewrite len_app in H.
  apply len_nil. lia.
Qed.

Lemma head_app {A : Type} (l1 l2 : list A) :
  l1 <> [] -> head (l1 ++ l2) = head l1.
Proof. destruct l1; [congruence | reflexivity]. Qed.

Lemma star_ends_some (f : string -> list string) (n : nat) (s : string) :
  star_ends f n s <> [].
Proof.
  destruct n; simpl; [discriminate|].
  intros H. apply List.app_eq_nil in H as [_ H]. discriminate.
Qed.

Lemma nullable_ends (r : regex) :
  nullable r = true -> forall s, ends r s <> [].
Proof.
  induction r as [|p|a IHa b IHb|a IHa b IHb|a IHa|a IHa]; simpl; intros H s.
  - discriminate.
  - discriminate.
  - apply andb_true_iff in H as [Ha Hb].
    destruct (ends a s) as [|x l] eqn:E; [destruct (IHa Ha s E)|]. simpl.
    intros H. apply List.app_eq_nil in H as [H _]. exact (IHb Hb x H).
  - intros E. apply List.app_eq_nil in E as [Ea Eb].
    apply orb_true_iff in H as [H | H]; [exact (IHa H s Ea) | exact (IHb H s Eb)].
  - intros E. apply List.app_eq_nil in E as [_ E]. discriminate.
  - apply star_ends_some.
Qed.

(** A pattern that cannot match the empty text takes a character. *)
Lemma ends_shorter (r : regex) :
  nullable r = false -> forall s t, In t (ends r s) -> len t < len s.
Proof.
  induction r as [|p|a IHa b IHb|a IHa b IHb|a IHa|a IHa]; simpl;
    intros H s t; try discriminate.
  - destruct s as [|c s]; [intros []|]. destruct (p c); [|intros []].
    intros [<- | []]. unfold len. simpl. lia.
  - rewrite in_flat_map. intros [x [Hx Ht]].
    apply andb_false_iff in H as [H | H].
    + apply (IHa H) in Hx. apply ends_len in Ht. lia.
    + apply (IHb H) in Ht. apply ends_len in Hx. lia.
  - apply orb_false_iff in H as [Ha Hb]. rewrite in_app_iff.
    intros [Ht | Ht]; [exact (IHa Ha _ _ Ht) | exact (IHb Hb _ _ Ht)].
Qed.

(** With a tail that can match the empty text there is no backtracking
    into the head: the first match of the head is kept. *)
Lemma match_rest_seq (a b : regex) (s : string) :
  nullable b = true ->
  match_rest (Seq a b) s =
  match match_rest a s with
  | Some t => match_rest b t
  | None => None
  end.
Proof.
  intros Hb. unfold match_rest. simpl.
  destruct (ends a s) as [|x l]; [reflexivity|]. simpl.
  apply head_app, nullable_ends, Hb.
Qed.

Lemma match_rest_opt (a : regex) (s : string) :
  match_rest (Opt a) s = Some (default s (match_rest a s)).
Proof. unfold match_rest. simpl. destruct (ends a s); reflexivity. Qed.

Lemma match_rest_star_cls (p : ascii -> bool) (c : ascii) (s : string) :
  match_rest (Star (Cls p)) (String c s) =
  if p c then match_rest (Star (Cls p)) s else Some (String c s).
Proof.
  unfold match_rest.
  change (ends (Star (Cls p)) (String c s))
    with (flat_map (fun t => if len t <? len (String c s)
                             then star_ends (ends (Cls p)) (len s) t else [])
                   (if p c then [s] else []) ++ [String c s]).
  destruct (p c); [|reflexivity]. cbn [flat_map]. rewrite List.app_nil_r.
  assert (E : (len s <? len (String c s)) = true)
    by (apply Nat.ltb_lt; unfold len; simpl; lia).
  rewrite E, head_app by apply star_ends_some. reflexivity.
Qed.

(** [tail_clean]: what a match takes does not end in whitespace. *)
Lemma star_ends_tail (f : string -> list string) :
  (forall s t, In t (f s) -> exists c, s = c +:+ t) ->
  (forall c t, In t (f (c +:+ t)) -> clean_end c = true) ->
  forall n c t, In t (star_ends f n (c +:+ t)) -> clean_end c = true.
Proof.
  intros Hsuf Hf. induction n as [|n IH]; intros c t; simpl.
  - intros [E | []]. apply app_self in E. subst c. reflexivity.
  - rewrite in_app_iff, in_flat_map. intros [[x [Hx Ht]] | [E | []]].
    + destruct (len x <? len (c +:+ t)); [|destruct Ht].
      destruct (star_ends_suffix f Hsuf _ _ _ Ht) as [c2 ->].
      destruct (Hsuf _ _ Hx) as [c1 E].
      rewrite <- app_assoc in E. apply app_inv_tail in E. subst c.
      rewrite app_assoc in Hx. apply clean_end_both; eauto.
    + apply app_self in E. subst c. reflexivity.
Qed.

Lemma tail_clean_ends (r : regex) :
  tail_clean r = true ->
  forall c t, In t (ends r (c +:+ t)) -> clean_end c = true.
Proof.
  induction r as [|p|a IHa b IHb|a IHa b IHb|a IHa|a IHa]; simpl;
    intros H c t.
  - intros [E | []]. apply app_self in E. subst c. reflexivity.
  - destruct c as [|x c]; [reflexivity|]. rewrite app_cons.
    destruct (p x) eqn:Hx; [|intros []]. intros [E | []].
    apply app_self in E. subst c. simpl.
    rewrite (no_space_in_spec p x H Hx). reflexivity.
  - apply andb_true_iff in H as [Hb Ha]. rewrite in_flat_map.
    intros [x [Hx Ht]].
    destruct (ends_suffix _ _ _ Ht) as [c2 ->].
    destruct (ends_suffix _ _ _ Hx) as [c1 E].
    rewrite <- app_assoc in E. apply app_inv_tail in E. subst c.
    rewrite app_assoc in Hx. pose proof (IHb Hb _ _ Ht) as H2.
    apply orb_true_iff in Ha as [Ha | Ha].
    + apply clean_end_both; eauto.
    + apply negb_true_iff in Ha. apply (ends_shorter b Ha) in Ht.
      rewrite clean_end_app; [exact H2|].
      intros ->. rewrite app_nil_l in Ht. lia.
  - apply andb_true_iff in H as [Ha Hb]. rewrite in_app_iff.
    intros [Ht | Ht]; eauto.
  - rewrite in_app_iff. intros [Ht | [E | []]]; [eauto|].
    apply app_self in E. subst c. reflexivity.
  - apply star_ends_tail; [apply ends_suffix | exact (IHa H)].
Qed.

(** [head_clean]: a match starts with a character that is not whitespace. *)
Lemma head_clean_ends (r : regex) :
  head_clean r = true ->
  forall s t, In t (ends r s) -> s <> "" /\ starts_clean s = true.
Proof.
  induction r as [|p|a IHa b IHb|a IHa b IHb|a IHa|a IHa]; simpl;
    intros H s t; try discriminate.
  - destruct s as [|c s]; [intros []|]. destruct (p c) eqn:Hc; [|intros []].
    intros _. split; [discriminate|]. simpl.
    rewrite (no_space_in_spec p c H Hc). reflexivity.
  - rewrite in_flat_map. intros [x [Hx _]]. eauto.
  - apply andb_true_iff in H as [Ha Hb]. rewrite in_app_iff.
    intros [Ht | Ht]; eauto.
Qed.

(** *** Whitespace after the text *)

Lemma tail_clean_stable (r : regex) : tail_clean r = true -> stable r.
Proof.
  intros Hr y w Hw. unfold match_rest. rewrite <- (ends_cut r y w).
  destruct (ends r (y +:+ w)) as [|z1 l] eqn:E; [exact I|].
  assert (Hin : In z1 (ends r (y +:+ w))) by (rewrite E; left; reflexivity).
  destruct (ends_suffix _ _ _ Hin) as [c Hc].
  destruct (le_lt_dec (len w) (len z1)) as [Hl | Hl].
  - symmetry in Hc. destruct (app_eq_app_le _ _ _ _ Hc Hl) as [e [-> _]].
    unfold cut. simpl. rewrite chop_app. left. reflexivity.
  - exfalso.
    destruct (app_eq_app_le _ _ _ _ Hc (Nat.lt_le_incl _ _ Hl)) as [e [-> ->]].
    rewrite <- app_assoc in Hin. apply (tail_clean_ends r Hr) in Hin.
    rewrite blank_app in Hw. apply andb_true_iff in Hw as [He _].
    assert (Hne : e <> "") by (intros ->; rewrite app_nil_l in Hl; lia).
    rewrite clean_end_app, (blank_end e He Hne) in Hin by exact Hne.
    discriminate.
Qed.

Lemma stable_seq (a b : regex) :
  stable a -> stable b -> nullable b = true -> stable (Seq a b).
Proof.
  intros Ha Hb Hn y w Hw. rewrite !match_rest_seq by exact Hn.
  specialize (Ha y w Hw).
  destruct (match_rest a (y +:+ w)) as [z1|], (match_rest a y) as [z2|];
    try exact Ha; try (exfalso; exact Ha).
  destruct Ha as [-> | [-> ->]]; [exact (Hb z2 w Hw)|].
  unfold match_rest. destruct (ends b "") as [|z l] eqn:E; [exact I|].
  simpl. right.
  assert (Hin : In z (ends b "")) by (rewrite E; left; reflexivity).
  apply ends_suffix in Hin as [c Hc]. symmetry in Hc.
  apply app_eq_nil in Hc as [_ ->]. auto.
Qed.

Lemma stable_opt (a : regex) : stable a -> stable (Opt a).
Proof.
  intros Ha y w Hw. rewrite !match_rest_opt. specialize (Ha y w Hw).
  destruct (match_rest a (y +:+ w)) as [z1|], (match_rest a y) as [z2|];
    simpl; try exact Ha; try contradiction.
  left. reflexivity.
Qed.

Lemma match_rest_star_blank (p : ascii -> bool) (w : string) :
  forallb p space_chars = true -> blank w = true ->
  match_rest (Star (Cls p)) w = Some "".
Proof.
  intros Hp. induction w as [|c w IH]; [reflexivity|]. simpl. intros H.
  apply andb_true_iff in H as [Hc Hw]. rewrite match_rest_star_cls.
  rewrite forallb_forall in Hp. rewrite (Hp c (isspace_chars c Hc)).
  exact (IH Hw).
Qed.

Lemma stable_star_cls (p : ascii -> bool) :
  forallb p space_chars = true -> stable (Star (Cls p)).
Proof.
  intros Hp y w Hw. induction y as [|c y IH].
  - rewrite app_nil_l, (match_rest_star_blank p w Hp Hw). right. auto.
  - rewrite app_cons, !match_rest_star_cls.
    destruct (p c); [exact IH | left; reflexivity].
Qed.

Lemma trail_stable_sound (r : regex) : trail_stable r = true -> stable r.
Proof.
  induction r as [|p|a IHa b IHb|a IHa b IHb|a IHa|a IHa]; intros H;
    apply orb_true_iff in H as [H | H];
    try (apply tail_clean_stable; exact H); try discriminate H.
  - apply andb_true_iff in H as [H Hn]. apply andb_true_iff in H as [Ha Hb].
    apply stable_seq; auto.
  - apply stable_opt. auto.
  - destruct a; try discriminate H. apply stable_star_cls. exact H.
Qed.

(** A match that took the text and whitespace after it takes the text. *)
Lemma match_all_stable (r : regex) (y w : string) :
  stable r -> blank w = true ->
  match_rest r (y +:+ w) = Some "" -> match_rest r y = Some "".
Proof.
  intros Hr Hw H. specialize (Hr y w Hw). rewrite H in Hr.
  destruct (match_rest r y) as [z|]; [|contradiction].
  destruct Hr as [E | [_ ->]]; [|reflexivity].
  symmetry in E. apply app_eq_nil in E as [-> _]. reflexivity.
Qed.

(** *** [search] *)

Lemma search_unfold (r : regex) (s : string) :
  search r s =
  match match_rest r s with
  | Some rest => Some (slice_to (len s - len rest) s)
  | None => match s with "" => None | String _ s' => search r s' end
  end.
Proof. destruct s; reflexivity. Qed.

Lemma search_some (r : regex) (s m : string) :
  search r s = Some m ->
  exists a rest, s = a +:+ m +:+ rest /\ match_rest r (m +:+ rest) = Some rest.
Proof.
  assert (Hhere : forall s rest, match_rest r s = Some rest ->
            Some (slice_to (len s - len rest) s) = Some m ->
            exists a rest, s = a +:+ m +:+ rest
                           /\ match_rest r (m +:+ rest) = Some rest).
  { intros s' rest E [= <-]. exists "", rest. rewrite app_nil_l.
    rewrite <- (match_rest_split _ _ _ E). auto. }
  induction s as [|c s IH]; rewrite search_unfold;
    destruct (match_rest r _) as [rest|] eqn:E; eauto.
  - discriminate.
  - intros H. destruct (IH H) as [a [rest [-> Hm]]].
    exists (String c a), rest. rewrite app_cons. auto.
Qed.

Lemma search_whole (r : regex) (s : string) :
  match_rest r s = Some "" -> search r s = Some s.
Proof.
  intros H. rewrite search_unfold, H. change (len "") with 0.
  rewrite Nat.sub_0_r, slice_to_all. reflexivity.
Qed.

End ReFacts.

(** ** [clean_salary_text] *)

Module SalaryFacts.
Import Py Re PyFacts ReFacts.

(** *** [strip] *)

Lemma rstrip_split (m : string) :
  exists w, m = rstrip m +:+ w /\ blank w = true.
Proof.
  induction m as [|c m [w [Hm Hw]]]; [exists ""; auto|].
  simpl. destruct (rstrip m) as [|d r].
  - rewrite app_nil_l in Hm. subst w. destruct (isspace c) eqn:Hc.
    + exists (String c m). simpl. rewrite Hc, Hw. auto.
    + exists m. auto.
  - exists w. rewrite app_cons, <- Hm. auto.
Qed.

Lemma rstrip_head (c : ascii) (m : string) :
  isspace c = false -> exists r, rstrip (String c m) = String c r.
Proof.
  intros Hc. simpl. rewrite Hc. destruct (rstrip m); eauto.
Qed.

Lemma rstrip_idem (m : string) : rstrip (rstrip m) = rstrip m.
Proof.
  induction m as [|c m IH]; [reflexivity|]. simpl.
  destruct (rstrip m) as [|d r] eqn:E.
  - destruct (isspace c) eqn:Hc; [reflexivity|]. simpl. rewrite Hc.
    reflexivity.
  - change (rstrip (String c (String d r)))
      with (match rstrip (String d r) with
            | "" => if isspace c then "" else String c ""
            | String x y => String c (String x y)
            end).
    rewrite IH. reflexivity.
Qed.

Lemma rstrip_clean_end (m : string) : clean_end (rstrip m) = true.
Proof.
  induction m as [|c m IH]; [reflexivity|]. simpl.
  destruct (rstrip m) as [|d r].
  - destruct (isspace c) eqn:Hc; simpl; [|rewrite Hc]; reflexivity.
  - exact IH.
Qed.

Lemma lstrip_clean (m : string) : starts_clean m = true -> lstrip m = m.
Proof.
  destruct m as [|c m]; [reflexivity|]. simpl.
  destruct (isspace c); [discriminate | reflexivity].
Qed.

(** The match found by [search], stripped: it starts and ends with a
    character that is not whitespace, and it is a piece of the text. *)
Lemma strip_of_match (m : string) :
  m <> "" -> starts_clean m = true ->
  strip m = rstrip m /\ strip m <> "" /\ starts_clean (strip m) = true
  /\ clean_end (strip m) = true /\ strip (strip m) = strip m.
Proof.
  intros Hne Hm. unfold strip at 1 2 3 4.
  rewrite (lstrip_clean m Hm). destruct m as [|c m]; [congruence|].
  simpl in Hm. apply negb_true_iff in Hm.
  destruct (rstrip_head c m Hm) as [r Hr].
  assert (Hs : starts_clean (rstrip (String c m)) = true)
    by (rewrite Hr; simpl; rewrite Hm; reflexivity).
  repeat split.
  - rewrite Hr. discriminate.
  - exact Hs.
  - apply rstrip_clean_end.
  - unfold strip. rewrite lstrip_clean; [|rewrite lstrip_clean; auto].
    + rewrite lstrip_clean by (simpl; rewrite Hm; reflexivity).
      apply rstrip_idem.
    + simpl. rewrite Hm. reflexivity.
Qed.

(** *** Searching the pattern in its own match *)

Lemma search_in_match (P : regex) (t m : string) :
  head_clean P = true -> trail_stable P = true ->
  search P t = Some m ->
  m <> "" /\ starts_clean m = true /\ search P (strip m) = Some (strip m)
  /\ exists a b, t = a +:+ strip m +:+ b.
Proof.
  intros Hh Hs H. destruct (search_some _ _ _ H) as [a [rest [-> Hm]]].
  rewrite <- (app_nil_l rest) in Hm at 2.
  apply match_rest_cut in Hm.
  assert (Hin : In "" (ends P m)).
  { unfold match_rest in Hm. destruct (ends P m); [discriminate|].
    injection Hm as ->. left. reflexivity. }
  destruct (head_clean_ends P Hh _ _ Hin) as [Hne Hc].
  destruct (strip_of_match m Hne Hc) as [E _].
  destruct (rstrip_split m) as [w [Hw Hb]].
  repeat split; try assumption.
  - rewrite E. apply search_whole.
    apply (match_all_stable P _ w (trail_stable_sound P Hs) Hb).
    rewrite <- Hw. exact Hm.
  - exists a, (w +:+ rest). rewrite E.
    rewrite <- (app_assoc (rstrip m)), <- Hw. reflexivity.
Qed.

Lemma falsy_spec (s : string) : falsy s = false <-> s <> "".
Proof. destruct s; simpl; split; congruence. Qed.

(** [job_scan.py]'s function gives its own results back, whatever the
    pattern, if the pattern has the three properties. *)
Lemma clean_salary_text_with_idem (P : regex) (text : option string) :
  head_clean P = true -> trail_stable P = true ->
  clean_salary_text_with P (Some NA) = NA ->
  clean_salary_text_with P (Some (clean_salary_text_with P text))
  = clean_salary_text_with P text.
Proof.
  intros Hh Hs Hna. destruct text as [t|]; [|exact Hna].
  unfold clean_salary_text_with at 2 3.
  destruct (falsy t); [exact Hna|].
  destruct (search P t) as [m|] eqn:E; [|exact Hna].
  destruct (search_in_match P t m Hh Hs E) as [Hne [Hc [Hm _]]].
  destruct (strip_of_match m Hne Hc) as [_ [Hne' [_ [_ Hidem]]]].
  unfold clean_salary_text_with.
  apply falsy_spec in Hne'. rewrite Hne', Hm. exact Hidem.
Qed.

(** *** Pieces of a normalised text *)

Lemma starts_clean_app (a b : string) :
  starts_clean (a +:+ b) = true -> starts_clean a = true.
Proof. destruct a; [reflexivity | rewrite app_cons; auto]. Qed.

Lemma tidy_app (a b : string) :
  tidy (a +:+ b) = true -> tidy a = true /\ tidy b = true.
Proof.
  induction a as [|x a IH]; [rewrite app_nil_l; auto|].
  rewrite app_cons. simpl. intros H.
  apply andb_true_iff in H as [Hx H]. destruct (IH H) as [Ha Hb].
  split; [|exact Hb]. rewrite Ha, andb_true_r.
  destruct (isspace x); [|reflexivity].
  apply andb_true_iff in Hx as [Hx Hs].
  rewrite Hx, (starts_clean_app _ _ Hs). reflexivity.
Qed.

Lemma tidy_word (w s : string) :
  nospace w = true -> tidy (w +:+ s) = tidy s.
Proof.
  induction w as [|x w IH]; [reflexivity|]. simpl. intros H.
  apply andb_true_iff in H as [Hx Hw]. apply negb_true_iff in Hx.
  rewrite ?app_cons. simpl. rewrite Hx. exact (IH Hw).
Qed.

Lemma starts_clean_join (ws : list string) :
  Forall is_word ws -> starts_clean (join " " ws) = true.
Proof.
  destruct ws as [|w ws]; [reflexivity|]. intros H.
  inversion H as [|? ? [Hne Hw] _]; subst.
  destruct w as [|x w]; [congruence|]. simpl in Hw.
  apply andb_true_iff in Hw as [Hx _].
  destruct ws as [|w' l]; [exact Hx|].
  change (join " " (String x w :: w' :: l))
    with (String x w +:+ " " +:+ join " " (w' :: l)).
  rewrite app_cons. exact Hx.
Qed.

Lemma tidy_join (ws : list string) :
  Forall is_word ws -> tidy (join " " ws) = true.
Proof.
  induction ws as [|w ws IH]; [reflexivity|]. intros H.
  inversion H as [|? ? [Hne Hw] Hws]; subst.
  destruct ws as [|w' ws].
  - simpl. rewrite <- (app_nil_r w). rewrite tidy_word by exact Hw.
    reflexivity.
  - change (join " " (w :: w' :: ws))
      with (w +:+ String " " (join " " (w' :: ws))).
    rewrite tidy_word by exact Hw.
    change (tidy (String " " (join " " (w' :: ws))))
      with (starts_clean (join " " (w' :: ws)) && tidy (join " " (w' :: ws))).
    rewrite starts_clean_join, IH by exact Hws. reflexivity.
Qed.

Lemma tidy_normalize (s : string) : tidy (normalize_spaces s) = true.
Proof. apply tidy_join, split_words. Qed.

(** A tidy text that ends cleanly is its words joined by blanks, a
    blank in front aside. *)
Lemma tidy_words (s : string) :
  tidy s = true -> clean_end s = true -> s <> "" ->
  exists ws, Forall is_word ws /\ ws <> []
    /\ (if starts_clean s then s else slice_from 1 s) = join " " ws.
Proof.
  induction s as [|c s IH]; [congruence|]. intros Ht He _.
  destruct s as [|d s].
  - simpl in He. exists [String c ""]. simpl. rewrite He.
    repeat split; [|discriminate].
    constructor; [|constructor]. split; [discriminate|].
    simpl. rewrite He. reflexivity.
  - change (tidy (String c (String d s)))
      with ((if isspace c then Ascii.eqb c " " && negb (isspace d) else true)
            && tidy (String d s)) in Ht.
    apply andb_true_iff in Ht as [Hc Ht].
    change (clean_end (String c (String d s)))
      with (clean_end (String d s)) in He.
    destruct (IH Ht He) as [ws [Hws [Hne E]]]; [discriminate|].
    simpl starts_clean in *. simpl slice_from in *.
    destruct (isspace c) eqn:Ec; simpl negb.
    + apply andb_true_iff in Hc as [_ Hd]. rewrite Hd in E.
      exists ws. auto.
    + destruct (isspace d) eqn:Ed; simpl negb in E.
      * simpl in Ht. rewrite Ed in Ht.
        apply andb_true_iff in Ht as [Ht _].
        apply andb_true_iff in Ht as [Ht _]. apply Ascii.eqb_eq in Ht.
        subst d. exists (String c "" :: ws). repeat split; [| discriminate |].
        -- constructor; [|exact Hws]. split; [discriminate|].
           simpl. rewrite Ec. reflexivity.
        -- destruct ws as [|w ws]; [congruence|]. rewrite E. reflexivity.
      * destruct ws as [|w ws]; [congruence|].
        inversion Hws as [|? ? [Hw1 Hw2] Hws']; subst.
        exists (String c w :: ws). repeat split; [| discriminate |].
        -- constructor; [|exact Hws']. split; [discriminate|].
           simpl. rewrite Ec. exact Hw2.
        -- rewrite E. destruct ws; reflexivity.
Qed.

Lemma tidy_normal (s : string) :
  tidy s = true -> starts_clean s = true -> clean_end s = true -> s <> "" ->
  normalize_spaces s = s.
Proof.
  intros Ht Hs He Hne. destruct (tidy_words s Ht He Hne) as [ws [Hws [_ E]]].
  rewrite Hs in E. rewrite E. unfold normalize_spaces.
  rewrite split_join by exact Hws. reflexivity.
Qed.

(** The same for the function of [job_scan copy.py]. *)
Lemma clean_salary_text_norm_with_idem (P : regex) (text : option string) :
  head_clean P = true -> trail_stable P = true ->
  clean_salary_text_norm_with P (Some NA) = NA ->
  clean_salary_text_norm_with P (Some (clean_salary_text_norm_with P text))
  = clean_salary_text_norm_with P text.
Proof.
  intros Hh Hs Hna. destruct text as [t|]; [|exact Hna].
  unfold clean_salary_text_norm_with at 2 3.
  destruct (falsy t); [exact Hna|]. cbv zeta.
  destruct (search P (normalize_spaces t)) as [m|] eqn:E; [|exact Hna].
  destruct (search_in_match P _ m Hh Hs E) as [Hne [Hc [Hm [a [b Hab]]]]].
  destruct (strip_of_match m Hne Hc) as [_ [Hne' [Hc' [He' Hidem]]]].
  assert (Ht : tidy (strip m) = true).
  { pose proof (tidy_normalize t) as H. rewrite Hab in H.
    apply tidy_app in H as [_ H]. apply tidy_app in H as [H _]. exact H. }
  unfold clean_salary_text_norm_with. cbv zeta.
  rewrite (tidy_normal _ Ht Hc' He' Hne').
  apply falsy_spec in Hne'. rewrite Hne', Hm. exact Hidem.
Qed.

End SalaryFacts.

(** C6: the salary normalizer gives its own results back.  For every input
    (a text, or [None]), [clean_salary_text] applied to what
    [clean_salary_text] returned returns the same; this holds for the
    function of [job_scan.py] and for the one of [job_scan copy.py], and in
    particular the sentinel ["N/A"] is returned unchanged. *)
Theorem clean_salary_text_is_idempotent :
  (forall text : option string,
     JobScan.clean_salary_text (Some (JobScan.clean_salary_text text))
     = JobScan.clean_salary_text text)
  /\ (forall text : option string,
        Scraper.clean_salary_text (Some (Scraper.clean_salary_text text))
        = Scraper.clean_salary_text text)
  /\ JobScan.clean_salary_text (Some NA) = NA
  /\ Scraper.clean_salary_text (Some NA) = NA.
Proof.
  assert (H1 : JobScan.clean_salary_text (Some NA) = NA) by reflexivity.
  assert (H2 : Scraper.clean_salary_text (Some NA) = NA) by reflexivity.
  repeat split; try assumption; intros text.
  - apply SalaryFacts.clean_salary_text_with_idem; [reflexivity | reflexivity | exact H1].
  - apply SalaryFacts.clean_salary_text_norm_with_idem;
      [reflexivity | reflexivity | exact H2].
Qed.

Example salary_range_kept :
  JobScan.clean_salary_text (Some "Pay: $50,000 - $70,000 a year (est.)")
  = "$50,000 - $70,000 a year".
Proof. reflexivity. Qed.

Example salary_range_again :
  JobScan.clean_salary_text (Some "$50,000 - $70,000 a year")
  = "$50,000 - $70,000 a year".
Proof. reflexivity. Qed.

(** ** The sentinel *)

Module SentinelFacts.
Import Py Re PyFacts ReFacts.

Lemma ends_seq (a b : regex) (s t : string) :
  In t (ends (Seq a b) s) -> exists x, In x (ends a s) /\ In t (ends b x).
Proof. simpl. rewrite in_flat_map. auto. Qed.

Lemma ends_cls (p : ascii -> bool) (s t : string) :
  In t (ends (Cls p) s) -> exists c, s = String c t /\ p c = true.
Proof.
  simpl. destruct s as [|c s]; [intros []|].
  destruct (p c) eqn:E; [|intros []]. intros [<- | []]. eauto.
Qed.

Lemma ends_chr (c : ascii) (s t : string) :
  In t (ends (chr c) s) -> s = String c t.
Proof.
  intros H. apply ends_cls in H as [x [-> H]].
  apply Ascii.eqb_eq in H. subst x. reflexivity.
Qed.

Lemma ends_seq_chr (a : regex) (c : ascii) (s t : string) :
  In t (ends (Seq a (chr c)) s) -> exists pre, s = pre +:+ String c t.
Proof.
  intros H. apply ends_seq in H as [x [Hx Ht]].
  apply ends_chr in Ht. subst x. apply ends_suffix in Hx. exact Hx.
Qed.

Lemma ends_star_ws (n : nat) (s t : string) :
  In t (star_ends (ends ws) n s) -> exists w, s = w +:+ t /\ blank w = true.
Proof.
  revert s. induction n as [|n IH]; intros s; simpl.
  - intros [<- | []]. exists "". auto.
  - rewrite in_app_iff, in_flat_map. intros [[x [Hx Ht]] | [<- | []]].
    + destruct (len x <? len s); [|destruct Ht].
      apply (ends_cls isspace) in Hx as [c [-> Hc]].
      destruct (IH _ Ht) as [w [-> Hw]].
      exists (String c w). simpl. rewrite Hc, Hw. auto.
    + exists "". auto.
Qed.

(** *** Whitespace aside *)

Lemma squeeze_app (a b : string) : squeeze (a +:+ b) = squeeze a +:+ squeeze b.
Proof.
  induction a as [|x a IH]; [reflexivity|]. rewrite ?app_cons. simpl.
  destruct (isspace x); rewrite IH; reflexivity.
Qed.

Lemma squeeze_blank (w : string) : blank w = true -> squeeze w = "".
Proof.
  induction w as [|x w IH]; [reflexivity|]. simpl. intros H.
  apply andb_true_iff in H as [Hx Hw]. rewrite Hx. exact (IH Hw).
Qed.

Lemma squeeze_word (w : string) : nospace w = true -> squeeze w = w.
Proof.
  induction w as [|x w IH]; [reflexivity|]. simpl. intros H.
  apply andb_true_iff in H as [Hx Hw]. apply negb_true_iff in Hx.
  rewrite Hx, (IH Hw). reflexivity.
Qed.

Lemma squeeze_join_cons (w : string) (l : list string) :
  squeeze (join " " (w :: l)) = squeeze w +:+ squeeze (join " " l).
Proof.
  destruct l as [|w' l]; [simpl; rewrite app_nil_r; reflexivity|].
  change (join " " (w :: w' :: l)) with (w +:+ String " " (join " " (w' :: l))).
  rewrite squeeze_app. reflexivity.
Qed.

Lemma squeeze_split_from (cur s : string) :
  nospace cur = true ->
  squeeze (join " " (split_from cur s)) = cur +:+ squeeze s.
Proof.
  revert cur. induction s as [|c s IH]; intros cur Hcur; simpl.
  - rewrite app_nil_r. destruct cur; [reflexivity|].
    apply squeeze_word. exact Hcur.
  - destruct (isspace c) eqn:Hc.
    + destruct cur as [|x cur]; [apply IH; reflexivity|].
      rewrite squeeze_join_cons, IH, (squeeze_word _ Hcur) by reflexivity.
      reflexivity.
    + rewrite IH, app_assoc; [reflexivity|].
      rewrite nospace_app, Hcur. simpl. rewrite Hc. reflexivity.
Qed.

(** Collapsing the whitespace does not change what is read between it. *)
Lemma squeeze_normalize (s : string) : squeeze (normalize_spaces s) = squeeze s.
Proof. apply (squeeze_split_from "" s). reflexivity. Qed.

Lemma dollar_then_app (p : ascii -> bool) (a b : string) :
  dollar_then p b = true -> dollar_then p (a +:+ b) = true.
Proof.
  intros Hb. induction a as [|x a IH]; [exact Hb|].
  rewrite ?app_cons. simpl. rewrite IH. apply orb_true_r.
Qed.

Lemma priced_by_app (p : ascii -> bool) (a b c : string) :
  priced_by p b = true -> priced_by p (a +:+ b +:+ c) = true.
Proof.
  unfold priced_by. rewrite !squeeze_app. intros H.
  apply dollar_then_app. clear a.
  induction (squeeze b) as [|x q IH]; [discriminate|].
  rewrite ?app_cons. simpl in *. apply orb_true_iff in H as [H | H].
  - destruct q as [|d q]; [rewrite andb_false_r in H; discriminate|].
    rewrite ?app_cons. rewrite H. reflexivity.
  - rewrite (IH H). apply orb_true_r.
Qed.

(** The shape every match of the two patterns starts with. *)
Lemma priced_by_shape (p : ascii -> bool) (pre w : string) (d : ascii)
    (rest : string) :
  blank w = true -> p d = true -> isspace d = false ->
  priced_by p (pre +:+ String "$" (w +:+ String d rest)) = true.
Proof.
  intros Hw Hd Hs. rewrite <- (app_nil_r (String "$" _)).
  apply priced_by_app. unfold priced_by. simpl.
  rewrite squeeze_app, (squeeze_blank w Hw), app_nil_l. simpl.
  rewrite Hs, Hd. reflexivity.
Qed.

(** *** What the two patterns start with *)

Lemma ends_star_ws_shape (s t : string) :
  In t (ends (Star ws) s) -> exists w, s = w +:+ t /\ blank w = true.
Proof. apply ends_star_ws. Qed.

Lemma salary_pattern_shape (s t : string) :
  In t (ends Pat.salary_pattern s) -> loosely_priced s = true.
Proof.
  intros H.
  change Pat.salary_pattern
    with (Seq (Seq (chr "$")
                 (Seq (Star ws)
                    (Seq (Seq Pat.digit_or_comma (Star Pat.digit_or_comma))
                       Pat.cents)))
            (Seq (Star ws) (Seq (Opt Pat.second_amount) (Opt Pat.period))))
    in H.
  apply ends_seq in H as [x1 [H _]].
  apply ends_seq in H as [x2 [H2 H]]. apply ends_chr in H2. subst s.
  apply ends_seq in H as [x3 [H3 H]].
  apply ends_star_ws_shape in H3 as [w [-> Hw]].
  apply ends_seq in H as [x4 [H _]].
  apply ends_seq in H as [x5 [H _]].
  apply ends_cls in H as [d [-> Hd]].
  rewrite <- (app_nil_l (String "$" _)).
  apply (priced_by_shape _ "" w d x5 Hw Hd).
  apply (no_space_in_spec (fun c => isdigit c || Ascii.eqb c ",") d);
    [reflexivity | exact Hd].
Qed.

Lemma currency_shape (s x : string) :
  In x (ends Pat.currency s) -> exists pre, s = pre +:+ String "$" x.
Proof.
  intros H.
  change Pat.currency
    with (Alt (Seq (chr_i "C") (Seq (Opt (chr_i "A")) (chr "$")))
            (Alt (Seq (chr_i "C") (chr "$")) (chr "$"))) in H.
  simpl ends in H. rewrite !in_app_iff in H. destruct H as [H | [H | H]].
  - apply (ends_seq (chr_i "C") (Seq (Opt (chr_i "A")) (chr "$"))) in H
      as [y [Hy H]].
    apply ends_seq_chr in H as [pre' ->].
    apply ends_suffix in Hy as [c ->]. exists (c +:+ pre').
    rewrite app_assoc. reflexivity.
  - apply (ends_seq_chr (chr_i "C")) in H. exact H.
  - apply (ends_chr "$") in H. subst s. exists "". reflexivity.
Qed.

Lemma SALARY_RE_shape (s t : string) :
  In t (ends Pat.SALARY_RE s) -> priced s = true.
Proof.
  intros H.
  change Pat.SALARY_RE
    with (Seq (Seq Pat.currency
                 (Seq (Star ws)
                    (Seq (Seq digit (upto 2 digit))
                       (Seq (Star (Seq Pat.comma_or_space (times 3 digit)))
                          (Opt (Seq (chr ".") (plus digit)))))))
            (Seq (Star ws)
               (Seq Pat.kilo (Seq (Opt Pat.range_part) (Opt Pat.unit_part)))))
    in H.
  apply ends_seq in H as [x1 [H _]].
  apply ends_seq in H as [x2 [H2 H]].
  apply currency_shape in H2 as [pre ->].
  apply ends_seq in H as [x3 [H3 H]].
  apply ends_star_ws_shape in H3 as [w [-> Hw]].
  apply ends_seq in H as [x4 [H _]].
  apply ends_seq in H as [x5 [H _]].
  apply ends_cls in H as [d [-> Hd]].
  apply (priced_by_shape _ pre w d x5 Hw Hd).
  apply (no_space_in_spec isdigit d); [reflexivity | exact Hd].
Qed.

(** A text in which the pattern is found has what every match starts
    with. *)
Lemma search_priced (P : regex) (p : ascii -> bool) (t m : string) :
  (forall s r, In r (ends P s) -> priced_by p s = true) ->
  search P t = Some m -> priced_by p t = true.
Proof.
  intros HP H. destruct (search_some _ _ _ H) as [a [rest [-> Hm]]].
  rewrite <- (app_nil_r (m +:+ rest)). rewrite <- app_assoc.
  rewrite (app_assoc a). apply priced_by_app. apply (HP _ rest).
  unfold match_rest in Hm. destruct (ends P (m +:+ rest)); [discriminate|].
  injection Hm as ->. left. reflexivity.
Qed.

(** *** When the sentinel is returned *)

(** Empty or absent input: the sentinel, whatever the pattern is. *)
Lemma clean_salary_text_absent (P : regex) :
  clean_salary_text_with P None = NA
  /\ clean_salary_text_with P (Some "") = NA
  /\ clean_salary_text_norm_with P None = NA
  /\ clean_salary_text_norm_with P (Some "") = NA.
Proof. repeat split; reflexivity. Qed.

(** [job_scan copy.py]: no dollar sign followed by a digit, no salary. *)
Lemma scraper_unpriced (text : string) :
  priced text = false -> Scraper.clean_salary_text (Some text) = NA.
Proof.
  intros H. unfold Scraper.clean_salary_text, clean_salary_text_norm_with.
  destruct (falsy text); [reflexivity|]. cbv zeta.
  destruct (search Pat.SALARY_RE (normalize_spaces text)) as [m|] eqn:E;
    [|reflexivity].
  apply (search_priced _ isdigit) in E; [|exact SALARY_RE_shape].
  unfold priced, priced_by in H. unfold priced_by in E.
  rewrite squeeze_normalize in E. congruence.
Qed.

(** [job_scan.py]: the same with "a digit or a comma". *)
Lemma job_scan_unpriced (text : string) :
  loosely_priced text = false -> JobScan.clean_salary_text (Some text) = NA.
Proof.
  intros H. unfold JobScan.clean_salary_text, clean_salary_text_with.
  destruct (falsy text); [reflexivity|].
  destruct (search Pat.salary_pattern text) as [m|] eqn:E; [|reflexivity].
  apply (search_priced _ (fun c => isdigit c || Ascii.eqb c ",")) in E;
    [|exact salary_pattern_shape].
  unfold loosely_priced in H. congruence.
Qed.

End SentinelFacts.

(** C7, as the code has it: [job_scan.py] returns a dollar sign and a comma
    as a salary, although the text has no currency-prefixed digit; the
    pattern of [job_scan copy.py] asks for a digit and gives the sentinel. *)
Theorem job_scan_salary_without_digit :
  priced "$," = false
  /\ JobScan.clean_salary_text (Some "$,") = "$,"
  /\ Scraper.clean_salary_text (Some "$,") = NA.
Proof. repeat split; reflexivity. Qed.

Example job_scan_salary_of_commas :
  JobScan.clean_salary_text (Some "Pay: $ ,,, per year") = "$ ,,, per year".
Proof. reflexivity. Qed.

(** * Further properties *)

(** ** What [clean_salary_text] returns *)

Module SalaryResult.
Import Py Re PyFacts ReFacts SalaryFacts SentinelFacts.

(** The result for a pattern with the two syntactic properties: the
    sentinel, or the stripped match, which is a piece of the text searched,
    is found whole when searched again, and is trimmed. *)
Lemma found_or_sentinel (P : regex) (t : string) :
  head_clean P = true -> trail_stable P = true ->
  match search P t with
  | None => True
  | Some m =>
      (exists a b, t = a +:+ strip m +:+ b)
      /\ strip m <> "" /\ strip (strip m) = strip m
      /\ search P (strip m) = Some (strip m)
  end.
Proof.
  intros Hh Hs. destruct (search P t) as [m|] eqn:E; [|exact I].
  destruct (search_in_match P t m Hh Hs E) as [Hne [Hc [Hm Hab]]].
  destruct (strip_of_match m Hne Hc) as [_ [Hne' [_ [_ Hidem]]]].
  auto.
Qed.

End SalaryResult.

(** The salary that [clean_salary_text] returns is cut from the text: it is
    the sentinel, or a non-empty piece of the text without whitespace at
    either end.  For [job_scan copy.py] the text is the input with its
    whitespace collapsed, which is what that function searches. *)
Theorem salary_is_cut_from_the_text :
  (forall text : string,
      let r := JobScan.clean_salary_text (Some text) in
      r = NA
      \/ ((exists a b, text = a +:+ r +:+ b) /\ r <> "" /\ Py.strip r = r))
  /\ (forall text : string,
         let r := Scraper.clean_salary_text (Some text) in
         r = NA
         \/ ((exists a b, Py.normalize_spaces text = a +:+ r +:+ b)
             /\ r <> "" /\ Py.strip r = r)).
Proof.
  split; intros text r; subst r.
  - unfold JobScan.clean_salary_text, clean_salary_text_with.
    destruct (Py.falsy text); [auto|].
    pose proof (SalaryResult.found_or_sentinel Pat.salary_pattern text
                  eq_refl eq_refl) as H.
    destruct (Re.search Pat.salary_pattern text) as [m|]; [|auto].
    right. tauto.
  - unfold Scraper.clean_salary_text, clean_salary_text_norm_with.
    destruct (Py.falsy text); [auto|]. cbv zeta.
    pose proof (SalaryResult.found_or_sentinel Pat.SALARY_RE
                  (Py.normalize_spaces text) eq_refl eq_refl) as H.
    destruct (Re.search Pat.SALARY_RE (Py.normalize_spaces text)) as [m|];
      [|auto].
    right. tauto.
Qed.

(** A salary other than the sentinel has a dollar sign that is followed,
    whitespace aside, by a digit ([job_scan copy.py]) or by a digit or a
    comma ([job_scan.py]). *)
Theorem salary_found_is_priced :
  (forall text : string,
      let r := JobScan.clean_salary_text (Some text) in
      r = NA \/ loosely_priced r = true)
  /\ (forall text : string,
         let r := Scraper.clean_salary_text (Some text) in
         r = NA \/ priced r = true).
Proof.
  split; intros text r; subst r.
  - unfold JobScan.clean_salary_text, clean_salary_text_with.
    destruct (Py.falsy text); [auto|].
    pose proof (SalaryResult.found_or_sentinel Pat.salary_pattern text
                  eq_refl eq_refl) as H.
    destruct (Re.search Pat.salary_pattern text) as [m|]; [|auto].
    right. destruct H as [_ [_ [_ H]]].
    exact (SentinelFacts.search_priced _ _ _ _
             SentinelFacts.salary_pattern_shape H).
  - unfold Scraper.clean_salary_text, clean_salary_text_norm_with.
    destruct (Py.falsy text); [auto|]. cbv zeta.
    pose proof (SalaryResult.found_or_sentinel Pat.SALARY_RE
                  (Py.normalize_spaces text) eq_refl eq_refl) as H.
    destruct (Re.search Pat.SALARY_RE (Py.normalize_spaces text)) as [m|];
      [|auto].
    right. destruct H as [_ [_ [_ H]]].
    exact (SentinelFacts.search_priced _ _ _ _
             SentinelFacts.SALARY_RE_shape H).
Qed.

(** ** [fix_doubled_title], [norm] and [is_missing] *)

Module TitleFacts.
Import Py PyFacts ReFacts SalaryFacts.

Lemma join_cons (sep x : string) (l : list string) :
  l <> [] -> join sep (x :: l) = x +:+ sep +:+ join sep l.
Proof. destruct l; [congruence | reflexivity]. Qed.

(** The first words of a text are how the text begins. *)
Lemma join_take (l : list string) (n : nat) :
  exists rest, join " " l = join " " (take n l) +:+ rest.
Proof.
  revert n. induction l as [|x l IH]; intros n.
  - exists "". destruct n; reflexivity.
  - destruct n as [|n]; [exists (join " " (x :: l)); reflexivity|].
    cbn [take]. destruct l as [|y l].
    { exists "". rewrite take_nil, app_nil_r. reflexivity. }
    destruct (IH n) as [rest E].
    rewrite (join_cons " " x (y :: l)) by discriminate.
    destruct (take n (y :: l)) as [|z l'] eqn:Et.
    + exists (" " +:+ join " " (y :: l)). reflexivity.
    + exists rest. rewrite (join_cons " " x (z :: l')) by discriminate.
      rewrite E, !app_assoc. reflexivity.
Qed.

Lemma nospace_clean_end (w : string) : nospace w = true -> clean_end w = true.
Proof.
  induction w as [|c w IH]; [reflexivity|]. simpl. intros H.
  apply andb_true_iff in H as [Hc Hw]. destruct w; [exact Hc | exact (IH Hw)].
Qed.

Lemma clean_end_join (l : list string) :
  Forall is_word l -> clean_end (join " " l) = true.
Proof.
  induction l as [|w l IH]; [reflexivity|]. intros H.
  inversion H as [|? ? [Hne Hw] Hl]; subst.
  destruct l as [|w' l]; [apply nospace_clean_end; exact Hw|].
  rewrite join_cons by discriminate.
  assert (Hj : join " " (w' :: l) <> "")
    by (apply join_words_nonempty; [discriminate | exact Hl]).
  rewrite clean_end_app.
  - rewrite clean_end_app by exact Hj. exact (IH Hl).
  - destruct (join " " (w' :: l)); [congruence|]. discriminate.
Qed.

Lemma normalize_join (l : list string) :
  Forall is_word l -> normalize_spaces (join " " l) = join " " l.
Proof. intros H. unfold normalize_spaces. rewrite split_join by exact H. reflexivity. Qed.

(** Half of a normalised text that is some text written twice. *)
Lemma half_of_normalised (t h : string) :
  normalize_spaces t = h +:+ h -> h <> "" -> normalize_spaces h = h.
Proof.
  intros E Hne.
  pose proof (tidy_normalize t) as Ht. rewrite E in Ht.
  apply tidy_app in Ht as [Ht _].
  pose proof (starts_clean_join (split t) (split_words t)) as Hs.
  fold (normalize_spaces t) in Hs. rewrite E in Hs.
  apply starts_clean_app in Hs.
  pose proof (clean_end_join (split t) (split_words t)) as He.
  fold (normalize_spaces t) in He. rewrite E in He.
  rewrite clean_end_app in He by exact Hne.
  apply tidy_normal; assumption.
Qed.

End TitleFacts.

(** What [fix_doubled_title] returns is how the whitespace-normalised title
    begins, it is whitespace-normalised itself, and it is empty only when
    the title holds nothing but whitespace. *)
Theorem fix_doubled_title_keeps_a_prefix :
  forall text : string,
    let r := fix_doubled_title text in
    (exists rest, Py.normalize_spaces text = r +:+ rest)
    /\ Py.normalize_spaces r = r
    /\ (r = "" <-> Py.normalize_spaces text = "").
Proof.
  intros text r. subst r. unfold fix_doubled_title.
  destruct (Py.falsy text) eqn:Hf.
  { destruct text; [|discriminate]. repeat split; auto. exists "". reflexivity. }
  cbv zeta. rewrite PyFacts.split_normalize.
  set (T := Py.normalize_spaces text). set (parts := Py.split text).
  assert (HT : Py.join " " parts = T) by reflexivity.
  assert (Hw : Forall Py.is_word parts) by apply PyFacts.split_words.
  destruct ((2 <=? length parts) && (length parts mod 2 =? 0)
            && bool_decide (take (length parts / 2) parts
                            = drop (length parts / 2) parts)) eqn:C1.
  - apply andb_true_iff in C1 as [C1 _]. apply andb_true_iff in C1 as [C1 _].
    apply Nat.leb_le in C1.
    assert (Hh : 1 <= length parts / 2)
      by (apply Nat.div_le_lower_bound; lia).
    assert (Hne : take (length parts / 2) parts <> []).
    { intros E. apply (f_equal length) in E. rewrite length_take in E.
      change (length (@nil string)) with 0 in E. lia. }
    assert (Hwt : Forall Py.is_word (take (length parts / 2) parts))
      by (apply Forall_take; exact Hw).
    split; [rewrite <- HT; apply TitleFacts.join_take|].
    split; [apply TitleFacts.normalize_join; exact Hwt|].
    split.
    + intros E. exfalso.
      exact (PyFacts.join_words_nonempty " " _ Hne Hwt E).
    + intros E. exfalso. rewrite <- HT in E.
      destruct parts as [|p parts']; [simpl in C1; lia|].
      refine (PyFacts.join_words_nonempty " " (p :: parts') _ Hw E).
      discriminate.
  - destruct ((4 <? Py.len T) && (Py.len T mod 2 =? 0)
              && bool_decide (Py.slice_to (Py.len T / 2) T
                              = Py.slice_from (Py.len T / 2) T)) eqn:C2.
    + apply andb_true_iff in C2 as [C2 Heq].
      apply andb_true_iff in C2 as [C2 _]. apply Nat.ltb_lt in C2.
      apply bool_decide_eq_true in Heq.
      pose proof (PyFacts.slice_split (Py.len T / 2) T) as Hsplit.
      rewrite <- Heq in Hsplit.
      assert (Hlen : Py.len (Py.slice_to (Py.len T / 2) T) = Py.len T / 2).
      { apply PyFacts.len_slice_to. apply Nat.div_le_upper_bound; lia. }
      assert (Hne : Py.slice_to (Py.len T / 2) T <> "").
      { intros E. rewrite E in Hlen. change (Py.len "") with 0 in Hlen.
        assert (2 <= Py.len T / 2) by (apply Nat.div_le_lower_bound; lia).
        lia. }
      split; [eexists; symmetry; exact Hsplit|].
      split; [apply (TitleFacts.half_of_normalised text); auto|].
      split; [congruence|].
      intros E. rewrite E in C2. change (Py.len "") with 0 in C2. lia.
    + split; [exists ""; rewrite PyFacts.app_nil_r; reflexivity|].
      split; [apply PyFacts.normalize_idem | tauto].
Qed.

Module MissingFacts.
Import Py PyFacts ReFacts SalaryFacts.

Lemma isspace_lower_char (c : ascii) : isspace (lower_char c) = isspace c.
Proof. destruct c as [[] [] [] [] [] [] [] []]; reflexivity. Qed.

Lemma lstrip_lower (s : string) : lstrip (lower s) = lower (lstrip s).
Proof.
  induction s as [|c s IH]; [reflexivity|]. simpl.
  rewrite isspace_lower_char. destruct (isspace c); [exact IH | reflexivity].
Qed.

Lemma rstrip_lower (s : string) : rstrip (lower s) = lower (rstrip s).
Proof.
  induction s as [|c s IH]; [reflexivity|]. simpl.
  rewrite IH, isspace_lower_char.
  destruct (rstrip s); simpl; [destruct (isspace c)|]; reflexivity.
Qed.

Lemma strip_lower (s : string) : strip (lower s) = lower (strip s).
Proof. unfold strip. rewrite lstrip_lower, rstrip_lower. reflexivity. Qed.

Lemma rstrip_blank (w : string) : blank w = true -> rstrip w = "".
Proof.
  induction w as [|c w IH]; [reflexivity|]. simpl. intros H.
  apply andb_true_iff in H as [Hc Hw]. rewrite (IH Hw), Hc. reflexivity.
Qed.

Lemma rstrip_app_blank (s w : string) :
  blank w = true -> rstrip (s +:+ w) = rstrip s.
Proof.
  intros Hw. induction s as [|c s IH]; [apply rstrip_blank; exact Hw|].
  rewrite app_cons. simpl. rewrite IH. reflexivity.
Qed.

Lemma lstrip_blank_app (w s : string) :
  blank w = true -> lstrip (w +:+ s) = lstrip s.
Proof.
  induction w as [|c w IH]; [reflexivity|]. simpl. intros H.
  apply andb_true_iff in H as [Hc Hw]. rewrite ?app_cons. simpl.
  rewrite Hc. exact (IH Hw).
Qed.

Lemma strip_app_blank (s w : string) :
  blank w = true -> strip (s +:+ w) = strip s.
Proof.
  intros Hw. unfold strip. induction s as [|c s IH].
  - rewrite app_nil_l, <- (app_nil_r w), lstrip_blank_app by exact Hw.
    reflexivity.
  - rewrite app_cons. simpl. destruct (isspace c); [exact IH|].
    rewrite <- app_cons. apply rstrip_app_blank. exact Hw.
Qed.

Lemma strip_pad (w1 s w2 : string) :
  blank w1 = true -> blank w2 = true -> strip (w1 +:+ s +:+ w2) = strip s.
Proof.
  intros H1 H2. unfold strip at 1. rewrite lstrip_blank_app by exact H1.
  fold (strip (s +:+ w2)). apply strip_app_blank. exact H2.
Qed.

Lemma is_missing_lower (s : string) :
  Scraper.is_missing (lower s) = Scraper.is_missing s.
Proof.
  unfold Scraper.is_missing, Scraper.norm. cbv zeta.
  rewrite strip_lower, lower_idem. f_equal.
  destruct (strip s); reflexivity.
Qed.

End MissingFacts.

(** [is_missing] looks at a value with the whitespace around it removed and
    its letters in lower case: padding a value with whitespace, or changing
    the case of its letters, does not change the answer. *)
Theorem is_missing_ignores_case_and_padding :
  forall s s' w1 w2 : string,
    Py.blank w1 = true -> Py.blank w2 = true ->
    Py.lower s = Py.lower s' ->
    Scraper.is_missing (w1 +:+ s +:+ w2) = Scraper.is_missing s'.
Proof.
  intros s s' w1 w2 H1 H2 E.
  rewrite <- (MissingFacts.is_missing_lower s'), <- E,
    MissingFacts.is_missing_lower.
  unfold Scraper.is_missing, Scraper.norm. cbv zeta.
  rewrite (MissingFacts.strip_pad w1 s w2 H1 H2). reflexivity.
Qed.

Lemma is_missing_ignores_case_and_padding_witness :
  Scraper.is_missing ("  " +:+ "N/a" +:+ " ") = Scraper.is_missing "n/A"
  /\ Scraper.is_missing "n/A" = true.
Proof.
  split; [|reflexivity].
  apply (is_missing_ignores_case_and_padding "N/a" "n/A" "  " " ");
    reflexivity.
Defined.

(** ** What the parsers return *)

Module ParserFacts.
Import Py PyFacts ReFacts SalaryFacts.

Lemma starts_clean_lstrip (s : string) : starts_clean (lstrip s) = true.
Proof.
  induction s as [|c s IH]; [reflexivity|]. simpl.
  destruct (isspace c) eqn:E; [exact IH|]. simpl. rewrite E. reflexivity.
Qed.

Lemma strip_idem (s : string) : strip (strip s) = strip s.
Proof.
  assert (E : strip s = strip (lstrip s)).
  { unfold strip. rewrite (lstrip_clean (lstrip s)); [reflexivity|].
    apply starts_clean_lstrip. }
  rewrite E. destruct (lstrip s) as [|c x] eqn:El; [reflexivity|].
  rewrite <- El.
  apply (strip_of_match (lstrip s));
    [rewrite El; discriminate | apply starts_clean_lstrip].
Qed.

(** [s.split("?")[0]] has no question mark. *)
Lemma before_char_free (sep : ascii) (s : string) :
  contains (String sep "") (before_char sep s) = false.
Proof.
  induction s as [|c s IH]; [reflexivity|]. simpl.
  destruct (Ascii.eqb c sep) eqn:E; [reflexivity|].
  simpl. rewrite Ascii.eqb_sym, E. exact IH.
Qed.

Lemma contains_char_app (c : ascii) (a b : string) :
  contains (String c "") (a +:+ b)
  = contains (String c "") a || contains (String c "") b.
Proof.
  induction a as [|x a IH].
  - rewrite app_nil_l. destruct b; reflexivity.
  - rewrite app_cons. simpl. rewrite IH.
    destruct (Ascii.eqb c x); [reflexivity|]. simpl.
    destruct a; simpl; reflexivity.
Qed.

Lemma before_query_http (h : string) :
  startswith "http" h = true -> startswith "http" (before_query h) = true.
Proof.
  intros H. apply startswith_spec in H as [t ->].
  reflexivity.
Qed.

Lemma poll_description_spec (prev_desc : string)
    (polls : list (option string)) :
  let d := Scraper.poll_description prev_desc polls in
  d <> ""
  /\ strip d = d
  /\ (d = NA \/ exists el_text, In (Some el_text) polls /\ d = strip el_text)
  /\ (prev_desc <> "" -> d = NA \/ d <> prev_desc).
Proof.
  cbv zeta. induction polls as [|[el_text|] rest IH]; simpl.
  - repeat split; auto; try discriminate.
  - destruct (negb (falsy (strip el_text))
              && (negb (String.eqb (strip el_text) prev_desc)
                  || String.eqb prev_desc "")) eqn:C.
    + apply andb_true_iff in C as [Hne C]. apply negb_true_iff in Hne.
      apply falsy_spec in Hne.
      repeat split; [exact Hne | apply strip_idem | eauto |].
      intros Hprev. right. apply orb_true_iff in C as [C | C].
      * apply negb_true_iff, String.eqb_neq in C. exact C.
      * apply String.eqb_eq in C. contradiction.
    + destruct IH as [H1 [H2 [H3 H4]]]. repeat split; auto.
      destruct H3 as [H3 | [t [Hin Ht]]]; eauto.
  - destruct IH as [H1 [H2 [H3 H4]]]. repeat split; auto.
    destruct H3 as [H3 | [t [Hin Ht]]]; eauto.
Qed.

Lemma scraper_salary_priced (text : string) :
  Scraper.clean_salary_text (Some text) = NA
  \/ priced (Scraper.clean_salary_text (Some text)) = true.
Proof.
  unfold Scraper.clean_salary_text, clean_salary_text_norm_with.
  destruct (falsy text); [auto|]. cbv zeta.
  pose proof (SalaryResult.found_or_sentinel Pat.SALARY_RE
                (normalize_spaces text) eq_refl eq_refl) as H.
  destruct (Re.search Pat.SALARY_RE (normalize_spaces text)) as [m|];
    [|auto].
  right. destruct H as [_ [_ [_ H]]].
  exact (SentinelFacts.search_priced _ _ _ _ SentinelFacts.SALARY_RE_shape H).
Qed.

End ParserFacts.

(** The description poll of [run_scraper] never accepts the description of
    the job shown before: what it returns is the sentinel or the stripped
    text of one of its reads, never empty, and, when a previous description
    is known, different from it. *)
Theorem stale_description_is_never_accepted :
  forall (prev_desc : string) (polls : list (option string)),
    let d := Scraper.poll_description prev_desc polls in
    d <> ""
    /\ Py.strip d = d
    /\ (d = NA \/ exists el_text, In (Some el_text) polls
                                  /\ d = Py.strip el_text)
    /\ (prev_desc = "" \/ d = NA \/ d <> prev_desc).
Proof.
  intros prev_desc polls d.
  destruct (ParserFacts.poll_description_spec prev_desc polls)
    as [H1 [H2 [H3 H4]]].
  repeat split; try assumption.
  destruct (String.eqb_spec prev_desc "") as [E | E]; [left; exact E|].
  right. exact (H4 E).
Qed.

Module GateFacts.

Lemma parsed_gates :
  forall (card : Scraper.Card) (prev_desc : string) (d : Scraper.JobData),
    Scraper.parse_job_data card prev_desc = Some d ->
    Scraper.is_missing (Scraper.title d) = false
    /\ Scraper.is_missing (Scraper.url d) = false
    /\ Scraper.is_missing (Scraper.company d) = false
    /\ Py.startswith "http" (Scraper.url d) = true
    /\ Scraper.description d <> ""
    /\ Scraper.qualifications d <> ""
    /\ (Scraper.salary d = NA \/ priced (Scraper.salary d) = true).
Proof.
  intros card prev_desc d. unfold Scraper.parse_job_data.
  destruct (Scraper.outerHTML card) as [soup|]; [|discriminate]. cbv zeta.
  destruct (Scraper.is_missing _ || Scraper.is_missing _) eqn:G1;
    [discriminate|].
  apply orb_false_iff in G1 as [Gt Gu].
  destruct (Scraper.REQUIRE_COMPANY && Scraper.is_missing _) eqn:G2;
    [discriminate|].
  destruct (negb (Scraper.click_ok card)); [discriminate|].
  destruct (negb (Scraper.pane_matched _ _ _)); [discriminate|].
  destruct (Scraper.REQUIRE_SALARY && _); [discriminate|].
  intros [= <-]. cbn [Scraper.title Scraper.url Scraper.company
                     Scraper.description Scraper.qualifications Scraper.salary].
  repeat split; try assumption.
  - unfold Scraper.card_url in *.
    destruct (negb (Py.falsy (Scraper.href_of soup))
              && negb (Py.startswith "http" (Scraper.href_of soup))) eqn:E;
      [reflexivity|].
    apply andb_false_iff in E as [E | E]; apply negb_false_iff in E.
    + destruct (Scraper.href_of soup); [discriminate Gu | discriminate E].
    + exact E.
  - apply (ParserFacts.poll_description_spec prev_desc).
  - unfold Scraper.qualifications_field.
    destruct (Scraper.qualification_items card) as [q|]; [|discriminate].
    destruct (Scraper.qual_texts q) as [l|]; [|discriminate].
    destruct (Py.join "; " l); [discriminate | discriminate].
  - destruct (Scraper.compensation card) as [t|];
      [apply ParserFacts.scraper_salary_priced|].
    destruct (Scraper.body_container card) as [t|];
      [apply ParserFacts.scraper_salary_priced | auto].
Qed.

End GateFacts.

(** A record that [run_scraper]'s parser returns has passed its gates: its
    title, URL and company are not missing, its URL is absolute, its
    description and qualifications are not empty, and its salary is the
    sentinel or has a dollar sign followed by a digit. *)
Theorem parsed_record_has_passed_the_gates :
  forall (card : Scraper.Card) (prev_desc : string) (d : Scraper.JobData),
    Scraper.parse_job_data card prev_desc = Some d ->
    Scraper.is_missing (Scraper.title d) = false
    /\ Scraper.is_missing (Scraper.url d) = false
    /\ Scraper.is_missing (Scraper.company d) = false
    /\ Py.startswith "http" (Scraper.url d) = true
    /\ Scraper.description d <> ""
    /\ Scraper.qualifications d <> ""
    /\ (Scraper.salary d = NA \/ priced (Scraper.salary d) = true).
Proof. exact GateFacts.parsed_gates. Qed.

Lemma parsed_record_has_passed_the_gates_witness :
  exists d : Scraper.JobData,
    Scraper.parse_job_data (synced_sh_card "/job/2?src=serp") "" = Some d
    /\ Scraper.is_missing (Scraper.company d) = false
    /\ Py.startswith "http" (Scraper.url d) = true
    /\ (Scraper.salary d = NA \/ priced (Scraper.salary d) = true).
Proof.
  destruct (Scraper.parse_job_data (synced_sh_card "/job/2?src=serp") "")
    as [d|] eqn:E; [|vm_compute in E; discriminate E].
  exists d. split; [reflexivity|].
  destruct (parsed_record_has_passed_the_gates
              (synced_sh_card "/job/2?src=serp") "" d E)
    as [_ [_ [Hc [Hu [_ [_ Hs]]]]]].
  auto.
Defined.

(** The URL stored with a record carries no query string: [job_scan.py]
    cuts every link at the first question mark, [run_scraper] cuts the
    links that are relative to the site and the links of LinkedIn cards.
    [job_scan.py]'s URL is empty (no link on the card) or absolute. *)
Theorem stored_url_has_no_query :
  (forall (card : JobScan.Card) (job_data : JobScan.JobData),
      JobScan.parse_job_data card = Returned (Some job_data) ->
      exists u, job_data !! "url" = Some u
                /\ Py.contains "?" u = false
                /\ (u = "" \/ Py.startswith "http" u = true))
  /\ (forall href : string,
         Py.startswith "http" href = false ->
         Py.contains "?" (Scraper.card_url href) = false)
  /\ (forall card : Scraper.LiCard,
         Py.contains "?" (Scraper.linkedin_url_from_card card) = false).
Proof.
  split; [|split].
  - intros card job_data. unfold JobScan.parse_job_data.
    destruct (JobScan.outerHTML card) as [soup|]; [|discriminate].
    cbv zeta.
    set (h := match title_tag soup with Some (_, h) => h | None => "" end).
    assert (Hu : Py.contains "?" (before_query
                   (if negb (Py.falsy h) && negb (Py.startswith "http" h)
                    then SITE +:+ h else h)) = false
                 /\ (before_query
                       (if negb (Py.falsy h) && negb (Py.startswith "http" h)
                        then SITE +:+ h else h) = ""
                     \/ Py.startswith "http" (before_query
                          (if negb (Py.falsy h)
                              && negb (Py.startswith "http" h)
                           then SITE +:+ h else h)) = true)).
    { split; [apply ParserFacts.before_char_free|].
      destruct (negb (Py.falsy h) && negb (Py.startswith "http" h)) eqn:E.
      - right. reflexivity.
      - apply andb_false_iff in E as [E | E]; apply negb_false_iff in E.
        + destruct h; [left; reflexivity | discriminate E].
        + right. apply ParserFacts.before_query_http. exact E. }
    destruct (negb (JobScan.click_ok card)); [discriminate|].
    destruct (negb (JobScan.wait_until _ _)).
    + intros [= <-]. eexists. split; [reflexivity | exact Hu].
    + destruct (JobScan.description_content (JobScan.pane card));
        intros [= <-]; eexists; (split; [reflexivity | exact Hu]).
  - intros href H. unfold Scraper.card_url. rewrite H.
    destruct (Py.falsy href) eqn:E; cbn [negb andb].
    + destruct href; [reflexivity | discriminate E].
    + rewrite (ParserFacts.contains_char_app "?" SITE).
      rewrite (ParserFacts.before_char_free "?"). reflexivity.
  - intros card. unfold Scraper.linkedin_url_from_card.
    destruct (Scraper.li_href_title card) as [h|].
    + destruct (Py.falsy h); [reflexivity|].
      apply (ParserFacts.before_char_free "?").
    + destruct (Scraper.li_href_link card) as [h|]; [|reflexivity].
      destruct (Py.falsy h); [reflexivity|].
      apply (ParserFacts.before_char_free "?").
Qed.

Lemma stored_url_has_no_query_witness :
  (exists u, Samples.parsed Samples.stale_card !! "url" = Some u
             /\ Py.contains "?" u = false
             /\ (u = "" \/ Py.startswith "http" u = true))
  /\ Py.contains "?" (Scraper.card_url "/job/2?src=serp") = false.
Proof.
  split.
  - apply (proj1 stored_url_has_no_query Samples.stale_card). reflexivity.
  - apply (proj1 (proj2 stored_url_has_no_query)). reflexivity.
Defined.

(** ** Loop invariants of the runs *)

(** What every card keeps, the run keeps. *)
Section JobScanInvariant.

Variable cfg : Config.
Variable Inv : JobScan.RunState -> Prop.
Hypothesis Hcard :
  forall st card, Inv st -> Inv (JobScan.process_card cfg st card).

Lemma jobscan_card_loop_inv (page : JobScan.PageView) (indices : list nat)
    (st : JobScan.RunState) :
  Inv st -> Inv (JobScan.card_loop cfg page indices st).
Proof.
  revert st. induction indices as [|i rest IH]; intros st H; simpl; [exact H|].
  destruct (MAX_JOBS_TO_SCRAPE cfg <=? JobScan.total_saved st); [exact H|].
  destruct (JobScan.cards_at page i) as [cards|]; [|apply IH; exact H].
  destruct (cards !! i) as [card|]; [|exact H].
  apply IH, Hcard, H.
Qed.

Lemma jobscan_page_loop_inv (session : nat -> JobScan.PageView)
    (more_pages page_num : nat) (st : JobScan.RunState) :
  Inv st -> Inv (JobScan.page_loop cfg session more_pages page_num st).
Proof.
  revert page_num st.
  induction more_pages as [|more_pages IH]; intros page_num st H; simpl;
    destruct (negb (JobScan.job_list_present (session page_num)));
    try exact H;
    pose proof (jobscan_card_loop_inv (session page_num)
                  (seq 0 (length (JobScan.cards_first (session page_num))))
                  st H) as H';
    fold (JobScan.scan_page cfg (session page_num) st) in H';
    destruct (MAX_JOBS_TO_SCRAPE cfg <=? _); try exact H';
    destruct (JobScan.next_page (session page_num)); try exact H'.
  apply IH. exact H'.
Qed.

Lemma jobscan_run_inv (site : string -> nat -> JobScan.PageView) :
  Inv {| JobScan.saved := []; JobScan.total_saved := 0 |} ->
  Inv (JobScan.run cfg site).
Proof.
  unfold JobScan.run. generalize (KEYWORDS cfg).
  generalize {| JobScan.saved := []; JobScan.total_saved := 0 |}.
  intros st kws. revert st.
  induction kws as [|kw kws IH]; intros st H; simpl; [exact H|].
  apply IH, jobscan_page_loop_inv, H.
Qed.

End JobScanInvariant.

Module RowFacts.

(** The columns of a record that has a salary. *)
Lemma jobscan_parsed_columns (card : JobScan.Card)
    (job_data : JobScan.JobData) :
  JobScan.parse_job_data card = Returned (Some job_data) ->
  is_Some (job_data !! "salary") ->
  dom job_data
  = list_to_set ["title"; "url"; "company"; "location"; "description";
                 "salary"; "qualifications"; "date_posted"; "scraped_at"].
Proof.
  unfold JobScan.parse_job_data.
  destruct (JobScan.outerHTML card) as [soup|]; [|discriminate]. cbv zeta.
  destruct (negb (JobScan.click_ok card)); [discriminate|].
  destruct (negb (JobScan.wait_until _ _)).
  - intros [= <-] _. rewrite !dom_insert_L, dom_empty_L. set_solver.
  - destruct (JobScan.description_content (JobScan.pane card)).
    + intros [= <-] _. rewrite !dom_insert_L, dom_empty_L. set_solver.
    + intros [= <-] [x Hx]. exfalso.
      rewrite !lookup_insert_ne in Hx by discriminate.
      rewrite lookup_empty in Hx. discriminate Hx.
Qed.

Lemma jobscan_verify_columns (cfg : Config) (relevance : Relevance)
    (job_data : JobScan.JobData) (st : JobScan.RunState) :
  JobScan.verify_and_save cfg relevance job_data st = st
  \/ (JobScan.verify_and_save cfg relevance job_data st
      = JobScan.save_job job_data st
      /\ is_Some (job_data !! "salary")).
Proof.
  unfold JobScan.verify_and_save.
  destruct relevance; [auto| |].
  - destruct (job_data !! "title"); [|auto].
    destruct (job_data !! "salary") eqn:E; [|auto]. right. eauto.
  - destruct (job_data !! "description"); [|auto].
    destruct (should_save cfg CHECK_DESCRIPTION s); [|auto].
    destruct (job_data !! "title"); [|auto].
    destruct (job_data !! "salary") eqn:E; [|auto]. right. eauto.
Qed.

End RowFacts.

(** Every row that a run of [job_scan.py] appends to its output file has
    the same nine fields: a record that lacks the salary, as the one built
    when the description cannot be read, is never saved. *)
Theorem saved_rows_have_the_same_columns :
  forall (cfg : Config) (site : string -> nat -> JobScan.PageView),
    Forall (fun job_data : JobScan.JobData =>
              dom job_data
              = list_to_set ["title"; "url"; "company"; "location";
                             "description"; "salary"; "qualifications";
                             "date_posted"; "scraped_at"])
           (JobScan.saved (JobScan.run cfg site)).
Proof.
  intros cfg site.
  apply (jobscan_run_inv cfg
           (fun st => Forall (fun job_data : JobScan.JobData =>
                                dom job_data = list_to_set _)
                             (JobScan.saved st))); [|constructor].
  intros st card H. unfold JobScan.process_card.
  destruct (JobScan.text card) as [t|]; [|exact H].
  destruct (classify_title cfg (first_line t)) eqn:Hrel; [exact H| |];
    (destruct (JobScan.parse_job_data card) as [[job_data|]|] eqn:Hp;
     try exact H;
     destruct (RowFacts.jobscan_verify_columns cfg (classify_title cfg (first_line t))
                 job_data st) as [E | [E Hs]];
     rewrite Hrel in E; rewrite E; [exact H|];
     simpl; apply Forall_app; split; [exact H|];
     constructor; [|constructor];
     exact (RowFacts.jobscan_parsed_columns card job_data Hp Hs)).
Qed.

(** What every card of either part keeps, [run_scraper] keeps. *)
Section ScraperInvariant.

Variable cfg : Config.
Variable Inv : Scraper.State -> Prop.
Hypothesis Hcard :
  forall st prev card, Inv st -> Inv (Scraper.process_card cfg st prev card).1.
Hypothesis Hli :
  forall st prev card,
    Inv st -> Inv (Scraper.li_process_card cfg st prev card).1.

Lemma scraper_card_loop_inv (page : Scraper.PageView) (indices : list nat)
    (st : Scraper.State) (prev : string) :
  Inv st -> Inv (Scraper.card_loop cfg page indices st prev).
Proof.
  revert st prev.
  induction indices as [|i rest IH]; intros st prev H; simpl; [exact H|].
  destruct (MAX_JOBS_TO_SCRAPE cfg <=? Scraper.total_saved_this_run st);
    [exact H|].
  destruct (Scraper.cards_at page i ≫= _) as [card|]; [|apply IH; exact H].
  pose proof (Hcard st prev card H) as H'.
  destruct (Scraper.process_card cfg st prev card) as [st' prev'].
  apply IH. exact H'.
Qed.

Lemma scraper_page_loop_inv (session : nat -> Scraper.PageView)
    (pages_left page_num : nat) (st : Scraper.State) :
  Inv st -> Inv (Scraper.page_loop cfg session pages_left page_num st).1.
Proof.
  revert page_num st.
  induction pages_left as [|pages_left IH]; intros page_num st H; simpl;
    [exact H|].
  destruct (negb (Scraper.job_list_present (session page_num))); [exact H|].
  pose proof (scraper_card_loop_inv (session page_num)
                (seq 0 (length (Scraper.cards_first (session page_num))))
                st "" H) as H'.
  fold (Scraper.scan_page cfg (session page_num) st) in H'.
  destruct (MAX_JOBS_TO_SCRAPE cfg <=? _); [exact H'|].
  destruct (Scraper.next_page (session page_num)); [|exact H'].
  apply IH. exact H'.
Qed.

Lemma simplyhired_inv (site : string -> nat -> Scraper.PageView)
    (keywords : list string) (st : Scraper.State) :
  Inv st -> Inv (Scraper.simplyhired cfg site keywords st).1.
Proof.
  revert st. induction keywords as [|kw rest IH]; intros st H; simpl;
    [exact H|].
  pose proof (scraper_page_loop_inv (site kw) (MAX_PAGES_PER_KEYWORD cfg) 1
                st H) as H'.
  destruct (Scraper.page_loop cfg (site kw) (MAX_PAGES_PER_KEYWORD cfg) 1 st)
    as [st' [|]]; simpl in H'; [apply IH|]; exact H'.
Qed.

Lemma linkedin_card_loop_inv (cards : list Scraper.LiCard)
    (st : Scraper.State) (prev : string) :
  Inv st -> Inv (Scraper.li_card_loop cfg cards st prev).1.1.
Proof.
  revert st prev.
  induction cards as [|card rest IH]; intros st prev H; simpl; [exact H|].
  destruct (MAX_JOBS_TO_SCRAPE cfg <=? length (Scraper.new_jobs_buffer st));
    [exact H|].
  pose proof (Hli st prev card H) as H'.
  destruct (Scraper.li_process_card cfg st prev card) as [st' prev'].
  apply IH. exact H'.
Qed.

Lemma linkedin_page_loop_inv (session : nat -> Scraper.LiPageView)
    (rounds current_page_num : nat) (st : Scraper.State) (prev : string) :
  Inv st ->
  Inv (Scraper.li_page_loop cfg session rounds current_page_num st prev).1.1.
Proof.
  revert current_page_num st prev.
  induction rounds as [|rounds IH]; intros page_num st prev H; simpl;
    [exact H|].
  destruct (MAX_JOBS_TO_SCRAPE cfg <=? _); [exact H|].
  destruct (MAX_PAGES_PER_KEYWORD cfg <? page_num); [exact H|].
  destruct (negb (Scraper.li_cards_present (session page_num))); [exact H|].
  pose proof (linkedin_card_loop_inv (Scraper.li_cards (session page_num))
                st prev H) as H'.
  destruct (Scraper.li_card_loop cfg (Scraper.li_cards (session page_num))
                                 st prev) as [[st' prev'] [|]]; simpl in H'.
  - destruct (Scraper.li_next_page (session page_num)); [|exact H'].
    apply IH. exact H'.
  - exact H'.
Qed.

Lemma linkedin_keywords_inv (site : string -> nat -> Scraper.LiPageView)
    (keywords : list string) (st : Scraper.State) (prev : string) :
  Inv st -> Inv (Scraper.li_keywords cfg site keywords st prev).
Proof.
  revert st prev. induction keywords as [|kw rest IH]; intros st prev H;
    [exact H|].
  pose proof (linkedin_page_loop_inv (site kw) (S (MAX_PAGES_PER_KEYWORD cfg))
                1 st prev H) as H'.
  cbn [Scraper.li_keywords].
  destruct (Scraper.li_page_loop cfg (site kw) (S (MAX_PAGES_PER_KEYWORD cfg))
                                 1 st prev) as [[st' prev'] [|]];
    cbn [fst] in H'; [apply IH|]; exact H'.
Qed.

Lemma run_scraper_inv (old_urls : gset string)
    (old_signatures : gset (string * string))
    (simplyhired_site : string -> nat -> Scraper.PageView)
    (linkedin_site : string -> nat -> Scraper.LiPageView) :
  Inv (initial_state old_urls old_signatures) ->
  Inv (Scraper.run_scraper cfg old_urls old_signatures
                           simplyhired_site linkedin_site).
Proof.
  intros H. unfold Scraper.run_scraper.
  pose proof (simplyhired_inv simplyhired_site (KEYWORDS cfg)
                (initial_state old_urls old_signatures) H) as H'.
  unfold initial_state in H'.
  destruct (Scraper.simplyhired cfg simplyhired_site (KEYWORDS cfg) _)
    as [st1 [|]]; simpl in H'; [|exact H'].
  apply linkedin_keywords_inv. exact H'.
Qed.

End ScraperInvariant.

(** ** What [run_scraper] buffers *)

Module BufferFacts.

(** What the body of the SimplyHired loop does to the state. *)
Lemma scraper_process_detail (cfg : Config) (st : Scraper.State)
    (prev : string) (card : Scraper.Card) :
  (Scraper.process_card cfg st prev card).1 = st
  \/ exists job_data,
       (Scraper.process_card cfg st prev card).1
       = Scraper.buffer_job job_data st
       /\ Scraper.parse_job_data card prev = Some job_data
       /\ Scraper.url job_data ∉ Scraper.seen_urls st
       /\ Scraper.signature (Scraper.title job_data)
                            (Scraper.company job_data)
          ∉ Scraper.seen_signatures st.
Proof.
  unfold Scraper.process_card.
  destruct (match Scraper.outerHTML card with Some _ => _ | None => _ end);
    [auto|].
  destruct (match Scraper.title_elem card with Some _ => _ | None => _ end)
    as [raw_title|]; [|auto].
  destruct (Scraper.is_missing raw_title); [auto|].
  destruct (classify_title cfg raw_title) eqn:Hrel; [auto| |];
    (destruct (Scraper.parse_job_data card prev) as [job_data|]; [|auto];
     destruct (bool_decide (Scraper.url job_data ∈ Scraper.seen_urls st))
       eqn:Hurl; [auto|];
     destruct (bool_decide (_ ∈ Scraper.seen_signatures st)) eqn:Hsig;
       [auto|];
     apply bool_decide_eq_false in Hurl;
     apply bool_decide_eq_false in Hsig;
     unfold Scraper.verify_and_buffer; simpl;
     match goal with
     | |- (if ?c then _ else _) = _ \/ _ => destruct c; eauto 10
     | |- _ => eauto 10
     end).
Qed.

(** What the body of the LinkedIn loop does to the state. *)
Lemma linkedin_process_detail (cfg : Config) (st : Scraper.State)
    (prev : string) (card : Scraper.LiCard) :
  (Scraper.li_process_card cfg st prev card).1 = st
  \/ exists job_url sig data,
       (Scraper.li_process_card cfg st prev card).1
       = Scraper.li_buffer_job job_url sig data st
       /\ sig = Scraper.signature (Scraper.title data) (Scraper.company data)
       /\ sig ∉ Scraper.seen_signatures st
       /\ Scraper.is_missing (Scraper.title data) = false
       /\ Scraper.is_missing (Scraper.company data) = false
       /\ should_save cfg (classify_title cfg (Scraper.title data))
                      (Scraper.description data) = true
       /\ Scraper.description data
          = Scraper.poll_description prev (Scraper.li_description_polls card)
       /\ Scraper.salary data = NA
       /\ Scraper.qualifications data = NA
       /\ Scraper.url data <> "".
Proof.
  unfold Scraper.li_process_card.
  destruct (Scraper.li_outerHTML card) as [card_html|]; [|auto].
  cbv zeta.
  destruct (Scraper.is_missing _) eqn:Ht; [auto|].
  destruct (negb (Py.falsy (Scraper.linkedin_url_from_card card))
            && bool_decide (_ ∈ Scraper.seen_urls st)); [auto|].
  destruct (negb (Scraper.li_click_ok card)); [auto|].
  destruct (negb (Scraper.li_pane_matched _ _)); [auto|].
  destruct (Scraper.REQUIRE_COMPANY && _) eqn:Hc; [auto|].
  destruct (bool_decide (_ ∈ Scraper.seen_signatures st)) eqn:Hsig; [auto|].
  apply bool_decide_eq_false in Hsig.
  destruct (classify_title cfg _) eqn:Hrel; [auto| |];
    (match goal with
     | |- (if ?c then _ else _).1 = _ \/ _ =>
         destruct c eqn:Hsave; simpl; [|auto]
     end;
     right; eexists _, _, _; split; [reflexivity|];
     cbn [Scraper.title Scraper.company Scraper.description Scraper.salary
          Scraper.qualifications Scraper.url];
     rewrite Hrel; repeat (split; [auto; fail|]);
     destruct (Scraper.linkedin_url_from_card card); discriminate).
Qed.

Lemma NoDup_snoc {A : Type} (l : list A) (x : A) :
  NoDup l -> x ∉ l -> NoDup (l ++ [x]).
Proof.
  intros Hl Hx. apply NoDup_app. split; [exact Hl|]. split.
  - intros y Hy Hin. apply list_elem_of_singleton in Hin. subst y. auto.
  - apply NoDup_singleton.
Qed.

End BufferFacts.

(** Within a run of [run_scraper] no two buffered records have the same
    signature (title and company in lower case, trimmed), whichever part
    buffered them, and no buffered record has a signature that was in the
    output file when the run started; the set of seen signatures only
    grows. *)
Theorem buffered_signatures_are_distinct :
  forall (cfg : Config) (old_urls : gset string)
         (old_signatures : gset (string * string))
         (simplyhired_site : string -> nat -> Scraper.PageView)
         (linkedin_site : string -> nat -> Scraper.LiPageView),
    let st := Scraper.run_scraper cfg old_urls old_signatures
                                  simplyhired_site linkedin_site in
    let sig_of := fun d => Scraper.signature (Scraper.title d)
                                             (Scraper.company d) in
    old_signatures ⊆ Scraper.seen_signatures st
    /\ NoDup (map sig_of (Scraper.new_jobs_buffer st))
    /\ Forall (fun d => sig_of d ∈ Scraper.seen_signatures st
                        /\ sig_of d ∉ old_signatures)
              (Scraper.new_jobs_buffer st).
Proof.
  intros cfg old_urls old_signatures simplyhired_site linkedin_site st sig_of.
  subst st. rewrite Forall_forall.
  set (Inv := fun st : Scraper.State =>
                old_signatures ⊆ Scraper.seen_signatures st
                /\ NoDup (map sig_of (Scraper.new_jobs_buffer st))
                /\ forall d, d ∈ Scraper.new_jobs_buffer st ->
                             sig_of d ∈ Scraper.seen_signatures st
                             /\ sig_of d ∉ old_signatures).
  assert (Hadd : forall st d seen' buf',
             Inv st -> sig_of d ∉ Scraper.seen_signatures st ->
             seen' = {[ sig_of d ]} ∪ Scraper.seen_signatures st ->
             buf' = Scraper.new_jobs_buffer st ++ [d] ->
             old_signatures ⊆ seen'
             /\ NoDup (map sig_of buf')
             /\ forall x, x ∈ buf' -> sig_of x ∈ seen'
                                      /\ sig_of x ∉ old_signatures).
  { intros st d seen' buf' [H1 [H2 H3]] Hnew -> ->. split; [set_solver|].
    split.
    - rewrite map_app. apply BufferFacts.NoDup_snoc; [exact H2|].
      intros Hin. apply list_elem_of_fmap in Hin as [y [Ey Hy]].
      apply H3 in Hy as [Hy _]. rewrite <- Ey in Hy. contradiction.
    - intros x Hx. apply elem_of_app in Hx as [Hx | Hx].
      + apply H3 in Hx as [Ha Hb]. split; [set_solver | exact Hb].
      + apply list_elem_of_singleton in Hx. subst x. split; [set_solver|].
        intros Hold. apply Hnew, H1, Hold. }
  apply (run_scraper_inv cfg Inv).
  - intros st prev card H.
    destruct (BufferFacts.scraper_process_detail cfg st prev card)
      as [E | [jd [E [_ [_ Hs]]]]]; rewrite E; [exact H|].
    exact (Hadd st jd _ _ H Hs eq_refl eq_refl).
  - intros st prev card H.
    destruct (BufferFacts.linkedin_process_detail cfg st prev card)
      as [E | [job_url [sig [data [E [Es [Hs _]]]]]]]; rewrite E; [exact H|].
    subst sig. exact (Hadd st data _ _ H Hs eq_refl eq_refl).
  - split; [reflexivity|]. split; [constructor|]. intros d Hd.
    apply elem_of_nil in Hd. destruct Hd.
Qed.

(** No record without a title or without a company is ever buffered by
    [run_scraper]: the company is a hard gate in both parts. *)
Theorem buffered_records_name_title_and_company :
  forall (cfg : Config) (old_urls : gset string)
         (old_signatures : gset (string * string))
         (simplyhired_site : string -> nat -> Scraper.PageView)
         (linkedin_site : string -> nat -> Scraper.LiPageView),
    Forall (fun d => Scraper.is_missing (Scraper.title d) = false
                     /\ Scraper.is_missing (Scraper.company d) = false)
           (Scraper.new_jobs_buffer
              (Scraper.run_scraper cfg old_urls old_signatures
                                   simplyhired_site linkedin_site)).
Proof.
  intros cfg old_urls old_signatures simplyhired_site linkedin_site.
  apply (run_scraper_inv cfg
           (fun st => Forall (fun d => Scraper.is_missing (Scraper.title d)
                                       = false
                                       /\ Scraper.is_missing
                                            (Scraper.company d) = false)
                             (Scraper.new_jobs_buffer st))).
  - intros st prev card H.
    destruct (BufferFacts.scraper_process_detail cfg st prev card)
      as [E | [jd [E [Hp _]]]]; rewrite E; [exact H|].
    simpl. apply Forall_app. split; [exact H|]. constructor; [|constructor].
    destruct (GateFacts.parsed_gates card prev jd Hp) as [Ht [_ [Hc _]]].
    auto.
  - intros st prev card H.
    destruct (BufferFacts.linkedin_process_detail cfg st prev card)
      as [E | [job_url [sig [data [E [_ [_ [Ht [Hc _]]]]]]]]]; rewrite E;
      [exact H|].
    simpl. apply Forall_app. split; [exact H|]. constructor; [|constructor].
    auto.
  - constructor.
Qed.

(** ** Keywords and qualifications *)

Module KeywordFacts.
Import Py PyFacts.

Lemma len_lower (s : string) : len (lower s) = len s.
Proof. unfold len. induction s as [|c s IH]; simpl; congruence. Qed.

(** What occurs in a lower-cased text is in lower case. *)
Lemma contains_lowered (kw text : string) :
  contains kw (lower text) = true -> lower kw = kw.
Proof.
  intros H. apply contains_spec in H as [a [b E]].
  assert (E' : lower (lower text) = lower a +:+ lower kw +:+ lower b)
    by (rewrite E at 1; rewrite !lower_app; reflexivity).
  rewrite lower_idem, E in E'.
  apply app_inv_len in E' as [_ E']; [|symmetry; apply len_lower].
  apply app_inv_len in E' as [E' _]; [|symmetry; apply len_lower].
  symmetry. exact E'.
Qed.

Lemma any_in_lower_case_only (kws : list string) (text : string) :
  any_in (lower_case_only kws) (lower text) = any_in kws (lower text).
Proof.
  unfold any_in, lower_case_only.
  induction kws as [|kw kws IH]; [reflexivity|].
  rewrite filter_cons. cbn [existsb].
  destruct (decide ((lower kw =? kw)%string = true)) as [E | E].
  - cbn [existsb]. rewrite IH. reflexivity.
  - rewrite IH. destruct (contains kw (lower text)) eqn:Hc; [|reflexivity].
    exfalso. apply E, String.eqb_eq, (contains_lowered kw text), Hc.
Qed.

Lemma dedupe_app (seen : gset string) (l1 l2 : list string) :
  SalaryRetries.dedupe seen (l1 ++ l2)
  = SalaryRetries.dedupe seen l1
    ++ SalaryRetries.dedupe (list_to_set l1 ∪ seen) l2.
Proof.
  revert seen. induction l1 as [|x l1 IH]; intros seen; simpl.
  - f_equal. set_solver.
  - destruct (bool_decide (x ∈ seen)) eqn:E.
    + apply bool_decide_eq_true in E. rewrite IH. do 2 f_equal. set_solver.
    + rewrite IH. simpl. do 3 f_equal. set_solver.
Qed.

Lemma stripped_items_app (a b : list (option string)) :
  SalaryRetries.stripped_items (a ++ b)
  = SalaryRetries.stripped_items a ++ SalaryRetries.stripped_items b.
Proof.
  unfold SalaryRetries.stripped_items. rewrite map_app, filter_app.
  reflexivity.
Qed.

End KeywordFacts.

(** A keyword that is not written in lower case never matches: the loops
    compare the keywords with the lower-cased title and description, so the
    title filter and the description check give the same answer when every
    such keyword is taken out of the four lists. *)
Theorem keyword_with_capital_never_matches :
  forall (cfg : Config) (title description : string) (relevance : Relevance),
    classify_title cfg title
    = classify_title (with_lower_case_keywords cfg) title
    /\ should_save cfg relevance description
       = should_save (with_lower_case_keywords cfg) relevance description.
Proof.
  intros cfg title description relevance. split.
  - unfold classify_title. cbn [with_lower_case_keywords BAD_KEYWORDS
      STRONG_KEYWORDS AMBIGUOUS_KEYWORDS].
    rewrite !KeywordFacts.any_in_lower_case_only. reflexivity.
  - destruct relevance; try reflexivity.
    unfold should_save. cbn [with_lower_case_keywords TECH_KEYWORDS].
    rewrite KeywordFacts.any_in_lower_case_only. reflexivity.
Qed.

(** [extract_qualifications] lists every stripped, non-empty item of the
    pane once, in the order of first appearance: the list has no repeats,
    holds exactly those items, and the items that follow in the pane only
    add to its end. *)
Theorem extract_qualifications_keeps_first_occurrences :
  forall items more : list (option string),
    let quals := SalaryRetries.extract_qualifications (Some items) in
    NoDup quals
    /\ (forall q, q ∈ quals <-> q ∈ SalaryRetries.stripped_items items)
    /\ Forall (fun q => q <> "" /\ Py.strip q = q) quals
    /\ quals `prefix_of`
         SalaryRetries.extract_qualifications (Some (items ++ more)).
Proof.
  intros items more quals. subst quals.
  unfold SalaryRetries.extract_qualifications.
  destruct (dedupe_spec ∅ (SalaryRetries.stripped_items items)) as [Hn Hm].
  split; [exact Hn|]. split; [|split].
  - intros q. rewrite Hm. set_solver.
  - apply Forall_forall. intros q Hq. apply Hm in Hq as [Hq _].
    unfold SalaryRetries.stripped_items in Hq.
    apply list_elem_of_filter in Hq as [Hf Hq].
    apply list_elem_of_fmap in Hq as [el [-> _]].
    split; [|apply ParserFacts.strip_idem].
    intros E. rewrite E in Hf. discriminate.
  - rewrite KeywordFacts.stripped_items_app, KeywordFacts.dedupe_app.
    apply prefix_app_r. reflexivity.
Qed.

(** ** The page cap *)

Module PageFacts.

Lemma fold_left_agree {A B : Type} (f g : A -> B -> A) (l : list B) (a : A) :
  (forall x b, b ∈ l -> f x b = g x b) ->
  fold_left f l a = fold_left g l a.
Proof.
  revert a. induction l as [|b l IH]; intros a H; [reflexivity|]. simpl.
  rewrite (H a b) by set_solver. apply IH. intros x c Hc. apply H. set_solver.
Qed.

Lemma jobscan_page_loop_local (cfg : Config)
    (s1 s2 : nat -> JobScan.PageView) (more_pages page_num : nat)
    (st : JobScan.RunState) :
  (forall p, page_num <= p <= page_num + more_pages -> s1 p = s2 p) ->
  JobScan.page_loop cfg s1 more_pages page_num st
  = JobScan.page_loop cfg s2 more_pages page_num st.
Proof.
  revert page_num st.
  induction more_pages as [|more_pages IH]; intros page_num st H; simpl;
    rewrite <- (H page_num) by lia; [reflexivity|].
  destruct (negb (JobScan.job_list_present (s1 page_num))); [reflexivity|].
  destruct (MAX_JOBS_TO_SCRAPE cfg
            <=? JobScan.total_saved (JobScan.scan_page cfg (s1 page_num) st));
    [reflexivity|].
  destruct (JobScan.next_page (s1 page_num)); [|reflexivity].
  apply IH. intros p Hp. apply H. lia.
Qed.

Lemma scraper_page_loop_local (cfg : Config)
    (s1 s2 : nat -> Scraper.PageView) (pages_left page_num : nat)
    (st : Scraper.State) :
  (forall p, page_num <= p < page_num + pages_left -> s1 p = s2 p) ->
  Scraper.page_loop cfg s1 pages_left page_num st
  = Scraper.page_loop cfg s2 pages_left page_num st.
Proof.
  revert page_num st.
  induction pages_left as [|pages_left IH]; intros page_num st H; simpl;
    [reflexivity|].
  rewrite <- (H page_num) by lia.
  destruct (negb (Scraper.job_list_present (s1 page_num))); [reflexivity|].
  destruct (MAX_JOBS_TO_SCRAPE cfg
            <=? Scraper.total_saved_this_run
                  (Scraper.scan_page cfg (s1 page_num) st));
    [reflexivity|].
  destruct (Scraper.next_page (s1 page_num)); [|reflexivity].
  apply IH. intros p Hp. apply H. lia.
Qed.

Lemma simplyhired_local (cfg : Config)
    (site site' : string -> nat -> Scraper.PageView)
    (keywords : list string) (st : Scraper.State) :
  (forall kw p, kw ∈ keywords -> 1 <= p <= MAX_PAGES_PER_KEYWORD cfg ->
                site kw p = site' kw p) ->
  Scraper.simplyhired cfg site keywords st
  = Scraper.simplyhired cfg site' keywords st.
Proof.
  revert st. induction keywords as [|kw rest IH]; intros st H; [reflexivity|].
  simpl.
  rewrite (scraper_page_loop_local cfg (site kw) (site' kw))
    by (intros p Hp; apply H; [set_solver | lia]).
  destruct (Scraper.page_loop cfg (site' kw) (MAX_PAGES_PER_KEYWORD cfg) 1 st)
    as [st' []]; [|reflexivity].
  apply IH. intros k p Hk Hp. apply H; [set_solver | exact Hp].
Qed.

Lemma linkedin_page_loop_local (cfg : Config)
    (s1 s2 : nat -> Scraper.LiPageView) (rounds current_page_num : nat)
    (st : Scraper.State) (prev : string) :
  (forall p, current_page_num <= p <= MAX_PAGES_PER_KEYWORD cfg ->
             s1 p = s2 p) ->
  Scraper.li_page_loop cfg s1 rounds current_page_num st prev
  = Scraper.li_page_loop cfg s2 rounds current_page_num st prev.
Proof.
  revert current_page_num st prev.
  induction rounds as [|rounds IH]; intros n st prev H; simpl; [reflexivity|].
  destruct (MAX_JOBS_TO_SCRAPE cfg <=? length (Scraper.new_jobs_buffer st));
    [reflexivity|].
  destruct (Nat.ltb_spec (MAX_PAGES_PER_KEYWORD cfg) n) as [Hn | Hn];
    [reflexivity|].
  rewrite <- (H n) by lia.
  destruct (negb (Scraper.li_cards_present (s1 n))); [reflexivity|].
  destruct (Scraper.li_card_loop cfg (Scraper.li_cards (s1 n)) st prev)
    as [[st' prev'] []]; [|reflexivity].
  destruct (Scraper.li_next_page (s1 n)); [|reflexivity].
  apply IH. intros p Hp. apply H. lia.
Qed.

Lemma linkedin_keywords_local (cfg : Config)
    (site site' : string -> nat -> Scraper.LiPageView)
    (keywords : list string) (st : Scraper.State) (prev : string) :
  (forall kw p, kw ∈ keywords -> 1 <= p <= MAX_PAGES_PER_KEYWORD cfg ->
                site kw p = site' kw p) ->
  Scraper.li_keywords cfg site keywords st prev
  = Scraper.li_keywords cfg site' keywords st prev.
Proof.
  revert st prev.
  induction keywords as [|kw rest IH]; intros st prev H; [reflexivity|].
  cbn [Scraper.li_keywords].
  rewrite (linkedin_page_loop_local cfg (site kw) (site' kw))
    by (intros p Hp; apply H; [set_solver | exact Hp]).
  destruct (Scraper.li_page_loop cfg (site' kw)
              (S (MAX_PAGES_PER_KEYWORD cfg)) 1 st prev)
    as [[st' prev'] []]; [|reflexivity].
  apply IH. intros k p Hk Hp. apply H; [set_solver | exact Hp].
Qed.

End PageFacts.

(** Neither script looks past the page cap or at another keyword: two sites
    that show the same pages up to [MAX_PAGES_PER_KEYWORD] for the
    configured keywords give the same run.  [job_scan.py] reads the first
    page even when the cap is zero. *)
Theorem pages_past_the_cap_are_never_read :
  (forall (cfg : Config) (site site' : string -> nat -> JobScan.PageView),
      (forall kw p, kw ∈ KEYWORDS cfg ->
                    1 <= p <= Nat.max 1 (MAX_PAGES_PER_KEYWORD cfg) ->
                    site kw p = site' kw p) ->
      JobScan.run cfg site = JobScan.run cfg site')
  /\ (forall (cfg : Config) (old_urls : gset string)
             (old_signatures : gset (string * string))
             (simplyhired_site simplyhired_site'
                : string -> nat -> Scraper.PageView)
             (linkedin_site linkedin_site'
                : string -> nat -> Scraper.LiPageView),
         (forall kw p, kw ∈ KEYWORDS cfg ->
                       1 <= p <= MAX_PAGES_PER_KEYWORD cfg ->
                       simplyhired_site kw p = simplyhired_site' kw p
                       /\ linkedin_site kw p = linkedin_site' kw p) ->
         Scraper.run_scraper cfg old_urls old_signatures
                             simplyhired_site linkedin_site
         = Scraper.run_scraper cfg old_urls old_signatures
                               simplyhired_site' linkedin_site').
Proof.
  split.
  - intros cfg site site' H. unfold JobScan.run.
    apply PageFacts.fold_left_agree. intros st kw Hkw.
    apply PageFacts.jobscan_page_loop_local. intros p Hp.
    apply H; [exact Hkw | lia].
  - intros cfg old_urls old_signatures sh sh' li li' H.
    unfold Scraper.run_scraper, Scraper.scrape_linkedin_authenticated.
    rewrite (PageFacts.simplyhired_local cfg sh sh')
      by (intros kw p Hkw Hp; apply H; assumption).
    destruct (Scraper.simplyhired cfg sh' (KEYWORDS cfg) _) as [st1 []];
      [|reflexivity].
    apply PageFacts.linkedin_keywords_local.
    intros kw p Hkw Hp. apply H; assumption.
Qed.

Lemma pages_past_the_cap_are_never_read_witness :
  JobScan.run (Samples.small_config 5) (Samples.site_of three_strong_cards)
  = JobScan.run (Samples.small_config 5)
      (changed_after 2 (Samples.site_of three_strong_cards)
                     (fun _ _ => Samples.page_of three_strong_cards))
  /\ Scraper.run_scraper (Samples.small_config 5) ∅ ∅
       (sh_site_of three_cards) no_linkedin
     = Scraper.run_scraper (Samples.small_config 5) ∅ ∅
         (changed_after 2 (sh_site_of three_cards)
                        (fun _ _ => Samples.sh_page_of three_cards))
         (changed_after 2 no_linkedin no_linkedin).
Proof.
  destruct pages_past_the_cap_are_never_read as [H1 H2]. split.
  - apply H1. intros kw p _ Hp. simpl in Hp. unfold changed_after.
    destruct (Nat.leb_spec p 2); [reflexivity | lia].
  - apply H2. intros kw p _ Hp. simpl in Hp. unfold changed_after.
    destruct (Nat.leb_spec p 2); [split; reflexivity | lia].
Defined.

(** ** Cleaning the CSV *)

Module VerifyFacts.
Import Verify.

Lemma verify_unfold (get : string -> option Response) (files : Files) :
  verify_and_clean_data get files
  = match output_file files with
    | None => files
    | Some df =>
        if negb (bool_decide ("url" ∈ columns df)) then files
        else if 0 <? length (rows df) - length (rows (valid_rows get df))
        then {| output_file := Some (valid_rows get df);
                backup_file := Some (with_flags get df) |}
        else files
    end.
Proof. reflexivity. Qed.

Lemma flagged_rows (get : string -> option Response) (df : DataFrame) :
  rows (with_flags get df)
  = map (fun row => <["is_valid" := Flag (row_is_valid get row)]> row)
        (rows df).
Proof.
  unfold with_flags, set_column, column. cbn [rows].
  induction (rows df) as [|row l IH]; [reflexivity|].
  cbn [map zip_with]. rewrite IH. reflexivity.
Qed.

Lemma cleaned_rows (get : string -> option Response) (df : DataFrame) :
  rows (valid_rows get df)
  = map (delete "is_valid")
        (filter (fun row => row_is_valid get row = true) (rows df)).
Proof.
  unfold valid_rows, drop_column, where_true. cbn [rows].
  rewrite flagged_rows.
  induction (rows df) as [|row l IH]; [reflexivity|].
  cbn [map]. rewrite !filter_cons, lookup_insert_eq. cbn [default].
  destruct (row_is_valid get row); cbn [is_True].
  - rewrite !decide_True by reflexivity. cbn [map].
    rewrite IH, delete_insert_eq. reflexivity.
  - rewrite !decide_False by discriminate. exact IH.
Qed.

Lemma filter_keeps_all {A : Type} (P : A -> Prop)
    `{forall x, Decision (P x)} (l : list A) :
  length l <= length (filter P l) -> filter P l = l /\ Forall P l.
Proof.
  induction l as [|x l IH]; intros Hlen; [split; constructor|].
  rewrite filter_cons in *. destruct (decide (P x)) as [Hx | Hx].
  - simpl in Hlen. destruct IH as [E F]; [lia|]. rewrite E. auto.
  - pose proof (length_filter P l). simpl in Hlen. lia.
Qed.

Lemma filter_all {A : Type} (P : A -> Prop)
    `{forall x, Decision (P x)} (l : list A) :
  Forall P l -> filter P l = l.
Proof.
  induction 1 as [|x l Hx _ IH]; [reflexivity|].
  rewrite filter_cons, decide_True, IH by exact Hx. reflexivity.
Qed.

Lemma valid_after_drop (get : string -> option Response)
    (row : gmap string Cell) :
  row_is_valid get (delete "is_valid" row) = row_is_valid get row.
Proof.
  unfold row_is_valid. rewrite lookup_delete_ne by discriminate. reflexivity.
Qed.

(** Every row of the cleaned frame passes the check again. *)
Lemma cleaned_rows_valid (get : string -> option Response) (df : DataFrame) :
  Forall (fun row => row_is_valid get row = true) (rows (valid_rows get df)).
Proof.
  rewrite cleaned_rows. apply Forall_fmap, Forall_forall. intros row Hrow.
  apply list_elem_of_filter in Hrow as [Hv _]. cbn.
  rewrite valid_after_drop. exact Hv.
Qed.

Lemma url_column_stays (get : string -> option Response) (df : DataFrame) :
  "url" ∈ columns df -> "url" ∈ columns (valid_rows get df).
Proof.
  intros H. cbn. apply list_elem_of_filter. split; [discriminate|].
  destruct (bool_decide ("is_valid" ∈ columns df)); set_solver.
Qed.

Lemma columns_restored (df : DataFrame) (values : list Cell) :
  "is_valid" ∉ columns df ->
  filter (fun c => c <> "is_valid")
         (columns (set_column "is_valid" values df))
  = columns df.
Proof.
  intros H. cbn. rewrite bool_decide_false by exact H.
  rewrite filter_app, filter_cons, decide_False, filter_nil, List.app_nil_r
    by (intros E; apply E; reflexivity).
  apply filter_all, Forall_forall. intros c Hc ->. contradiction.
Qed.

Lemma row_check (get : string -> option Response) (row : gmap string Cell) :
  row_is_valid get row = true ->
  exists url r, row !! "url" = Some (Str url)
                /\ Py.startswith "http" url = true
                /\ get url = Some r
                /\ status_code r <> 404 /\ status_code r <> 410.
Proof.
  unfold row_is_valid, check_single_url.
  destruct (row !! "url") as [[url | |]|]; cbn [default from_option id];
    try (intros; discriminate).
  destruct (Py.startswith "http" url) eqn:Hh; cbn [negb];
    [|intros; discriminate].
  destruct (get url) as [r|] eqn:Hg; [|intros; discriminate].
  destruct (bool_decide (status_code r ∈ [404; 410])) eqn:E;
    [intros; discriminate|].
  apply bool_decide_eq_false in E. intros _. exists url, r.
  split; [reflexivity|]. split; [exact Hh|]. split; [exact Hg|].
  split; intros E'; apply E; rewrite E'; set_solver.
Qed.

End VerifyFacts.

(** After [verify_and_clean_data] the output file holds exactly the rows
    whose URL passed the check, in their order and with their columns; each
    of them has an [http] URL that was answered with a status other than
    404 and 410. *)
Theorem cleaning_keeps_exactly_the_valid_rows :
  forall (get : string -> option Verify.Response) (files : Verify.Files)
         (df : Verify.DataFrame),
    Verify.output_file files = Some df ->
    "url" ∈ Verify.columns df ->
    "is_valid" ∉ Verify.columns df ->
    Forall (fun row => row !! "is_valid" = None) (Verify.rows df) ->
    exists df',
      Verify.output_file (Verify.verify_and_clean_data get files) = Some df'
      /\ Verify.columns df' = Verify.columns df
      /\ Verify.rows df'
         = filter (fun row => Verify.row_is_valid get row = true)
                  (Verify.rows df)
      /\ Forall (fun row =>
                   exists url r,
                     row !! "url" = Some (Verify.Str url)
                     /\ Py.startswith "http" url = true
                     /\ get url = Some r
                     /\ Verify.status_code r <> 404
                     /\ Verify.status_code r <> 410)
                (Verify.rows df').
Proof.
  intros get files df Hf Hurl Hcol Hrows.
  assert (Hclean : Verify.rows (Verify.valid_rows get df)
                   = filter (fun row => Verify.row_is_valid get row = true)
                            (Verify.rows df)).
  { rewrite VerifyFacts.cleaned_rows.
    assert (Hsub : Forall (fun row => row !! "is_valid" = None)
                     (filter (fun row => Verify.row_is_valid get row = true)
                             (Verify.rows df))).
    { apply Forall_forall. intros row Hrow.
      apply list_elem_of_filter in Hrow as [_ Hrow].
      revert row Hrow. apply Forall_forall, Hrows. }
    induction Hsub as [|row l Hrow _ IH]; [reflexivity|].
    cbn [map]. rewrite IH, delete_id by exact Hrow. reflexivity. }
  assert (Hall : Forall (fun row =>
                   exists url r,
                     row !! "url" = Some (Verify.Str url)
                     /\ Py.startswith "http" url = true
                     /\ get url = Some r
                     /\ Verify.status_code r <> 404
                     /\ Verify.status_code r <> 410)
                   (filter (fun row => Verify.row_is_valid get row = true)
                           (Verify.rows df))).
  { apply Forall_forall. intros row Hrow.
    apply list_elem_of_filter in Hrow as [Hv _].
    apply VerifyFacts.row_check, Hv. }
  rewrite VerifyFacts.verify_unfold, Hf.
  rewrite bool_decide_true by exact Hurl. cbn [negb].
  destruct (Nat.ltb_spec 0 (length (Verify.rows df)
                            - length (Verify.rows (Verify.valid_rows get df))))
    as [Hrem | Hrem].
  - exists (Verify.valid_rows get df). cbn [Verify.output_file].
    split; [reflexivity|]. split; [|split; [exact Hclean|]].
    + apply (VerifyFacts.columns_restored df). exact Hcol.
    + rewrite Hclean. exact Hall.
  - exists df. split; [exact Hf|]. split; [reflexivity|].
    rewrite Hclean in Hrem.
    destruct (VerifyFacts.filter_keeps_all
                (fun row => Verify.row_is_valid get row = true)
                (Verify.rows df)) as [E _]; [lia|].
    rewrite E in Hall |- *. auto.
Qed.

Lemma cleaning_keeps_exactly_the_valid_rows_witness :
  exists df',
    Verify.output_file
      (Verify.verify_and_clean_data Verify.sample_get Verify.sample_files)
    = Some df'
    /\ Verify.columns df' = ["title"; "url"]
    /\ Verify.rows df'
       = filter (fun row => Verify.row_is_valid Verify.sample_get row = true)
                (Verify.rows Verify.sample_frame)
    /\ Forall (fun row =>
                 exists url r,
                   row !! "url" = Some (Verify.Str url)
                   /\ Py.startswith "http" url = true
                   /\ Verify.sample_get url = Some r
                   /\ Verify.status_code r <> 404
                   /\ Verify.status_code r <> 410)
              (Verify.rows df').
Proof.
  apply (cleaning_keeps_exactly_the_valid_rows
           Verify.sample_get Verify.sample_files Verify.sample_frame).
  - reflexivity.
  - apply list_elem_of_In. simpl. tauto.
  - intros H. apply list_elem_of_In in H. simpl in H.
    destruct H as [H | [H | []]]; discriminate.
  - repeat constructor.
Defined.

(** Cleaning a second time, with the requests answered as before, writes
    nothing: neither the output file nor the backup changes. *)
Theorem cleaning_again_changes_nothing :
  forall (get : string -> option Verify.Response) (files : Verify.Files),
    Verify.verify_and_clean_data get (Verify.verify_and_clean_data get files)
    = Verify.verify_and_clean_data get files.
Proof.
  intros get files.
  rewrite (VerifyFacts.verify_unfold get files).
  destruct (Verify.output_file files) as [df|] eqn:Hf.
  - destruct (bool_decide ("url" ∈ Verify.columns df)) eqn:Hurl; cbn [negb].
    + destruct (0 <? length (Verify.rows df)
                     - length (Verify.rows (Verify.valid_rows get df))) eqn:Hrem.
      * rewrite VerifyFacts.verify_unfold. cbn [Verify.output_file].
        apply bool_decide_eq_true in Hurl.
        rewrite bool_decide_true
          by (apply VerifyFacts.url_column_stays; exact Hurl).
        cbn [negb].
        rewrite (VerifyFacts.cleaned_rows get (Verify.valid_rows get df)).
        rewrite (VerifyFacts.filter_all _ _
                   (VerifyFacts.cleaned_rows_valid get df)).
        rewrite length_map, Nat.sub_diag. reflexivity.
      * rewrite VerifyFacts.verify_unfold, Hf, Hurl. cbn [negb].
        rewrite Hrem. reflexivity.
    + rewrite VerifyFacts.verify_unfold, Hf, Hurl. reflexivity.
  - rewrite VerifyFacts.verify_unfold, Hf. reflexivity.
Qed.

(** Nothing is written unless a row fails the check; when one does, the
    backup keeps every original row in its place, with one more column,
    [is_valid], that records the outcome of the check. *)
Theorem backup_keeps_every_original_row :
  forall (get : string -> option Verify.Response) (files : Verify.Files)
         (df : Verify.DataFrame),
    Verify.output_file files = Some df ->
    "url" ∈ Verify.columns df ->
    "is_valid" ∉ Verify.columns df ->
    Forall (fun row => row !! "is_valid" = None) (Verify.rows df) ->
    let files' := Verify.verify_and_clean_data get files in
    if forallb (Verify.row_is_valid get) (Verify.rows df)
    then files' = files
    else exists backup,
           Verify.backup_file files' = Some backup
           /\ Verify.drop_column "is_valid" backup = df
           /\ Verify.columns backup = Verify.columns df ++ ["is_valid"]
           /\ Verify.column "is_valid" backup
              = map (fun row => Verify.Flag (Verify.row_is_valid get row))
                    (Verify.rows df).
Proof.
  intros get files df Hf Hurl Hcol Hrows files'. subst files'.
  rewrite VerifyFacts.verify_unfold, Hf.
  rewrite bool_decide_true by exact Hurl. cbn [negb].
  rewrite VerifyFacts.cleaned_rows, length_map.
  destruct (forallb (Verify.row_is_valid get) (Verify.rows df)) eqn:Hall.
  - rewrite VerifyFacts.filter_all; [rewrite Nat.sub_diag; reflexivity|].
    apply Forall_forall. intros row Hrow.
    rewrite forallb_forall in Hall. apply Hall, list_elem_of_In, Hrow.
  - destruct (Nat.ltb_spec 0
                (length (Verify.rows df)
                 - length (filter (fun row => Verify.row_is_valid get row = true)
                                  (Verify.rows df)))) as [Hrem | Hrem].
    + exists (Verify.with_flags get df). cbn [Verify.backup_file].
      split; [reflexivity|]. split; [|split].
      * unfold Verify.drop_column. rewrite VerifyFacts.flagged_rows.
        unfold Verify.with_flags.
        rewrite (VerifyFacts.columns_restored df) by exact Hcol.
        destruct df as [cols rs]. cbn [Verify.rows Verify.columns] in *.
        f_equal. clear Hf Hall Hrem.
        induction Hrows as [|row l Hrow _ IH]; [reflexivity|].
        cbn [map]. rewrite IH, delete_insert_id by exact Hrow. reflexivity.
      * cbn. rewrite bool_decide_false by exact Hcol. reflexivity.
      * unfold Verify.column. rewrite VerifyFacts.flagged_rows.
        rewrite map_map. apply map_ext. intros row.
        rewrite lookup_insert_eq. reflexivity.
    + exfalso.
      destruct (VerifyFacts.filter_keeps_all
                  (fun row => Verify.row_is_valid get row = true)
                  (Verify.rows df)) as [_ F]; [lia|].
      assert (forallb (Verify.row_is_valid get) (Verify.rows df) = true);
        [|congruence].
      apply forallb_forall. intros row Hrow.
      rewrite Forall_forall in F. apply F, list_elem_of_In, Hrow.
Qed.

Lemma backup_keeps_every_original_row_witness :
  exists backup,
    Verify.backup_file
      (Verify.verify_and_clean_data Verify.sample_get Verify.sample_files)
    = Some backup
    /\ Verify.drop_column "is_valid" backup = Verify.sample_frame
    /\ Verify.columns backup = ["title"; "url"; "is_valid"]
    /\ Verify.column "is_valid" backup
       = [Verify.Flag true; Verify.Flag false; Verify.Flag false].
Proof.
  apply (backup_keeps_every_original_row
           Verify.sample_get Verify.sample_files Verify.sample_frame).
  - reflexivity.
  - apply list_elem_of_In. simpl. tauto.
  - intros H. apply list_elem_of_In in H. simpl in H.
    destruct H as [H | [H | []]]; discriminate.
  - repeat constructor.
Defined.

(** ** The search address *)

Module UrlFacts.
Import Py PyFacts.

Lemma contains_char_cons (c x : ascii) (s : string) :
  contains (String c "") (String x s)
  = Ascii.eqb c x || contains (String c "") s.
Proof.
  change (String x s) with (String x "" +:+ s).
  rewrite ParserFacts.contains_char_app. simpl.
  destruct (Ascii.eqb c x); reflexivity.
Qed.

Lemma replace_char_clears (old new : ascii) (s : string) :
  old <> new -> contains (String old "") (replace_char old new s) = false.
Proof.
  intros Hne. induction s as [|c s IH]; [reflexivity|].
  cbn [replace_char]. rewrite contains_char_cons, IH, orb_false_r.
  destruct (Ascii.eqb_spec c old) as [-> | Hc]; apply Ascii.eqb_neq; auto.
Qed.

Lemma replace_char_inj (old new : ascii) (a b : string) :
  contains (String new "") a = false ->
  contains (String new "") b = false ->
  replace_char old new a = replace_char old new b -> a = b.
Proof.
  revert b. induction a as [|x a IH]; intros [|y b]; cbn [replace_char];
    try discriminate; [reflexivity|].
  rewrite !contains_char_cons. intros Ha Hb E.
  apply orb_false_elim in Ha as [Hx Ha], Hb as [Hy Hb].
  apply Ascii.eqb_neq in Hx, Hy.
  injection E as Ec Es. f_equal; [|exact (IH b Ha Hb Es)].
  destruct (Ascii.eqb_spec x old) as [-> | Hxo],
           (Ascii.eqb_spec y old) as [-> | Hyo]; congruence.
Qed.

Lemma replace_char_again (old new : ascii) (s : string) :
  replace_char old new (replace_char old new s) = replace_char old new s.
Proof.
  induction s as [|c s IH]; [reflexivity|]. cbn [replace_char].
  rewrite IH. f_equal.
  destruct (Ascii.eqb_spec c old) as [-> | Hc].
  - destruct (Ascii.eqb new old); reflexivity.
  - rewrite (proj2 (Ascii.eqb_neq c old)) by exact Hc. reflexivity.
Qed.

Lemma search_url_shape (kw : string) :
  search_url kw
  = "https://www.simplyhired.ca/search?q="
    +:+ replace_char " " "+" kw +:+ "&l=Toronto,+ON&w=50&so=d".
Proof. reflexivity. Qed.

End UrlFacts.

(** The address opened for a keyword has no blank in it, and it tells the
    keywords apart as long as they hold no plus sign: a blank and a plus
    sign in a keyword give the same address. *)
Theorem search_url_tells_keywords_apart :
  (forall kw, Py.contains " " (search_url kw) = false)
  /\ (forall kw kw',
         Py.contains "+" kw = false -> Py.contains "+" kw' = false ->
         kw <> kw' -> search_url kw <> search_url kw')
  /\ (forall kw, search_url (replace_char " " "+" kw) = search_url kw).
Proof.
  split; [|split].
  - intros kw. rewrite UrlFacts.search_url_shape.
    rewrite !ParserFacts.contains_char_app.
    rewrite UrlFacts.replace_char_clears by discriminate. reflexivity.
  - intros kw kw' H H' Hne E. apply Hne.
    rewrite !UrlFacts.search_url_shape in E.
    apply PyFacts.app_inv_head, ReFacts.app_inv_tail in E.
    exact (UrlFacts.replace_char_inj " " "+" kw kw' H H' E).
  - intros kw. rewrite !UrlFacts.search_url_shape.
    rewrite UrlFacts.replace_char_again. reflexivity.
Qed.

Lemma search_url_tells_keywords_apart_witness :
  search_url "data scientist" <> search_url "data analyst".
Proof.
  destruct search_url_tells_keywords_apart as [_ [H _]].
  apply (H "data scientist" "data analyst");
    [reflexivity | reflexivity | discriminate].
Defined.

(** ** What the runs write *)

Module ContentFacts.

(** The salary and the URL of a record of [job_scan.py] that has a
    salary. *)
Lemma jobscan_parsed_content (card : JobScan.Card)
    (job_data : JobScan.JobData) :
  JobScan.parse_job_data card = Returned (Some job_data) ->
  is_Some (job_data !! "salary") ->
  exists salary url,
    job_data !! "salary" = Some salary
    /\ (salary = NA \/ loosely_priced salary = true)
    /\ job_data !! "url" = Some url
    /\ Py.contains "?" url = false.
Proof.
  assert (Hs : forall text,
             JobScan.clean_salary_text (Some text) = NA
             \/ loosely_priced (JobScan.clean_salary_text (Some text)) = true).
  { intros text. unfold JobScan.clean_salary_text, clean_salary_text_with.
    destruct (Py.falsy text); [auto|].
    pose proof (SalaryResult.found_or_sentinel Pat.salary_pattern text
                  eq_refl eq_refl) as H.
    destruct (Re.search Pat.salary_pattern text) as [m|]; [|auto].
    right. destruct H as [_ [_ [_ H]]].
    exact (SentinelFacts.search_priced _ _ _ _
             SentinelFacts.salary_pattern_shape H). }
  unfold JobScan.parse_job_data.
  destruct (JobScan.outerHTML card) as [soup|]; [|discriminate]. cbv zeta.
  destruct (negb (JobScan.click_ok card)); [discriminate|].
  destruct (negb (JobScan.wait_until _ _)).
  - intros [= <-] _. eexists _, _. split; [reflexivity|].
    split; [apply Hs|]. split; [reflexivity|].
    apply (ParserFacts.before_char_free "?").
  - destruct (JobScan.description_content (JobScan.pane card)).
    + intros [= <-] _. eexists _, _. split; [reflexivity|].
      split; [apply Hs|]. split; [reflexivity|].
      apply (ParserFacts.before_char_free "?").
    + intros [= <-] [x Hx]. exfalso.
      rewrite !lookup_insert_ne in Hx by discriminate.
      rewrite lookup_empty in Hx. discriminate Hx.
Qed.

End ContentFacts.

(** In every row that a run of [job_scan.py] saves, the salary is the
    sentinel or holds a dollar amount, and the URL has no query string. *)
Theorem saved_rows_hold_clean_salary_and_url :
  forall (cfg : Config) (site : string -> nat -> JobScan.PageView),
    Forall (fun job_data : JobScan.JobData =>
              exists salary url,
                job_data !! "salary" = Some salary
                /\ (salary = NA \/ loosely_priced salary = true)
                /\ job_data !! "url" = Some url
                /\ Py.contains "?" url = false)
           (JobScan.saved (JobScan.run cfg site)).
Proof.
  intros cfg site.
  apply (jobscan_run_inv cfg
           (fun st => Forall (fun job_data : JobScan.JobData =>
                                exists salary url,
                                  job_data !! "salary" = Some salary
                                  /\ (salary = NA
                                      \/ loosely_priced salary = true)
                                  /\ job_data !! "url" = Some url
                                  /\ Py.contains "?" url = false)
                             (JobScan.saved st))); [|constructor].
  intros st card H. unfold JobScan.process_card.
  destruct (JobScan.text card) as [t|]; [|exact H].
  destruct (classify_title cfg (first_line t)) eqn:Hrel; [exact H| |];
    (destruct (JobScan.parse_job_data card) as [[job_data|]|] eqn:Hp;
     try exact H;
     destruct (RowFacts.jobscan_verify_columns cfg
                 (classify_title cfg (first_line t)) job_data st)
       as [E | [E Hs]];
     rewrite Hrel in E; rewrite E; [exact H|];
     simpl; apply Forall_app; split; [exact H|];
     constructor; [|constructor];
     exact (ContentFacts.jobscan_parsed_content card job_data Hp Hs)).
Qed.

(** No record that [run_scraper] buffers has an empty URL, description or
    qualifications field, and its salary is the sentinel or holds a dollar
    amount with a digit. *)
Theorem buffered_records_have_no_empty_field :
  forall (cfg : Config) (old_urls : gset string)
         (old_signatures : gset (string * string))
         (simplyhired_site : string -> nat -> Scraper.PageView)
         (linkedin_site : string -> nat -> Scraper.LiPageView),
    Forall (fun d => Scraper.url d <> ""
                     /\ Scraper.description d <> ""
                     /\ Scraper.qualifications d <> ""
                     /\ (Scraper.salary d = NA
                         \/ priced (Scraper.salary d) = true))
           (Scraper.new_jobs_buffer
              (Scraper.run_scraper cfg old_urls old_signatures
                                   simplyhired_site linkedin_site)).
Proof.
  intros cfg old_urls old_signatures simplyhired_site linkedin_site.
  apply (run_scraper_inv cfg
           (fun st => Forall (fun d => Scraper.url d <> ""
                                       /\ Scraper.description d <> ""
                                       /\ Scraper.qualifications d <> ""
                                       /\ (Scraper.salary d = NA
                                           \/ priced (Scraper.salary d) = true))
                             (Scraper.new_jobs_buffer st))).
  - intros st prev card H.
    destruct (BufferFacts.scraper_process_detail cfg st prev card)
      as [E | [jd [E [Hp _]]]]; rewrite E; [exact H|].
    simpl. apply Forall_app. split; [exact H|]. constructor; [|constructor].
    destruct (GateFacts.parsed_gates card prev jd Hp)
      as [_ [Hu [_ [_ [Hd [Hq Hs]]]]]].
    repeat split; auto.
    intros E'. rewrite E' in Hu. discriminate Hu.
  - intros st prev card H.
    destruct (BufferFacts.linkedin_process_detail cfg st prev card)
      as [E | [job_url [sig [data [E [_ [_ [_ [_ [_ [Hd [Hs [Hq Hu]]]]]]]]]]]]];
      rewrite E; [exact H|].
    simpl. apply Forall_app. split; [exact H|]. constructor; [|constructor].
    split; [exact Hu|]. split; [|split; [rewrite Hq; discriminate | auto]].
    rewrite Hd. apply (ParserFacts.poll_description_spec prev).
  - constructor.
Qed.
